(** * nfl-event-parser: a shallow embedding of the pipeline and its properties

    The development follows the layout of the Python package:

    - [Py]             the fragment of the Python runtime the code relies on
                       (exceptions, JSON values, insertion-ordered dicts,
                       [==], truthiness, [int(str)], [str.split]);
    - [datetime]       the fragment of the standard [datetime] module used by
                       [nfl/helpers/dates.py] ([strptime], [strftime],
                       ordinal arithmetic);
    - [dictionaries]   nfl/helpers/dictionaries.py;
    - [dates]          nfl/helpers/dates.py;
    - [command_line]   nfl/helpers/command_line.py;
    - [core]           nfl/core.py;
    - [spec], [calendar], [reading], [samples], [vocabulary]
                       the vocabulary of the specification, the Gregorian
                       calendar it refers to, the strings that read as
                       dates, and its worked example;
    - [config], [posixpath], [fetch]
                       [load_config_constants], [os.path.splitext], and
                       the rankings extraction, the two fetchers and
                       [main], over a network that is a parameter.

    The [@Logger] decoration of the three pipeline stages appends an
    entry to the audit log before the call and is left out.

    Python [str] is modelled by [string] (code points below 256), JSON
    numbers by [Z] (non-integral numbers are outside the model), a [dict]
    by an association list in insertion order.  The records handed to the
    pipeline stages are distinct objects (each one is built by
    [filter_dictionary]), so in-place updates are modelled on values. *)

From Stdlib Require Import String Ascii List ZArith Lia Bool.
Import ListNotations.
Open Scope string_scope.
Open Scope Z_scope.

(* ================================================================== *)
(** * The Python runtime fragment *)
(* ================================================================== *)

Module Py.

(** Exceptions: the class and the text (or the offending name) it carries. *)
Inductive exn : Type :=
| ValueError (msg : string)
| TypeError (msg : string)
| KeyError (key : string)
| IndexError (msg : string)
| AttributeError (msg : string)
| OverflowError (msg : string)
| UnboundLocalError (var : string)
| SystemExit (msg : string).

(** The outcome of evaluating an expression or running a block. *)
Inductive result (A : Type) : Type :=
| Return (a : A)
| Raise (e : exn).
Arguments Return {A} a.
Arguments Raise {A} e.

Definition bind {A B} (r : result A) (k : A -> result B) : result B :=
  match r with
  | Return a => k a
  | Raise e => Raise e
  end.

Declare Scope py_scope.
Delimit Scope py_scope with py.
Notation "x <- r ;; k" := (bind r (fun x => k))
  (at level 61, r at next level, right associativity) : py_scope.
Notation "' p <- r ;; k" := (bind r (fun x => let p := x in k))
  (at level 61, p pattern, r at next level, right associativity) : py_scope.
Open Scope py_scope.

(** JSON values as [json.load] builds them. *)
#[warnings="-register-all"]
Inductive value : Type :=
| VNone
| VBool (b : bool)
| VInt (n : Z)
| VStr (s : string)
| VList (l : list value)
| VDict (d : list (string * value)).

(** A [dict] with [str] keys: its items in insertion order. *)
Definition pydict : Type := list (string * value).

Definition keys {A} (d : list (string * A)) : list string := map fst d.

(** [k in d] and [d.get(k)]. *)
Fixpoint dict_get {A} (k : string) (d : list (string * A)) : option A :=
  match d with
  | [] => None
  | (k', v) :: d' => if String.eqb k k' then Some v else dict_get k d'
  end.

(** [d[k] = v]: an existing key keeps its position, a new key goes last. *)
Fixpoint dict_set {A} (k : string) (v : A) (d : list (string * A))
  : list (string * A) :=
  match d with
  | [] => [(k, v)]
  | (k', v') :: d' =>
      if String.eqb k k' then (k', v) :: d' else (k', v') :: dict_set k v d'
  end.

(** [d[k]] as an expression. *)
Definition getitem (d : pydict) (k : string) : result value :=
  match dict_get k d with
  | Some v => Return v
  | None => Raise (KeyError k)
  end.

(** [bool(v)]. *)
Definition truthy (v : value) : bool :=
  match v with
  | VNone => false
  | VBool b => b
  | VInt n => negb (n =? 0)
  | VStr s => negb (String.eqb s "")
  | VList l => match l with [] => false | _ => true end
  | VDict d => match d with [] => false | _ => true end
  end.

(** [a == b]: booleans compare as the integers 0 and 1, lists item by
    item, dicts by their key sets and the values under each key. *)
Fixpoint py_eq (a b : value) {struct a} : bool :=
  match a, b with
  | VNone, VNone => true
  | VBool x, VBool y => Bool.eqb x y
  | VBool x, VInt n => Z.b2z x =? n
  | VInt n, VBool x => n =? Z.b2z x
  | VInt m, VInt n => m =? n
  | VStr s, VStr t => String.eqb s t
  | VList xs, VList ys =>
      (fix items (xs ys : list value) {struct xs} : bool :=
         match xs, ys with
         | [], [] => true
         | x :: xs', y :: ys' => py_eq x y && items xs' ys'
         | _, _ => false
         end) xs ys
  | VDict d, VDict e =>
      (length d =? length e)%nat &&
      (fix items (d : list (string * value)) {struct d} : bool :=
         match d with
         | [] => true
         | (k, v) :: d' =>
             match dict_get k e with
             | Some w => py_eq v w && items d'
             | None => false
             end
         end) d
  | _, _ => false
  end.

(** ** Characters and [str] methods *)

Definition char_code (c : ascii) : Z := Z.of_nat (nat_of_ascii c).

Definition is_digit (c : ascii) : bool :=
  (48 <=? char_code c) && (char_code c <=? 57).

Definition digit_value (c : ascii) : Z := char_code c - 48.

(** The character for a decimal digit [0 <= n <= 9]. *)
Definition digit_char (n : Z) : ascii := ascii_of_nat (Z.to_nat (48 + n)).

(** White space that [int] skips at both ends of its argument. *)
Definition is_int_space (c : ascii) : bool :=
  let n := char_code c in
  ((9 <=? n) && (n <=? 13)) || (n =? 32) || (n =? 133) || (n =? 160).

(** White space in the sense of the [re] module's [\s] on [str]. *)
Definition is_space (c : ascii) : bool :=
  let n := char_code c in
  ((9 <=? n) && (n <=? 13)) || ((28 <=? n) && (n <=? 32))
  || (n =? 133) || (n =? 160).

Fixpoint lstrip (p : ascii -> bool) (s : string) : string :=
  match s with
  | String c s' => if p c then lstrip p s' else s
  | EmptyString => s
  end.

Fixpoint all_chars (p : ascii -> bool) (s : string) : bool :=
  match s with
  | String c s' => p c && all_chars p s'
  | EmptyString => true
  end.

(** The longest decimal literal [int] converts: beyond
    [sys.int_info.default_max_str_digits] digits it raises [ValueError]. *)
Definition max_str_digits : Z := 4300.

(** The digits of an integer literal once its first digit has been read:
    a single underscore may separate two digits.  The value read so far
    and the number of digits go along. *)
Fixpoint int_digits (acc digits : Z) (s : string) {struct s}
  : option (Z * Z * string) :=
  match s with
  | String c s' =>
      if is_digit c then int_digits (10 * acc + digit_value c) (digits + 1) s'
      else if Ascii.eqb c "_" then
        match s' with
        | String d s'' =>
            if is_digit d
            then int_digits (10 * acc + digit_value d) (digits + 1) s''
            else None
        | EmptyString => None
        end
      else Some (acc, digits, s)
  | EmptyString => Some (acc, digits, s)
  end.

Definition int_magnitude (s : string) : option Z :=
  match s with
  | String c s' =>
      if is_digit c then
        match int_digits (digit_value c) 1 s' with
        | Some (n, digits, rest) =>
            if all_chars is_int_space rest
            then (if max_str_digits <? digits then None else Some n)
            else None
        | None => None
        end
      else None
  | EmptyString => None
  end.

(** [int(s)] for a [str] in base 10, [None] when it raises. *)
Definition parse_int (s : string) : option Z :=
  match lstrip is_int_space s with
  | String "-" s' => option_map Z.opp (int_magnitude s')
  | String "+" s' => int_magnitude s'
  | s' => int_magnitude s'
  end.

Definition int_of_str (s : string) : result Z :=
  match parse_int s with
  | Some n => Return n
  | None => Raise (ValueError "invalid literal for int() with base 10")
  end.

(** [s.split(sep)] for a one-character separator. *)
Fixpoint split (sep : ascii) (s : string) : list string :=
  match s with
  | EmptyString => [""]
  | String c s' =>
      if Ascii.eqb c sep then "" :: split sep s'
      else match split sep s' with
           | part :: parts => String c part :: parts
           | [] => [String c ""]
           end
  end.

(** [l[i]] for a list and a non-negative index. *)
Definition list_item {A} (l : list A) (i : nat) : result A :=
  match nth_error l i with
  | Some x => Return x
  | None => Raise (IndexError "list index out of range")
  end.

End Py.
Import Py.

(* ================================================================== *)
(** * nfl/helpers/dictionaries.py *)
(* ================================================================== *)

Module dictionaries.

(** [key in keys_to_keep] for a list of strings. *)
Definition contains (l : list string) (k : string) : bool :=
  existsb (String.eqb k) l.

(** [{key: value for key, value in dictionary.items() if key in keys_to_keep}]:
    the comprehension stores the retained items one after the other in a
    dict that starts empty. *)
Definition filter_dictionary (dictionary : pydict) (keys_to_keep : list string)
  : pydict :=
  fold_left
    (fun acc kv => if contains keys_to_keep (fst kv)
                   then dict_set (fst kv) (snd kv) acc else acc)
    dictionary [].

End dictionaries.

(* ================================================================== *)
(** * The [datetime] fragment used by nfl/helpers/dates.py *)
(* ================================================================== *)

Module datetime.

(** A naive [datetime] down to the minute (seconds and microseconds are
    zero in every value the package builds). *)
Record t : Type := mk { year : Z; month : Z; day : Z; hour : Z; minute : Z }.

Definition MINYEAR : Z := 1.
Definition MAXYEAR : Z := 9999.
Definition _MAXORDINAL : Z := 3652059.

Definition _DAYS_IN_MONTH : list Z :=
  [-1; 31; 28; 31; 30; 31; 30; 31; 31; 30; 31; 30; 31].
Definition _DAYS_BEFORE_MONTH : list Z :=
  [-1; 0; 31; 59; 90; 120; 151; 181; 212; 243; 273; 304; 334].

Definition table (l : list Z) (i : Z) : Z := nth (Z.to_nat i) l 0.

Definition _is_leap (y : Z) : bool :=
  (y mod 4 =? 0) && (negb (y mod 100 =? 0) || (y mod 400 =? 0)).

Definition _days_before_year (y : Z) : Z :=
  let y := y - 1 in y * 365 + y / 4 - y / 100 + y / 400.

Definition _days_in_month (y m : Z) : Z :=
  if (m =? 2) && _is_leap y then 29 else table _DAYS_IN_MONTH m.

Definition _days_before_month (y m : Z) : Z :=
  table _DAYS_BEFORE_MONTH m + (if (m >? 2) && _is_leap y then 1 else 0).

Definition _ymd2ord (y m d : Z) : Z :=
  _days_before_year y + _days_before_month y m + d.

Definition _DI400Y : Z := 146097.
Definition _DI100Y : Z := 36524.
Definition _DI4Y : Z := 1461.

Definition _ord2ymd (n : Z) : Z * Z * Z :=
  let n := n - 1 in
  let n400 := n / _DI400Y in
  let n := n mod _DI400Y in
  let year := n400 * 400 + 1 in
  let n100 := n / _DI100Y in
  let n := n mod _DI100Y in
  let n4 := n / _DI4Y in
  let n := n mod _DI4Y in
  let n1 := n / 365 in
  let n := n mod 365 in
  let year := year + n100 * 100 + n4 * 4 + n1 in
  if (n1 =? 4) || (n100 =? 4) then (year - 1, 12, 31)
  else
    let leapyear := (n1 =? 3) && (negb (n4 =? 24) || (n100 =? 3)) in
    let month := Z.shiftr (n + 50) 5 in
    let preceding :=
      table _DAYS_BEFORE_MONTH month
      + (if (month >? 2) && leapyear then 1 else 0) in
    if preceding >? n then
      let month := month - 1 in
      let preceding :=
        preceding - (table _DAYS_IN_MONTH month
                     + (if (month =? 2) && leapyear then 1 else 0)) in
      (year, month, n - preceding + 1)
    else (year, month, n - preceding + 1).

(** The range checks of the [date] and [datetime] constructors. *)
Definition check_date_fields (y m d : Z) : result unit :=
  if negb ((MINYEAR <=? y) && (y <=? MAXYEAR))
  then Raise (ValueError "year is out of range")
  else if negb ((1 <=? m) && (m <=? 12))
  then Raise (ValueError "month must be in 1..12")
  else if negb ((1 <=? d) && (d <=? _days_in_month y m))
  then Raise (ValueError "day is out of range for month")
  else Return tt.

Definition check_time_fields (H M : Z) : result unit :=
  if negb ((0 <=? H) && (H <=? 23))
  then Raise (ValueError "hour must be in 0..23")
  else if negb ((0 <=? M) && (M <=? 59))
  then Raise (ValueError "minute must be in 0..59")
  else Return tt.

Definition new (y m d H M : Z) : result t :=
  _ <- check_date_fields y m d ;;
  _ <- check_time_fields H M ;;
  Return (mk y m d H M).

Definition toordinal (dt : t) : Z := _ymd2ord (year dt) (month dt) (day dt).

(** [dt + timedelta(days=days)]. *)
Definition add_days (dt : t) (days : Z) : result t :=
  if 999999999 <? Z.abs days
  then Raise (OverflowError "days out of range for timedelta")
  else
    let n := toordinal dt + days in
    if (0 <? n) && (n <=? _MAXORDINAL)
    then let '(y, m, d) := _ord2ymd n in Return (mk y m d (hour dt) (minute dt))
    else Raise (OverflowError "date value out of range").

(** ** Formats

    A format is a sequence of directives and literal characters; a
    literal is any character other than [%] and the letters (the formats
    of this package separate fields by [-], [:] and a blank). *)
Inductive directive : Type := dY | dm | dd | dH | dM.

Inductive item : Type :=
| Directive (d : directive)
| Literal (c : ascii).

Definition format : Type := list item.

Definition directive_eqb (a b : directive) : bool :=
  match a, b with
  | dY, dY | dm, dm | dd, dd | dH, dH | dM, dM => true
  | _, _ => false
  end.

(** ** [strftime] *)

Definition pad2 (n : Z) : string :=
  String (digit_char (n / 10)) (String (digit_char (n mod 10)) "").

Definition pad4 (n : Z) : string :=
  String (digit_char (n / 1000))
    (String (digit_char (n / 100 mod 10))
       (String (digit_char (n / 10 mod 10))
          (String (digit_char (n mod 10)) ""))).

(** The decimal digits of a number, without padding. *)
Definition decimal (n : Z) : string :=
  if n <? 10 then String (digit_char n) ""
  else if n <? 100 then pad2 n
  else if n <? 1000
  then String (digit_char (n / 100))
         (String (digit_char (n / 10 mod 10))
            (String (digit_char (n mod 10)) ""))
  else pad4 n.

(** Month, day, hour and minute are zero-padded to two digits.  The year
    is left to the C library's [strftime], which writes it without
    padding (glibc): four digits from the year 1000 on, fewer before. *)
Definition render (dt : t) (d : directive) : string :=
  match d with
  | dY => decimal (year dt)
  | dm => pad2 (month dt)
  | dd => pad2 (day dt)
  | dH => pad2 (hour dt)
  | dM => pad2 (minute dt)
  end.

Fixpoint strftime (dt : t) (f : format) : string :=
  match f with
  | [] => ""
  | Directive d :: f' => render dt d ++ strftime dt f'
  | Literal c :: f' => String c (strftime dt f')
  end.

(** ** [strptime]

    The format is turned into a regular expression: each directive into a
    group of alternatives tried from left to right, each run of white
    space into [\s+], any other character into itself.  [re.match]
    returns the first match of a backtracking search; the input must then
    be consumed entirely. *)

Inductive regex_item : Type :=
| RGroup (d : directive)
| RChar (c : ascii)
| RSpaces.

Fixpoint compile (after_space : bool) (f : format) : list regex_item :=
  match f with
  | [] => []
  | Directive d :: f' => RGroup d :: compile false f'
  | Literal c :: f' =>
      if is_space c
      then (if after_space then compile true f' else RSpaces :: compile true f')
      else RChar c :: compile false f'
  end.

Definition is_char (a c : ascii) : bool := Ascii.eqb a c.

Definition in_range (lo hi c : ascii) : bool :=
  (char_code lo <=? char_code c) && (char_code c <=? char_code hi).

(** The alternatives of a directive's group, each a sequence of
    character classes. *)
Definition alternatives (d : directive) : list (list (ascii -> bool)) :=
  match d with
  | dY => [[is_digit; is_digit; is_digit; is_digit]]
  | dm => [[is_char "1"; in_range "0" "2"];
           [is_char "0"; in_range "1" "9"];
           [in_range "1" "9"]]
  | dd => [[is_char "3"; in_range "0" "1"];
           [in_range "1" "2"; is_digit];
           [is_char "0"; in_range "1" "9"];
           [in_range "1" "9"];
           [is_char " "; in_range "1" "9"]]
  | dH => [[is_char "2"; in_range "0" "3"];
           [in_range "0" "1"; is_digit];
           [is_digit]]
  | dM => [[in_range "0" "5"; is_digit];
           [is_digit]]
  end.

(** A sequence of character classes against the front of [s]: the text
    matched and what follows it. *)
Fixpoint match_classes (cs : list (ascii -> bool)) (s : string)
  : option (string * string) :=
  match cs with
  | [] => Some ("", s)
  | p :: cs' =>
      match s with
      | String c s' =>
          if p c then
            match match_classes cs' s' with
            | Some (text, rest) => Some (String c text, rest)
            | None => None
            end
          else None
      | EmptyString => None
      end
  end.

Definition match_group (d : directive) (s : string) : list (string * string) :=
  flat_map
    (fun cs => match match_classes cs s with Some r => [r] | None => [] end)
    (alternatives d).

(** What may follow a greedy [\s+] at the front of [s], longest run first. *)
Fixpoint after_spaces (s : string) : list string :=
  match s with
  | String c s' => if is_space c then (after_spaces s' ++ [s'])%list else []
  | EmptyString => []
  end.

Definition groups : Type := list (directive * string).

(** All the matches of the expression at the front of [s], in the order
    the backtracking search finds them: the groups and the rest of [s]. *)
Fixpoint matches (re : list regex_item) (s : string) : list (groups * string) :=
  match re with
  | [] => [([], s)]
  | RGroup d :: re' =>
      flat_map
        (fun m => map (fun r => ((d, fst m) :: fst r, snd r))
                      (matches re' (snd m)))
        (match_group d s)
  | RChar c :: re' =>
      match s with
      | String c' s' => if Ascii.eqb c c' then matches re' s' else []
      | EmptyString => []
      end
  | RSpaces :: re' => flat_map (matches re') (after_spaces s)
  end.

Definition group (g : groups) (d : directive) : option string :=
  match find (fun e => directive_eqb d (fst e)) g with
  | Some e => Some (snd e)
  | None => None
  end.

(** The integer of a group, or the default of a field without one. *)
Definition field (g : groups) (d : directive) (default : Z) : result Z :=
  match group g d with
  | Some text => int_of_str text
  | None => Return default
  end.

Definition strptime (data_string : string) (f : format) : result t :=
  match matches (compile false f) data_string with
  | [] => Raise (ValueError "time data does not match format")
  | (g, rest) :: _ =>
      if negb (String.eqb rest "")
      then Raise (ValueError "unconverted data remains")
      else
        m <- field g dm 1 ;;
        d <- field g dd 1 ;;
        H <- field g dH 0 ;;
        M <- field g dM 0 ;;
        y <- field g dY (if (m =? 2) && (d =? 29) then 1904 else 1900) ;;
        new y m d H M
  end.

End datetime.

(* ================================================================== *)
(** * nfl/helpers/dates.py *)
(* ================================================================== *)

Module dates.
Import datetime.

(** ["%Y-%m-%d"], ["%Y-%m-%d %H:%M"], ["%d-%m-%Y"] and ["%H:%M"]. *)
Definition fmt_Ymd : format :=
  [Directive dY; Literal "-"; Directive dm; Literal "-"; Directive dd].
Definition fmt_Ymd_HM : format :=
  [Directive dY; Literal "-"; Directive dm; Literal "-"; Directive dd;
   Literal " "; Directive dH; Literal ":"; Directive dM].
Definition fmt_dmY : format :=
  [Directive dd; Literal "-"; Directive dm; Literal "-"; Directive dY].
Definition fmt_HM : format :=
  [Directive dH; Literal ":"; Directive dM].

Definition generate_end_date (start_date delta : string) (date_format : format)
  : result string :=
  start <- strptime start_date date_format ;;
  days <- int_of_str delta ;;
  end_date <- add_days start days ;;
  Return (strftime end_date date_format).

Definition split_datetime (date_time : string) (datetime_format : format)
  : result (string * string) :=
  fulldate <- strptime date_time datetime_format ;;
  Return (strftime fulldate fmt_dmY, strftime fulldate fmt_HM).

Definition event_date_missing : string :=
  "event_date column not present in response fields provided. Check config.json to ensure it was not removed from SCOREBOARD['fields_of_interest'].".

(** The argument check of [datetime.strptime]. *)
Definition expect_str (v : value) : result string :=
  match v with
  | VStr s => Return s
  | _ => Raise (TypeError "strptime() argument 1 must be str")
  end.

(** The body of the loop of [add_date_and_time] for one record. *)
Definition add_date_and_time_1 (response : pydict) : result pydict :=
  match
    (v <- getitem response "event_date" ;;
     s <- expect_str v ;;
     dt <- split_datetime s fmt_Ymd_HM ;;
     Return (dict_set "event_time" (VStr (snd dt))
               (dict_set "event_date" (VStr (fst dt)) response)))
  with
  | Raise (KeyError _) => Raise (KeyError event_date_missing)
  | r => r
  end.

Fixpoint add_date_and_time (response_data : list pydict)
  : result (list pydict) :=
  match response_data with
  | [] => Return []
  | response :: rest =>
      response' <- add_date_and_time_1 response ;;
      rest' <- add_date_and_time rest ;;
      Return (response' :: rest')
  end.

End dates.

(* ================================================================== *)
(** * nfl/helpers/command_line.py *)
(* ================================================================== *)

Module command_line.

Definition usage_message : string :=
  "The expected input includes starting date and a delta in days. Example: python main.py 2020-01-12 7".
Definition date_message : string :=
  "Please pass a starting date (including a year, month, and date) in the following format: YYYY-MM-DD.".
Definition delta_message : string :=
  "The delta provided must be between 0 and 7 days inclusive.".

(** The function returns nothing; printing the banner is its last step
    and is the only effect of a successful check. *)
Definition check_command_line_arguments (argc : Z) (argv : list string)
  : result unit :=
  if negb (argc =? 3) then Raise (ValueError usage_message)
  else
    start_date <- list_item argv 1 ;;
    if negb (length (split "-" start_date) =? 3)%nat
    then Raise (ValueError date_message)
    else
      delta <- list_item argv 2 ;;
      days <- int_of_str delta ;;
      if negb ((0 <=? days) && (days <? 8))
      then Raise (ValueError delta_message)
      else Return tt.

End command_line.

(* ================================================================== *)
(** * nfl/core.py *)
(* ================================================================== *)

Module core.
Import dictionaries dates.

(** [v[k]] for a string [k] and an arbitrary JSON value [v]. *)
Definition subscript (v : value) (k : string) : result value :=
  match v with
  | VDict d => getitem d k
  | VList _ => Raise (TypeError "list indices must be integers or slices, not str")
  | VStr _ => Raise (TypeError "string indices must be integers")
  | _ => Raise (TypeError "object is not subscriptable")
  end.

(** [v.items()]. *)
Definition items (v : value) : result pydict :=
  match v with
  | VDict d => Return d
  | _ => Raise (AttributeError "object has no attribute 'items'")
  end.

(** ** [_extract_scoreboard_fields_of_interest]

    [SCOREBOARD["fields_of_interest"]] is read from config.json when the
    module is loaded; it is a parameter here. *)

(** The inner loop, over the items of one day's games. *)
Fixpoint extract_events (scoreboard_fields_of_interest : list string)
    (games : pydict) (filtered_scoreboard_data : list pydict)
  : result (list pydict) :=
  match games with
  | [] => Return filtered_scoreboard_data
  | (event_id, event_data) :: games' =>
      dictionary <- items event_data ;;
      let filtered_event_data :=
        filter_dictionary dictionary scoreboard_fields_of_interest in
      let filtered_event_data :=
        dict_set "event_id" (VStr event_id) filtered_event_data in
      extract_events scoreboard_fields_of_interest games'
        (filtered_scoreboard_data ++ [filtered_event_data])%list
  end.

(** The outer loop, over the keys of the payload. *)
Fixpoint extract_entries (scoreboard_fields_of_interest : list string)
    (complete_scoreboard_data : pydict) (entries : list string)
    (filtered_scoreboard_data : list pydict) : result (list pydict) :=
  match entries with
  | [] => Return filtered_scoreboard_data
  | entry :: entries' =>
      event_results <- getitem complete_scoreboard_data entry ;;
      if truthy event_results then
        data <- subscript event_results "data" ;;
        games <- items data ;;
        filtered_scoreboard_data <-
          extract_events scoreboard_fields_of_interest games
            filtered_scoreboard_data ;;
        extract_entries scoreboard_fields_of_interest
          complete_scoreboard_data entries' filtered_scoreboard_data
      else
        extract_entries scoreboard_fields_of_interest
          complete_scoreboard_data entries' filtered_scoreboard_data
  end.

Definition _extract_scoreboard_fields_of_interest
    (scoreboard_fields_of_interest : list string)
    (complete_scoreboard_data : pydict) : result (list pydict) :=
  extract_entries scoreboard_fields_of_interest complete_scoreboard_data
    (keys complete_scoreboard_data) [].

(** ** [pull_json_data]

    What a fetcher hands back: a list of records, or [None] when it
    falls off its end. *)
Definition fetched : Type := option (list pydict).

Definition fetched_truthy (f : fetched) : bool :=
  match f with
  | Some (_ :: _) => true
  | _ => false
  end.

Definition bad_date_message : string :=
  "Please pass a correct starting date, such as 2000-12-20.".
Definition bad_delta_message : string :=
  "Must pass a time delta between 0 and 7 days (inclusive).".
Definition no_data_message : string :=
  "No scoreboard data was returned for the specified starting date and delta provided. Either no data exists, or a date out of range was entered by mistake. Please check that the starting date provided is correct.".

Section pull.

(** The two private fetchers talk to the remote endpoints; what they
    return or raise on a given run is a parameter. *)
Variable _pull_scoreboard_data : string -> string -> result fetched.
Variable _pull_team_rankings : unit -> result fetched.

(** The [try] suite: the value of [scoreboard_data] when the suite ends,
    with its outcome. *)
Definition pull_try (start_date delta : string) (scoreboard_data : fetched)
  : fetched * result fetched :=
  match _pull_scoreboard_data start_date delta with
  | Raise e => (scoreboard_data, Raise e)
  | Return scoreboard_data' =>
      (scoreboard_data', _pull_team_rankings tt)
  end.

(** The [except ValueError] and [except TypeError] clauses. *)
Definition pull_except (r : result fetched) : result fetched :=
  match r with
  | Raise (ValueError ve) => Raise (ValueError (ve ++ ". " ++ bad_date_message))
  | Raise (TypeError _) => Raise (ValueError bad_delta_message)
  | _ => r
  end.

(** The [finally] clause: an exception raised in it replaces the one in
    flight; otherwise the outcome so far stands. *)
Definition pull_finally {A} (scoreboard_data : fetched) (r : result A)
  : result A :=
  if negb (fetched_truthy scoreboard_data)
  then Raise (ValueError no_data_message)
  else r.

Definition pull_json_data (start_date delta : string)
  : result (fetched * fetched) :=
  let scoreboard_data := None in
  let '(scoreboard_data, r) := pull_try start_date delta scoreboard_data in
  team_ranking_data <- pull_finally scoreboard_data (pull_except r) ;;
  Return (scoreboard_data, team_ranking_data).

End pull.

(** ** [transform_json_data] *)

Definition desired_key_order : list string :=
  ["event_id"; "event_date"; "event_time"; "away_team_id"; "away_nick_name";
   "away_city"; "away_rank"; "away_rank_points"; "home_team_id";
   "home_nick_name"; "home_city"; "home_rank"; "home_rank_points"].

(** The local variables the join assigns inside a branch: each is bound
    or not. *)
Record locals : Type := mk_locals {
  away_team_rank : option value;
  away_team_points : option value;
  home_team_rank : option value;
  home_team_points : option value
}.

Definition unbound : locals := mk_locals None None None None.

(** Reading a local variable. *)
Definition load (var : string) (binding : option value) : result value :=
  match binding with
  | Some v => Return v
  | None => Raise (UnboundLocalError var)
  end.

(** The body of the loop over [team_rankings]. *)
Definition match_team (away_team_id home_team_id : value) (vars : locals)
    (team : pydict) : result locals :=
  team_id <- getitem team "team_id" ;;
  if py_eq away_team_id team_id then
    rank <- getitem team "rank" ;;
    points <- getitem team "adjusted_points" ;;
    Return (mk_locals (Some rank) (Some points)
              (home_team_rank vars) (home_team_points vars))
  else
    team_id <- getitem team "team_id" ;;
    if py_eq home_team_id team_id then
      rank <- getitem team "rank" ;;
      points <- getitem team "adjusted_points" ;;
      Return (mk_locals (away_team_rank vars) (away_team_points vars)
                (Some rank) (Some points))
    else Return vars.

Fixpoint scan_rankings (away_team_id home_team_id : value) (vars : locals)
    (team_rankings : list pydict) : result locals :=
  match team_rankings with
  | [] => Return vars
  | team :: rest =>
      vars' <- match_team away_team_id home_team_id vars team ;;
      scan_rankings away_team_id home_team_id vars' rest
  end.

(** [{key: event[key] for key in desired_key_order}]. *)
Fixpoint reorder (key_order : list string) (event : pydict) (acc : pydict)
  : result pydict :=
  match key_order with
  | [] => Return acc
  | key :: rest =>
      v <- getitem event key ;;
      reorder rest event (dict_set key v acc)
  end.

(** The body of the loop over [scoreboard_data]. *)
Definition join_event (team_rankings : list pydict) (vars : locals)
    (event : pydict) : result (locals * pydict) :=
  away_team_id <- getitem event "away_team_id" ;;
  home_team_id <- getitem event "home_team_id" ;;
  vars <- scan_rankings away_team_id home_team_id vars team_rankings ;;
  away_rank <- load "away_team_rank" (away_team_rank vars) ;;
  away_points <- load "away_team_points" (away_team_points vars) ;;
  let event :=
    dict_set "away_rank_points" away_points
      (dict_set "away_rank" away_rank event) in
  home_rank <- load "home_team_rank" (home_team_rank vars) ;;
  home_points <- load "home_team_points" (home_team_points vars) ;;
  let event :=
    dict_set "home_rank_points" home_points
      (dict_set "home_rank" home_rank event) in
  ordered_output <- reorder desired_key_order event [] ;;
  Return (vars, ordered_output).

Fixpoint join_events (team_rankings : list pydict) (vars : locals)
    (scoreboard_data : list pydict) (transformed_result_list : list pydict)
  : result (list pydict) :=
  match scoreboard_data with
  | [] => Return transformed_result_list
  | event :: rest =>
      step <- join_event team_rankings vars event ;;
      join_events team_rankings (fst step) rest
        (transformed_result_list ++ [snd step])%list
  end.

Definition transform_json_data (scoreboard_data team_rankings : list pydict)
  : result (list pydict) :=
  scoreboard_data <- add_date_and_time scoreboard_data ;;
  join_events team_rankings unbound scoreboard_data [].

End core.

(* ================================================================== *)
(** * Vocabulary of the specification *)
(* ================================================================== *)

Module spec.
Import dictionaries core.

(** The item is retained by the field filter. *)
Definition kept (keys_to_keep : list string) (kv : string * value) : bool :=
  contains keys_to_keep (fst kv).

(** The ranking record's team id equals [id]. *)
Definition has_team_id (id : string) (team : pydict) : bool :=
  match dict_get "team_id" team with
  | Some t => py_eq (VStr id) t
  | None => false
  end.

(** The ranking record for a team: the last one with that team id (the
    only one when team ids are unique in the snapshot). *)
Definition ranking_for (id : string) (team_rankings : list pydict)
  : option pydict :=
  find (has_team_id id) (rev team_rankings).

(** The id equals the team id of no ranking record. *)
Definition matches_no_team (id : value) (team_rankings : list pydict) : bool :=
  forallb (fun team => match dict_get "team_id" team with
                       | Some t => negb (py_eq id t)
                       | None => true
                       end) team_rankings.

Definition away_unmatched (team_rankings : list pydict) (event : pydict) : bool :=
  match dict_get "away_team_id" event with
  | Some id => matches_no_team id team_rankings
  | None => false
  end.

Definition home_unmatched (team_rankings : list pydict) (event : pydict) : bool :=
  match dict_get "home_team_id" event with
  | Some id => matches_no_team id team_rankings
  | None => false
  end.

Definition has_key (k : string) (d : pydict) : bool :=
  match dict_get k d with Some _ => true | None => false end.

(** An Event Record carries the two team ids; a Ranking Record carries a
    team id, a rank and the adjusted points. *)
Definition is_event_record (event : pydict) : bool :=
  has_key "away_team_id" event && has_key "home_team_id" event.

Definition is_ranking_record (team : pydict) : bool :=
  has_key "team_id" team && has_key "rank" team
  && has_key "adjusted_points" team.

(** The Event Record of one game entry: its fields filtered, with the
    entry's identifier as [event_id]. *)
Definition event_record (fields : list string) (game : string * value)
  : option pydict :=
  match snd game with
  | VDict event_data =>
      Some (dict_set "event_id" (VStr (fst game))
              (filter_dictionary event_data fields))
  | _ => None
  end.

Fixpoint all_some {A} (l : list (option A)) : option (list A) :=
  match l with
  | [] => Some []
  | Some x :: l' => option_map (cons x) (all_some l')
  | None :: l' => None
  end.

(** The Event Records of one date bucket: none for an empty game list
    (any falsy value), one per game entry of the [data] mapping
    otherwise; [None] for a bucket of another shape. *)
Definition day_records (fields : list string) (bucket : value)
  : option (list pydict) :=
  if truthy bucket then
    match bucket with
    | VDict b =>
        match dict_get "data" b with
        | Some (VDict games) => all_some (map (event_record fields) games)
        | _ => None
        end
    | _ => None
    end
  else Some [].

(** The two variables of a side are assigned together. *)
Definition paired (vars : locals) : Prop :=
  (away_team_rank vars = None <-> away_team_points vars = None)
  /\ (home_team_rank vars = None <-> home_team_points vars = None).

(** All four rank variables are bound, to these values. *)
Definition bound (vars : locals) (ar ap hr hp : value) : Prop :=
  vars = mk_locals (Some ar) (Some ap) (Some hr) (Some hp).

(** Some ranking record has the away id as its team id: the [if] branch
    of the scan runs for it. *)
Definition away_assigned (team_rankings : list pydict) (event : pydict) : bool :=
  match dict_get "away_team_id" event with
  | Some a =>
      existsb (fun team => match dict_get "team_id" team with
                           | Some t => py_eq a t
                           | None => false
                           end) team_rankings
  | None => false
  end.

(** Some ranking record has the home id as its team id and not the away
    id: the [elif] branch of the scan runs for it. *)
Definition home_assigned (team_rankings : list pydict) (event : pydict) : bool :=
  match dict_get "away_team_id" event, dict_get "home_team_id" event with
  | Some a, Some h =>
      existsb (fun team => match dict_get "team_id" team with
                           | Some t => negb (py_eq a t) && py_eq h t
                           | None => false
                           end) team_rankings
  | _, _ => false
  end.

(** The two variables of the away side, of the home side, are bound. *)
Definition away_bound (vars : locals) : Prop :=
  away_team_rank vars <> None /\ away_team_points vars <> None.

Definition home_bound (vars : locals) : Prop :=
  home_team_rank vars <> None /\ home_team_points vars <> None.
End spec.

(** The Gregorian calendar and the renderings the specification names. *)
Module calendar.
Import datetime.

Definition leap_year (y : Z) : bool :=
  if y mod 400 =? 0 then true
  else if y mod 100 =? 0 then false
  else y mod 4 =? 0.

Definition month_length (y m : Z) : Z :=
  if (m =? 4) || (m =? 6) || (m =? 9) || (m =? 11) then 30
  else if m =? 2 then (if leap_year y then 29 else 28)
  else 31.

(** A date of the years 1 to 9999, and a time of day. *)
Definition valid_date (y m d : Z) : bool :=
  (1 <=? y) && (y <=? 9999) && (1 <=? m) && (m <=? 12)
  && (1 <=? d) && (d <=? month_length y m).

Definition valid_time (H M : Z) : bool :=
  (0 <=? H) && (H <=? 23) && (0 <=? M) && (M <=? 59).

(** The next calendar day, and the day [n] calendar days later. *)
Definition tomorrow (date : Z * Z * Z) : Z * Z * Z :=
  let '(y, m, d) := date in
  if d <? month_length y m then (y, m, d + 1)
  else if m <? 12 then (y, m + 1, 1)
  else (y + 1, 1, 1).

Definition days_after (n : nat) (date : Z * Z * Z) : Z * Z * Z :=
  Nat.iter n tomorrow date.

(** [YYYY-MM-DD], [YYYY-MM-DD HH:MM], [DD-MM-YYYY] and [HH:MM]. *)
Definition iso_date (date : Z * Z * Z) : string :=
  let '(y, m, d) := date in pad4 y ++ "-" ++ pad2 m ++ "-" ++ pad2 d.

Definition iso_datetime (y m d H M : Z) : string :=
  iso_date (y, m, d) ++ " " ++ pad2 H ++ ":" ++ pad2 M.

Definition dmy_date (y m d : Z) : string :=
  pad2 d ++ "-" ++ pad2 m ++ "-" ++ pad4 y.

Definition hm_time (H M : Z) : string := pad2 H ++ ":" ++ pad2 M.

(** The month and the day of the month of the day numbered [n] from 0
    within its year: the last steps of [_ord2ymd]. *)
Definition month_day (leapyear : bool) (n : Z) : Z * Z :=
  let month := Z.shiftr (n + 50) 5 in
  let preceding :=
    table _DAYS_BEFORE_MONTH month
    + (if (month >? 2) && leapyear then 1 else 0) in
  if preceding >? n then
    let month := month - 1 in
    let preceding :=
      preceding - (table _DAYS_IN_MONTH month
                   + (if (month =? 2) && leapyear then 1 else 0)) in
    (month, n - preceding + 1)
  else (month, n - preceding + 1).

(** A date the [date] constructor accepts, whatever the year, and its
    ordinal. *)
Definition date_ok (date : Z * Z * Z) : Prop :=
  let '(y, m, d) := date in
  1 <= y /\ 1 <= m <= 12 /\ 1 <= d <= _days_in_month y m.

Definition ordinal (date : Z * Z * Z) : Z :=
  let '(y, m, d) := date in _ymd2ord y m d.

(** The integers [lo], [lo + 1], ..., [lo + n - 1]. *)
Definition zrange (lo : Z) (n : nat) : list Z :=
  map (fun k => lo + Z.of_nat k) (seq 0 n).

(** Every day of every month, in a leap year and in a common year, is
    found again by [month_day] from its number within the year. *)
Definition month_day_check : bool :=
  forallb
    (fun leap =>
       forallb
         (fun m =>
            forallb
              (fun d =>
                 if d <=? (if (m =? 2) && leap then 29
                           else table _DAYS_IN_MONTH m)
                 then
                   let n := table _DAYS_BEFORE_MONTH m
                            + (if (m >? 2) && leap then 1 else 0) + d - 1 in
                   (fst (month_day leap n) =? m) && (snd (month_day leap n) =? d)
                   && (n <=? (if leap then 365 else 364))
                 else true)
              (zrange 1 31))
         (zrange 1 12))
    [true; false].

End calendar.

(** The strings [strptime] reads with the two formats of the package,
    and what [strftime] writes. *)
Module reading.
Import datetime.

(** A number below ten written as its digit. *)
Definition digit1 (v : Z) : string := String (digit_char v) "".

(** The texts [strptime] reads as the value [v] of a directive: the
    zero-padded number, for a value below ten also the bare digit, and
    for a day below ten also the digit after a blank. *)
Definition field_text (d : directive) (v : Z) (text : string) : Prop :=
  match d with
  | dY => 0 <= v <= 9999 /\ text = pad4 v
  | dm => 1 <= v <= 12 /\ (text = pad2 v \/ (v <= 9 /\ text = digit1 v))
  | dd => 1 <= v <= 31
          /\ (text = pad2 v
              \/ (v <= 9 /\ (text = digit1 v \/ text = String " " (digit1 v))))
  | dH => 0 <= v <= 23 /\ (text = pad2 v \/ (v <= 9 /\ text = digit1 v))
  | dM => 0 <= v <= 59 /\ (text = pad2 v \/ (v <= 9 /\ text = digit1 v))
  end.

(** A non-empty run of white space. *)
Definition blanks (ws : string) : Prop :=
  ws <> "" /\ all_chars is_space ws = true.

(** The string reads as the date [y]-[m]-[d]: a year, a month and a
    day separated by [-]. *)
Definition reads_as_date (s : string) (y m d : Z) : Prop :=
  exists ty tm td,
    s = ty ++ "-" ++ tm ++ "-" ++ td
    /\ field_text dY y ty /\ field_text dm m tm /\ field_text dd d td.

(** The string reads as the date [y]-[m]-[d] and the time [H]:[M]: the
    date, a run of white space, an hour, [:] and a minute. *)
Definition reads_as_datetime (s : string) (y m d H M : Z) : Prop :=
  exists ty tm td ws tH tM,
    s = ty ++ "-" ++ tm ++ "-" ++ td ++ ws ++ tH ++ ":" ++ tM
    /\ field_text dY y ty /\ field_text dm m tm /\ field_text dd d td
    /\ blanks ws /\ field_text dH H tH /\ field_text dM M tM.

(** The string starts with a character of the class [p]. *)
Definition starts_with (p : ascii -> bool) (s : string) : bool :=
  match s with
  | String c _ => p c
  | EmptyString => false
  end.

(** The expressions that ["%Y-%m-%d"] and ["%Y-%m-%d %H:%M"] compile
    to. *)
Definition re_Ymd : list regex_item :=
  [RGroup dY; RChar "-"; RGroup dm; RChar "-"; RGroup dd].

Definition re_Ymd_HM : list regex_item :=
  [RGroup dY; RChar "-"; RGroup dm; RChar "-"; RGroup dd; RSpaces;
   RGroup dH; RChar ":"; RGroup dM].

(** A year of one to four digits without its leading zeros. *)
Definition year_text (y : Z) : string := lstrip (Ascii.eqb "0") (pad4 y).

(** A date written year first and day first, month and day zero-padded,
    the year without leading zeros. *)
Definition ymd_text (date : Z * Z * Z) : string :=
  let '(y, m, d) := date in year_text y ++ "-" ++ pad2 m ++ "-" ++ pad2 d.

Definition dmy_text (y m d : Z) : string :=
  pad2 d ++ "-" ++ pad2 m ++ "-" ++ year_text y.

End reading.

(** The records of the specification's worked example, and variations. *)
Module samples.

Definition game (event_id away home : string) : pydict :=
  [("event_date", VStr "2020-01-12 18:30");
   ("away_team_id", VStr away); ("away_nick_name", VStr "Titans");
   ("away_city", VStr "Tennessee");
   ("home_team_id", VStr home); ("home_nick_name", VStr "Ravens");
   ("home_city", VStr "Baltimore");
   ("event_id", VStr event_id)].

Definition rankings : list pydict :=
  [[("team_id", VStr "T1"); ("rank", VInt 5); ("adjusted_points", VInt 10)];
   [("team_id", VStr "T2"); ("rank", VInt 2); ("adjusted_points", VInt 20)]].

Definition joined (event_id away home : string) (ar ap hr hp : Z) : pydict :=
  [("event_id", VStr event_id); ("event_date", VStr "12-01-2020");
   ("event_time", VStr "18:30");
   ("away_team_id", VStr away); ("away_nick_name", VStr "Titans");
   ("away_city", VStr "Tennessee");
   ("away_rank", VInt ar); ("away_rank_points", VInt ap);
   ("home_team_id", VStr home); ("home_nick_name", VStr "Ravens");
   ("home_city", VStr "Baltimore");
   ("home_rank", VInt hr); ("home_rank_points", VInt hp)].

End samples.

(* ================================================================== *)
(** * The rest of the package *)
(* ================================================================== *)

(** ** nfl/helpers/dictionaries.py: [load_config_constants]

    The file config.json holds a JSON object; what [json.load] reads
    from it is a parameter. *)
Module config.

Definition default_keys : list string :=
  ["API_KEY"; "SCOREBOARD"; "RANKINGS"; "OUTPUT_DIRECTORY"].

Definition missing_key_message : string :=
  "One or more keys provided does not exist in config.json.".

(** [[config_json[key] for key in keys]]. *)
Fixpoint constants (config_json : pydict) (keys : list string)
  : result (list value) :=
  match keys with
  | [] => Return []
  | key :: rest =>
      v <- getitem config_json key ;;
      vs <- constants config_json rest ;;
      Return (v :: vs)
  end.

(** [key in config_json]. *)
Definition present (config_json : pydict) (key : string) : bool :=
  match dict_get key config_json with Some _ => true | None => false end.

Definition load_config_constants (keys : list string) (config_json : pydict)
  : result (list value) :=
  match keys with
  | [] => constants config_json default_keys
  | _ :: _ =>
      if negb (forallb (present config_json) keys)
      then Raise (ValueError missing_key_message)
      else constants config_json keys
  end.

End config.

(** ** [os.path.splitext] on a POSIX system *)
Module posixpath.

(** [s.rfind(c)] for a character [c]: the last index, or -1. *)
Fixpoint rfind_from (c : ascii) (s : string) (i last : Z) : Z :=
  match s with
  | EmptyString => last
  | String c' s' => rfind_from c s' (i + 1) (if Ascii.eqb c' c then i else last)
  end.

Definition rfind (c : ascii) (s : string) : Z := rfind_from c s 0 (-1).

(** [s[:n]] and [s[n:]] for [n >= 0]. *)
Fixpoint take (n : nat) (s : string) : string :=
  match n, s with
  | S n', String c s' => String c (take n' s')
  | _, _ => EmptyString
  end.

Fixpoint drop (n : nat) (s : string) : string :=
  match n, s with
  | S n', String c s' => drop n' s'
  | _, _ => s
  end.

(** [p[i:i+1]]. *)
Definition char_at (p : string) (i : Z) : string := take 1 (drop (Z.to_nat i) p).

(** The [while] loop of [_splitext]: it looks for a character other than
    a dot between the last separator and the last dot. *)
Fixpoint splitext_scan (p : string) (filenameIndex dotIndex : Z) (steps : nat)
  : string * string :=
  match steps with
  | O => (p, EmptyString)
  | S steps' =>
      if negb (String.eqb (char_at p filenameIndex) ".")
      then (take (Z.to_nat dotIndex) p, drop (Z.to_nat dotIndex) p)
      else splitext_scan p (filenameIndex + 1) dotIndex steps'
  end.

Definition splitext (p : string) : string * string :=
  let sepIndex := rfind "/" p in
  let dotIndex := rfind "." p in
  if dotIndex >? sepIndex
  then splitext_scan p (sepIndex + 1) dotIndex
         (Z.to_nat (dotIndex - (sepIndex + 1)))
  else (p, EmptyString).

End posixpath.

(** ** nfl/core.py: the rankings extraction and the two fetchers *)
Module fetch.
Import dictionaries dates core posixpath.

(** [for x in v]: the items a loop over a JSON value goes through. *)
Definition iterate (v : value) : result (list value) :=
  match v with
  | VList l => Return l
  | VDict d => Return (map VStr (keys d))
  | VStr s => Return (map (fun c => VStr (String c EmptyString))
                          (list_ascii_of_string s))
  | _ => Raise (TypeError "object is not iterable")
  end.

(** The loop of [_extract_rankings_fields_of_interest]. *)
Fixpoint extract_teams (rankings_fields_of_interest : list string)
    (teams : list value) (filtered_ranking_data : list pydict)
  : result (list pydict) :=
  match teams with
  | [] => Return filtered_ranking_data
  | team_data :: teams' =>
      dictionary <- items team_data ;;
      let filtered_team_data :=
        filter_dictionary dictionary rankings_fields_of_interest in
      extract_teams rankings_fields_of_interest teams'
        (filtered_ranking_data ++ [filtered_team_data])%list
  end.

Definition _extract_rankings_fields_of_interest
    (rankings_fields_of_interest : list string)
    (complete_rankings_data : value) : result (list pydict) :=
  data <- subscript complete_rankings_data "data" ;;
  teams <- iterate data ;;
  extract_teams rankings_fields_of_interest teams [].

(** [l[i]] for a list and an arbitrary JSON value as index. *)
Definition list_subscript (l : list value) (i : value) : result value :=
  let at_index (n : Z) :=
    let k := if n <? 0 then n + Z.of_nat (length l) else n in
    if k <? 0 then Raise (IndexError "list index out of range")
    else list_item l (Z.to_nat k) in
  match i with
  | VInt n => at_index n
  | VBool b => at_index (Z.b2z b)
  | _ => Raise (TypeError "list indices must be integers or slices")
  end.

(** The outer loop of [_extract_scoreboard_fields_of_interest] when the
    payload is a list: its entries are the items, and each is used as an
    index into the list. *)
Fixpoint extract_list_entries (scoreboard_fields_of_interest : list string)
    (complete_scoreboard_data : list value) (entries : list value)
    (filtered_scoreboard_data : list pydict) : result (list pydict) :=
  match entries with
  | [] => Return filtered_scoreboard_data
  | entry :: entries' =>
      event_results <- list_subscript complete_scoreboard_data entry ;;
      if truthy event_results then
        data <- subscript event_results "data" ;;
        games <- items data ;;
        filtered_scoreboard_data <-
          extract_events scoreboard_fields_of_interest games
            filtered_scoreboard_data ;;
        extract_list_entries scoreboard_fields_of_interest
          complete_scoreboard_data entries' filtered_scoreboard_data
      else
        extract_list_entries scoreboard_fields_of_interest
          complete_scoreboard_data entries' filtered_scoreboard_data
  end.

(** [_extract_scoreboard_fields_of_interest] on whatever the response
    holds under [results]. *)
Definition extract_scoreboard (scoreboard_fields_of_interest : list string)
    (complete_scoreboard_data : value) : result (list pydict) :=
  match complete_scoreboard_data with
  | VDict d =>
      _extract_scoreboard_fields_of_interest scoreboard_fields_of_interest d
  | VList l =>
      extract_list_entries scoreboard_fields_of_interest l l []
  | VStr EmptyString => Return []
  | VStr (String _ _) => Raise (TypeError "string indices must be integers")
  | _ => Raise (TypeError "object is not iterable")
  end.

(** What [requests.get] gives: a response that is [ok], with the value
    its body decodes to; a response that is not, with the text of the
    [HTTPError] that [raise_for_status] raises for it; or a
    [RequestException] raised by the call itself. *)
Inductive get_outcome : Type :=
| OkResponse (json : value)
| ErrorResponse (http_error : string)
| RequestException (msg : string).

Section requests.

(** The network, and the constants read from config.json when the module
    is loaded. *)
Variable requests_get : string -> string -> get_outcome.
Variable API_KEY : string.
Variable SCOREBOARD_endpoint : string.
Variable SCOREBOARD_fields_of_interest : list string.
Variable RANKINGS_endpoint : string.
Variable RANKINGS_fields_of_interest : list string.

(** The address of the scoreboard request. *)
Definition endpoint_with_dates_imputed (endpoint start_date end_date : string)
  : string :=
  let '(endpoint, extension) := splitext endpoint in
  (endpoint ++ "/" ++ start_date ++ "/" ++ end_date) ++ extension.

Definition _pull_scoreboard_data (start_date delta endpoint api_key : string)
  : result fetched :=
  end_date <- generate_end_date start_date delta fmt_Ymd ;;
  match requests_get
          (endpoint_with_dates_imputed endpoint start_date end_date) API_KEY
  with
  | OkResponse response =>
      scoreboard_results <- subscript response "results" ;;
      filtered_scoreboard_data <-
        extract_scoreboard SCOREBOARD_fields_of_interest scoreboard_results ;;
      Return (Some filtered_scoreboard_data)
  | ErrorResponse e => Raise (SystemExit e)
  | RequestException e => Raise (SystemExit e)
  end.

Definition _pull_team_rankings (endpoint api_key : string) : result fetched :=
  match requests_get endpoint API_KEY with
  | OkResponse response =>
      ranking_results <- subscript response "results" ;;
      filtered_ranking_data <-
        _extract_rankings_fields_of_interest RANKINGS_fields_of_interest
          ranking_results ;;
      Return (Some filtered_ranking_data)
  | ErrorResponse e => Raise (SystemExit e)
  | RequestException e => Raise (SystemExit e)
  end.

(** [pull_json_data] with the two fetchers called as it calls them, the
    endpoint and the key left to their defaults. *)
Definition pull (start_date delta : string) : result (fetched * fetched) :=
  pull_json_data
    (fun start_date delta =>
       _pull_scoreboard_data start_date delta SCOREBOARD_endpoint API_KEY)
    (fun _ => _pull_team_rankings RANKINGS_endpoint API_KEY)
    start_date delta.

(** ** main.py *)

Definition not_iterable : exn :=
  TypeError "'NoneType' object is not iterable".

(** [transform_json_data] on what [pull_json_data] returns: either part
    may be [None], which no loop can go through. *)
Definition transform_fetched (scoreboard_data team_rankings : fetched)
  : result (list pydict) :=
  match scoreboard_data with
  | None => Raise not_iterable
  | Some scoreboard_data =>
      match team_rankings with
      | Some team_rankings => transform_json_data scoreboard_data team_rankings
      | None =>
          scoreboard_data <- add_date_and_time scoreboard_data ;;
          match scoreboard_data with
          | [] => Return []
          | event :: _ =>
              _ <- getitem event "away_team_id" ;;
              _ <- getitem event "home_team_id" ;;
              Raise not_iterable
          end
      end
  end.

(** Writing the output file is the last step; what it does with the
    records is a parameter. *)
Variable load_out_json_data : list pydict -> result unit.

Definition main (argc : Z) (argv : list string) : result unit :=
  _ <- command_line.check_command_line_arguments argc argv ;;
  start_date <- list_item argv 1 ;;
  delta <- list_item argv 2 ;;
  pulled <- pull start_date delta ;;
  transformed_data <- transform_fetched (fst pulled) (snd pulled) ;;
  load_out_json_data transformed_data.

End requests.

End fetch.

(** ** Further vocabulary *)
Module vocabulary.
Import datetime.

(** How many times the character occurs in the string. *)
Fixpoint occurrences (c : ascii) (s : string) : nat :=
  match s with
  | EmptyString => O
  | String c' s' => (if Ascii.eqb c' c then 1 else 0) + occurrences c s'
  end.

(** The character is accepted by none of the classes. *)
Definition rejected (c : ascii) (classes : list (ascii -> bool)) : bool :=
  forallb (fun p => negb (p c)) classes.

(** How many times the expression asks for the character itself. *)
Fixpoint literal_count (c : ascii) (re : list regex_item) : nat :=
  match re with
  | [] => O
  | RChar c' :: re' => (if Ascii.eqb c' c then 1 else 0) + literal_count c re'
  | _ :: re' => literal_count c re'
  end.

(** The fields a scoreboard entry must bring for the transform. *)
Definition event_fields : list string :=
  ["event_id"; "event_date"; "away_team_id"; "away_nick_name"; "away_city";
   "home_team_id"; "home_nick_name"; "home_city"].

(** The fields the transform copies as they are. *)
Definition copied_fields : list string :=
  ["event_id"; "away_team_id"; "away_nick_name"; "away_city";
   "home_team_id"; "home_nick_name"; "home_city"].

(** A record as the scoreboard extraction makes it: distinct keys, an
    [event_id] that is a string, no key besides [event_id] and the
    allowed fields. *)
Definition extracted (fields : list string) (record : pydict) : Prop :=
  NoDup (keys record)
  /\ (exists event_id, dict_get "event_id" record = Some (VStr event_id))
  /\ forall k, In k (keys record) -> k = "event_id" \/ In k fields.

End vocabulary.

(* ================================================================== *)
(** * Properties *)
(* ================================================================== *)

Import dictionaries datetime dates command_line core spec calendar reading.

(** ** Dicts *)

Section dict_facts.
Context {A : Type}.
Implicit Types (d : list (string * A)) (k : string) (v : A).

Lemma dict_get_None k d : dict_get k d = None <-> ~ In k (keys d).
Proof.
  induction d as [|[k' v'] d IH]; simpl.
  - tauto.
  - destruct (String.eqb_spec k k') as [->|Hne].
    + split; [discriminate | intros H; elim H; now left].
    + rewrite IH. split; intros H; [intros [E|I]; [congruence | tauto] | tauto].
Qed.

Lemma dict_get_In k v d : dict_get k d = Some v -> In (k, v) d.
Proof.
  induction d as [|[k' v'] d IH]; simpl; [discriminate|].
  destruct (String.eqb_spec k k') as [->|Hne].
  - intros [= ->]. now left.
  - intros H. right. auto.
Qed.

Lemma In_dict_get k v d : NoDup (keys d) -> In (k, v) d -> dict_get k d = Some v.
Proof.
  induction d as [|[k' v'] d IH]; simpl; [tauto|].
  intros Hnd [E|I].
  - injection E as -> ->. now rewrite String.eqb_refl.
  - inversion Hnd as [|? ? Hni Hnd']; subst.
    destruct (String.eqb_spec k k') as [->|Hne]; [|auto].
    elim Hni. change (In (fst (k', v)) (map fst d)). now apply in_map.
Qed.

Lemma dict_get_set_same k v d : dict_get k (dict_set k v d) = Some v.
Proof.
  induction d as [|[k' v'] d IH]; simpl.
  - now rewrite String.eqb_refl.
  - destruct (String.eqb_spec k k') as [->|Hne]; simpl.
    + now rewrite String.eqb_refl.
    + destruct (String.eqb_spec k k'); [contradiction | exact IH].
Qed.

Lemma dict_get_set_other k k' v d :
  k <> k' -> dict_get k' (dict_set k v d) = dict_get k' d.
Proof.
  intros Hne. induction d as [|[k0 v0] d IH]; simpl.
  - destruct (String.eqb_spec k' k); [congruence | reflexivity].
  - destruct (String.eqb_spec k k0) as [->|Hne0]; simpl.
    + destruct (String.eqb_spec k' k0); [congruence | reflexivity].
    + now rewrite IH.
Qed.

Lemma dict_set_fresh k v d : ~ In k (keys d) -> dict_set k v d = (d ++ [(k, v)])%list.
Proof.
  induction d as [|[k' v'] d IH]; simpl; [reflexivity|].
  intros H. destruct (String.eqb_spec k k') as [->|Hne]; [tauto|].
  f_equal. apply IH. tauto.
Qed.

Lemma keys_dict_set_present k v d : In k (keys d) -> keys (dict_set k v d) = keys d.
Proof.
  induction d as [|[k' v'] d IH]; simpl; [tauto|].
  intros H. destruct (String.eqb_spec k k') as [->|Hne]; simpl; [reflexivity|].
  f_equal. apply IH. destruct H; [congruence | assumption].
Qed.

Lemma keys_app d d' : keys (d ++ d') = (keys d ++ keys d')%list.
Proof. apply map_app. Qed.

End dict_facts.

(** ** [filter_dictionary] *)

Lemma contains_In l k : contains l k = true <-> In k l.
Proof.
  unfold contains. rewrite existsb_exists. split.
  - intros [x [Hx E]]. apply String.eqb_eq in E. now subst.
  - intros H. exists k. split; [assumption | apply String.eqb_refl].
Qed.

Lemma keys_filter_incl (p : string * value -> bool) (d : pydict) k :
  In k (keys (filter p d)) -> In k (keys d).
Proof.
  unfold keys. rewrite !in_map_iff. intros [x [E H]].
  apply filter_In in H. exists x. tauto.
Qed.

(** The comprehension as a loop: storing the retained items of a dict
    with distinct keys into [acc] appends them in order. *)
Lemma comprehension_filter keys_to_keep (d acc : pydict) :
  NoDup (keys acc ++ keys d) ->
  fold_left
    (fun acc kv => if contains keys_to_keep (fst kv)
                   then dict_set (fst kv) (snd kv) acc else acc) d acc
  = (acc ++ filter (kept keys_to_keep) d)%list.
Proof.
  revert acc. induction d as [|[k v] d IH]; intros acc Hnd; simpl.
  - now rewrite app_nil_r.
  - unfold kept at 1. simpl.
    assert (Hk : ~ In k (keys acc)).
    { intros Hin. apply NoDup_remove_2 in Hnd. apply Hnd.
      apply in_or_app. now left. }
    destruct (contains keys_to_keep k).
    + rewrite dict_set_fresh by assumption.
      rewrite IH.
      * now rewrite <- app_assoc.
      * rewrite keys_app, <- app_assoc. exact Hnd.
    + apply IH. now apply NoDup_remove_1 in Hnd.
Qed.

Lemma filter_dictionary_filter (dictionary : pydict) keys_to_keep :
  NoDup (keys dictionary) ->
  filter_dictionary dictionary keys_to_keep
  = filter (kept keys_to_keep) dictionary.
Proof.
  intros Hnd. unfold filter_dictionary.
  now rewrite comprehension_filter.
Qed.

Lemma NoDup_keys_filter (p : string * value -> bool) (d : pydict) :
  NoDup (keys d) -> NoDup (keys (filter p d)).
Proof.
  induction d as [|[k v] d IH]; simpl; intros Hnd; [constructor|].
  inversion Hnd as [|? ? Hni Hnd']; subst.
  destruct (p (k, v)); simpl; [|auto].
  constructor; [|auto]. intros H. apply Hni. eapply keys_filter_incl, H.
Qed.

(** C7. For a dict (distinct keys) and any allow-list, [filter_dictionary]
    returns a dict whose entries are exactly the entries of the input
    whose key is in the allow-list, each with its original value and in
    the original order; it has no failing case, and an allow-list key
    absent from the input is absent from the result. *)
Theorem filter_dictionary_spec (dictionary : pydict) (keys_to_keep : list string) :
  NoDup (keys dictionary) ->
  let filtered := filter_dictionary dictionary keys_to_keep in
  (forall k v, dict_get k filtered = Some v
               <-> In k keys_to_keep /\ dict_get k dictionary = Some v)
  /\ (forall k, In k keys_to_keep -> dict_get k dictionary = None ->
                dict_get k filtered = None)
  /\ NoDup (keys filtered)
  /\ filtered = filter (fun kv => contains keys_to_keep (fst kv)) dictionary.
Proof.
  intros Hnd filtered.
  assert (E : filtered = filter (kept keys_to_keep) dictionary)
    by now apply filter_dictionary_filter.
  assert (Hnd' : NoDup (keys filtered))
    by (rewrite E; now apply NoDup_keys_filter).
  assert (Hiff : forall k v, dict_get k filtered = Some v
               <-> In k keys_to_keep /\ dict_get k dictionary = Some v).
  { intros k v. split.
    - intros H. apply dict_get_In in H. rewrite E in H.
      apply filter_In in H. destruct H as [Hin Hk].
      unfold kept in Hk; simpl in Hk. apply contains_In in Hk.
      split; [assumption | now apply In_dict_get].
    - intros [Hk H]. apply In_dict_get; [assumption|].
      rewrite E. apply filter_In. split; [now apply dict_get_In|].
      unfold kept; simpl. now apply contains_In. }
  split; [exact Hiff | split; [| split; [exact Hnd' | exact E]]].
  intros k Hk Hnone.
  destruct (dict_get k filtered) as [v|] eqn:G; [|reflexivity].
  apply Hiff in G. destruct G as [_ G]. congruence.
Qed.

Lemma filter_dictionary_spec_witness :
  let dictionary := [("a", VInt 1); ("b", VInt 2); ("c", VInt 3)] in
  let keys_to_keep := ["a"; "c"; "z"] in
  NoDup (keys dictionary)
  /\ filter_dictionary dictionary keys_to_keep = [("a", VInt 1); ("c", VInt 3)]
  /\ dict_get "z" (filter_dictionary dictionary keys_to_keep) = None.
Proof.
  intros dictionary keys_to_keep.
  assert (Hnd : NoDup (keys dictionary)).
  { repeat constructor; simpl; intuition discriminate. }
  split; [exact Hnd|].
  destruct (filter_dictionary_spec dictionary keys_to_keep Hnd)
    as [_ [Habsent [_ Heq]]].
  split.
  - rewrite Heq. reflexivity.
  - apply Habsent; [simpl; tauto | reflexivity].
Defined.

(** ** Outcomes *)

Lemma bind_Return {A B} (r : result A) (k : A -> result B) (b : B) :
  bind r k = Return b -> exists a, r = Return a /\ k a = Return b.
Proof. destruct r as [a|e]; simpl; [eauto | discriminate]. Qed.

Lemma getitem_Return (d : pydict) k v :
  getitem d k = Return v <-> dict_get k d = Some v.
Proof.
  unfold getitem. destruct (dict_get k d); split; intros H;
    try discriminate; congruence.
Qed.

(** Splits a hypothesis [x <- r ;; k = Return b] into its two steps. *)
Ltac bind_inv H :=
  let a := fresh "a" in
  let Ha := fresh "Hstep" in
  apply bind_Return in H; destruct H as [a [Ha H]].

(** ** [reorder]: the ordered copy *)

Lemma dict_get_combine (ks : list string) (vs : list value) (event : pydict) :
  NoDup ks ->
  Forall2 (fun k v => dict_get k event = Some v) ks vs ->
  forall k, In k ks -> dict_get k (combine ks vs) = dict_get k event.
Proof.
  intros Hnd HF. induction HF as [|k0 v0 ks vs H0 HF IH]; intros k Hin.
  - destruct Hin.
  - simpl. inversion Hnd as [|? ? Hni Hnd']; subst.
    destruct (String.eqb_spec k k0) as [->|Hne]; [now rewrite H0|].
    destruct Hin as [E|Hin]; [congruence | now apply IH].
Qed.

Lemma keys_combine (ks : list string) (vs : list value) (event : pydict) :
  Forall2 (fun k v => dict_get k event = Some v) ks vs ->
  keys (combine ks vs) = ks.
Proof.
  intros HF. induction HF; simpl; [reflexivity | now f_equal].
Qed.

Lemma reorder_combine key_order :
  forall (event acc ordered : pydict),
    NoDup (keys acc ++ key_order) ->
    reorder key_order event acc = Return ordered ->
    exists vs, Forall2 (fun k v => dict_get k event = Some v) key_order vs
               /\ ordered = (acc ++ combine key_order vs)%list.
Proof.
  induction key_order as [|k ks IH]; intros event acc ordered Hnd H; simpl in H.
  - injection H as <-. exists []. split; [constructor | now rewrite app_nil_r].
  - bind_inv H. apply getitem_Return in Hstep.
    rewrite dict_set_fresh in H.
    + apply IH in H.
      * destruct H as [vs [HF ->]]. exists (a :: vs). split.
        -- now constructor.
        -- simpl. now rewrite <- app_assoc.
      * rewrite keys_app, <- app_assoc. exact Hnd.
    + intros Hin. apply NoDup_remove_2 in Hnd. apply Hnd.
      apply in_or_app. now left.
Qed.

Lemma NoDup_desired_key_order : NoDup desired_key_order.
Proof.
  unfold desired_key_order.
  repeat (constructor; [simpl; intuition discriminate|]). constructor.
Qed.

Lemma reorder_desired (event ordered : pydict) :
  reorder desired_key_order event [] = Return ordered ->
  keys ordered = desired_key_order
  /\ forall k, In k desired_key_order -> dict_get k ordered = dict_get k event.
Proof.
  intros H. apply reorder_combine in H; [|exact NoDup_desired_key_order].
  destruct H as [vs [HF ->]]. cbn [app]. split.
  - eapply keys_combine, HF.
  - intros k Hin. now apply dict_get_combine; [exact NoDup_desired_key_order| |].
Qed.

(** ** One iteration of the join *)

Lemma load_Return var binding v : load var binding = Return v -> binding = Some v.
Proof. destruct binding; simpl; congruence. Qed.

Lemma join_event_inv team_rankings vars event vars' ordered :
  join_event team_rankings vars event = Return (vars', ordered) ->
  exists a h ar ap hr hp,
    dict_get "away_team_id" event = Some a
    /\ dict_get "home_team_id" event = Some h
    /\ scan_rankings a h vars team_rankings = Return vars'
    /\ bound vars' ar ap hr hp
    /\ keys ordered = desired_key_order
    /\ dict_get "away_rank" ordered = Some ar
    /\ dict_get "away_rank_points" ordered = Some ap
    /\ dict_get "home_rank" ordered = Some hr
    /\ dict_get "home_rank_points" ordered = Some hp.
Proof.
  unfold join_event. intros H.
  bind_inv H. rename a into a0. apply getitem_Return in Hstep.
  bind_inv H. rename a into h0. apply getitem_Return in Hstep0.
  bind_inv H. rename a into vars1.
  bind_inv H. rename a into ar. apply load_Return in Hstep2.
  bind_inv H. rename a into ap. apply load_Return in Hstep3.
  bind_inv H. rename a into hr. apply load_Return in Hstep4.
  bind_inv H. rename a into hp. apply load_Return in Hstep5.
  bind_inv H. injection H as <- <-.
  apply reorder_desired in Hstep6. destruct Hstep6 as [Hkeys Hget].
  exists a0, h0, ar, ap, hr, hp.
  split; [exact Hstep|]. split; [exact Hstep0|]. split; [exact Hstep1|].
  split; [destruct vars1; simpl in *; unfold bound; congruence|].
  split; [exact Hkeys|].
  rewrite !Hget by (simpl; tauto).
  repeat split.
  - rewrite !(dict_get_set_other _ "away_rank") by discriminate.
    apply dict_get_set_same.
  - rewrite !(dict_get_set_other _ "away_rank_points") by discriminate.
    apply dict_get_set_same.
  - rewrite !(dict_get_set_other _ "home_rank") by discriminate.
    apply dict_get_set_same.
  - apply dict_get_set_same.
Qed.

(** ** The loop over the events *)

Lemma join_events_acc team_rankings scoreboard_data :
  forall vars acc,
    join_events team_rankings vars scoreboard_data acc
    = (outs <- join_events team_rankings vars scoreboard_data [] ;;
       Return (acc ++ outs)%list).
Proof.
  induction scoreboard_data as [|event rest IH]; intros vars acc; simpl.
  - now rewrite app_nil_r.
  - destruct (join_event team_rankings vars event) as [[vars' o]|e]; simpl;
      [|reflexivity].
    rewrite (IH vars' (acc ++ [o])%list), (IH vars' [o]).
    destruct (join_events team_rankings vars' rest []); simpl; [|reflexivity].
    now rewrite <- app_assoc.
Qed.

Lemma join_events_cons team_rankings vars event rest :
  join_events team_rankings vars (event :: rest) []
  = (step <- join_event team_rankings vars event ;;
     outs <- join_events team_rankings (fst step) rest [] ;;
     Return (snd step :: outs)).
Proof.
  simpl. destruct (join_event team_rankings vars event) as [[vars' o]|e];
    simpl; [|reflexivity].
  now rewrite join_events_acc.
Qed.

(** C1. Every record of the output of a successful [transform_json_data]
    has exactly the thirteen canonical keys, in the canonical order. *)
Theorem transform_canonical_keys
    (scoreboard_data team_rankings transformed : list pydict) :
  transform_json_data scoreboard_data team_rankings = Return transformed ->
  Forall (fun record =>
            keys record =
            ["event_id"; "event_date"; "event_time"; "away_team_id";
             "away_nick_name"; "away_city"; "away_rank"; "away_rank_points";
             "home_team_id"; "home_nick_name"; "home_city"; "home_rank";
             "home_rank_points"])
         transformed.
Proof.
  unfold transform_json_data. intros H. bind_inv H. clear Hstep.
  generalize dependent unbound. revert transformed.
  induction a as [|event rest IH]; intros transformed vars H.
  - injection H as <-. constructor.
  - rewrite join_events_cons in H.
    bind_inv H. destruct a as [vars' o]. bind_inv H. injection H as <-.
    constructor.
    + apply join_event_inv in Hstep.
      destruct Hstep as (? & ? & ? & ? & ? & ? & _ & _ & _ & _ & Hk & _).
      exact Hk.
    + eapply IH, Hstep0.
Qed.

(** ** The scan of the rankings *)

Lemma py_eq_VStr a t : py_eq (VStr a) t = true <-> t = VStr a.
Proof.
  destruct t; simpl; split; intros H; try discriminate.
  - apply String.eqb_eq in H. now subst.
  - injection H as ->. apply String.eqb_refl.
Qed.

Lemma scan_rankings_app a h l1 :
  forall vars l2,
    scan_rankings a h vars (l1 ++ l2)
    = (vars1 <- scan_rankings a h vars l1 ;; scan_rankings a h vars1 l2).
Proof.
  induction l1 as [|team l1 IH]; intros vars l2; simpl; [reflexivity|].
  destruct (match_team a h vars team); simpl; [apply IH | reflexivity].
Qed.

(** The three ways one ranking record can leave the local variables. *)
Lemma match_team_inv a h vars team vars' :
  match_team a h vars team = Return vars' ->
  exists team_id, dict_get "team_id" team = Some team_id /\
    ((py_eq a team_id = true /\
      exists rank points,
        dict_get "rank" team = Some rank
        /\ dict_get "adjusted_points" team = Some points
        /\ vars' = mk_locals (Some rank) (Some points)
                     (home_team_rank vars) (home_team_points vars))
     \/ (py_eq a team_id = false /\ py_eq h team_id = true /\
         exists rank points,
           dict_get "rank" team = Some rank
           /\ dict_get "adjusted_points" team = Some points
           /\ vars' = mk_locals (away_team_rank vars) (away_team_points vars)
                        (Some rank) (Some points))
     \/ (py_eq a team_id = false /\ py_eq h team_id = false /\ vars' = vars)).
Proof.
  unfold match_team. intros H.
  bind_inv H. rename a0 into team_id. apply getitem_Return in Hstep.
  exists team_id. split; [assumption|]. rewrite (proj2 (getitem_Return _ _ _) Hstep) in H.
  simpl in H.
  destruct (py_eq a team_id).
  - left. split; [reflexivity|].
    bind_inv H. bind_inv H. injection H as <-.
    apply getitem_Return in Hstep0, Hstep1. eauto.
  - right. destruct (py_eq h team_id).
    + left. split; [reflexivity|]. split; [reflexivity|].
      bind_inv H. bind_inv H. injection H as <-.
      apply getitem_Return in Hstep0, Hstep1. eauto.
    + right. injection H as <-. auto.
Qed.

Lemma ranking_for_snoc id l team :
  ranking_for id (l ++ [team])
  = if has_team_id id team then Some team else ranking_for id l.
Proof. unfold ranking_for. now rewrite rev_app_distr. Qed.

Lemma has_team_id_spec id team :
  has_team_id id team = true <-> dict_get "team_id" team = Some (VStr id).
Proof.
  unfold has_team_id. destruct (dict_get "team_id" team) as [t|].
  - rewrite py_eq_VStr. split; congruence.
  - split; discriminate.
Qed.

Lemma has_team_id_py_eq id team t :
  dict_get "team_id" team = Some t -> has_team_id id team = py_eq (VStr id) t.
Proof. unfold has_team_id. now intros ->. Qed.

(** After the scan each pair of variables holds the fields of the last
    ranking record with the matching team id, or is left as it was. *)
Lemma scan_rankings_last a h (Hne : a <> h) team_rankings :
  forall vars vars',
    scan_rankings (VStr a) (VStr h) vars team_rankings = Return vars' ->
    (away_team_rank vars' = match ranking_for a team_rankings with
                            | Some t => dict_get "rank" t
                            | None => away_team_rank vars end)
    /\ (away_team_points vars' = match ranking_for a team_rankings with
                                 | Some t => dict_get "adjusted_points" t
                                 | None => away_team_points vars end)
    /\ (home_team_rank vars' = match ranking_for h team_rankings with
                               | Some t => dict_get "rank" t
                               | None => home_team_rank vars end)
    /\ (home_team_points vars' = match ranking_for h team_rankings with
                                 | Some t => dict_get "adjusted_points" t
                                 | None => home_team_points vars end).
Proof.
  induction team_rankings as [|team l IH] using rev_ind; intros vars vars' H.
  - injection H as <-. now cbn.
  - rewrite scan_rankings_app in H. bind_inv H. rename a0 into vars1.
    simpl in H. bind_inv H. injection H as <-. rename a0 into vars2.
    specialize (IH _ _ Hstep). destruct IH as (IH1 & IH2 & IH3 & IH4).
    apply match_team_inv in Hstep0.
    destruct Hstep0 as (team_id & Hid & Hcase).
    rewrite !ranking_for_snoc, !(has_team_id_py_eq _ _ _ Hid).
    destruct Hcase as [(Ea & r & p & Hr & Hp & ->)
                      |[(Ea & Eh & r & p & Hr & Hp & ->)|(Ea & Eh & ->)]].
    + rewrite Ea. apply py_eq_VStr in Ea. subst team_id.
      assert (Eh : py_eq (VStr h) (VStr a) = false).
      { destruct (py_eq (VStr h) (VStr a)) eqn:E; [|reflexivity].
        apply py_eq_VStr in E. congruence. }
      rewrite Eh. simpl. rewrite Hr, Hp. auto.
    + rewrite Ea, Eh. simpl. rewrite Hr, Hp. auto.
    + rewrite Ea, Eh. auto.
Qed.

(** A team id that no ranking record carries leaves its variables alone. *)
Lemma scan_rankings_away_unmatched a h team_rankings :
  forall vars vars',
    scan_rankings a h vars team_rankings = Return vars' ->
    matches_no_team a team_rankings = true ->
    away_team_rank vars' = away_team_rank vars
    /\ away_team_points vars' = away_team_points vars.
Proof.
  induction team_rankings as [|team l IH]; intros vars vars' H Hno; simpl in H.
  - injection H as <-. auto.
  - bind_inv H. simpl in Hno. apply andb_true_iff in Hno. destruct Hno as [Ht Hl].
    destruct (IH _ _ H Hl) as [E1 E2]. rewrite E1, E2.
    apply match_team_inv in Hstep. destruct Hstep as (team_id & Hid & Hcase).
    rewrite Hid in Ht. apply negb_true_iff in Ht.
    destruct Hcase as [(Ea & _)|[(_ & _ & r & p & _ & _ & ->)|(_ & _ & ->)]];
      [congruence | auto | auto].
Qed.

Lemma scan_rankings_home_unmatched a h team_rankings :
  forall vars vars',
    scan_rankings a h vars team_rankings = Return vars' ->
    matches_no_team h team_rankings = true ->
    home_team_rank vars' = home_team_rank vars
    /\ home_team_points vars' = home_team_points vars.
Proof.
  induction team_rankings as [|team l IH]; intros vars vars' H Hno; simpl in H.
  - injection H as <-. auto.
  - bind_inv H. simpl in Hno. apply andb_true_iff in Hno. destruct Hno as [Ht Hl].
    destruct (IH _ _ H Hl) as [E1 E2]. rewrite E1, E2.
    apply match_team_inv in Hstep. destruct Hstep as (team_id & Hid & Hcase).
    rewrite Hid in Ht. apply negb_true_iff in Ht.
    destruct Hcase as [(_ & r & p & _ & _ & ->)|[(_ & Eh & _)|(_ & _ & ->)]];
      [auto | congruence | auto].
Qed.

(** ** [add_date_and_time] record by record *)

Lemma add_date_and_time_1_inv response response' :
  add_date_and_time_1 response = Return response' ->
  exists s date time,
    dict_get "event_date" response = Some (VStr s)
    /\ split_datetime s fmt_Ymd_HM = Return (date, time)
    /\ response' = dict_set "event_time" (VStr time)
                     (dict_set "event_date" (VStr date) response).
Proof.
  unfold add_date_and_time_1, getitem.
  destruct (dict_get "event_date" response) as [v|]; simpl; [|discriminate].
  destruct v; simpl; try discriminate.
  destruct (split_datetime s fmt_Ymd_HM) as [[date time]|e] eqn:E; simpl.
  - intros [= <-]. exists s, date, time. auto.
  - destruct e; discriminate.
Qed.

Lemma add_date_and_time_1_other response response' k :
  add_date_and_time_1 response = Return response' ->
  k <> "event_date" -> k <> "event_time" ->
  dict_get k response' = dict_get k response.
Proof.
  intros H H1 H2. apply add_date_and_time_1_inv in H.
  destruct H as (s & date & time & _ & _ & ->).
  rewrite !dict_get_set_other by congruence. reflexivity.
Qed.

Lemma add_date_and_time_nth response_data :
  forall result i response,
    add_date_and_time response_data = Return result ->
    nth_error response_data i = Some response ->
    exists response', nth_error result i = Some response'
                      /\ add_date_and_time_1 response = Return response'.
Proof.
  induction response_data as [|r rest IH]; intros result i response H Hi.
  - destruct i; discriminate.
  - simpl in H. bind_inv H. bind_inv H. injection H as <-.
    destruct i as [|i]; simpl in *.
    + injection Hi as <-. eauto.
    + eapply IH; eauto.
Qed.

Lemma add_date_and_time_length response_data :
  forall result, add_date_and_time response_data = Return result ->
                 length result = length response_data.
Proof.
  induction response_data as [|r rest IH]; intros result H; simpl in H.
  - now injection H as <-.
  - bind_inv H. bind_inv H. injection H as <-. simpl. f_equal. auto.
Qed.

(** ** The loop over the events, iteration by iteration *)

Lemma join_events_nth team_rankings scoreboard_data :
  forall vars out i event,
    join_events team_rankings vars scoreboard_data [] = Return out ->
    nth_error scoreboard_data i = Some event ->
    exists vars0 vars1 ordered,
      join_event team_rankings vars0 event = Return (vars1, ordered)
      /\ nth_error out i = Some ordered.
Proof.
  induction scoreboard_data as [|e rest IH]; intros vars out i event H Hi.
  - destruct i; discriminate.
  - rewrite join_events_cons in H. bind_inv H. destruct a as [vars' o].
    bind_inv H. injection H as <-. destruct i as [|i]; simpl in *.
    + injection Hi as <-. eauto.
    + eapply IH; eauto.
Qed.

(** Two consecutive iterations: the second starts from the variables the
    first one leaves. *)
Lemma join_events_consecutive team_rankings scoreboard_data :
  forall vars out i event,
    join_events team_rankings vars scoreboard_data [] = Return out ->
    nth_error scoreboard_data (S i) = Some event ->
    exists vars0 vars1 vars2 previous ordered,
      nth_error out i = Some previous
      /\ (exists e, join_event team_rankings vars0 e = Return (vars1, previous))
      /\ join_event team_rankings vars1 event = Return (vars2, ordered)
      /\ nth_error out (S i) = Some ordered.
Proof.
  induction scoreboard_data as [|e rest IH]; intros vars out i event H Hi.
  - discriminate.
  - rewrite join_events_cons in H. bind_inv H. destruct a as [vars' o].
    bind_inv H. injection H as <-. simpl in Hi, Hstep0.
    destruct i as [|i].
    + destruct rest as [|e1 rest1]; [discriminate|]. simpl in Hi.
      injection Hi as ->. rewrite join_events_cons in Hstep0.
      bind_inv Hstep0. destruct a0 as [vars2 o1]. bind_inv Hstep0.
      injection Hstep0 as <-. simpl in *.
      exists vars, vars', vars2, o, o1. eauto 6.
    + destruct (IH _ _ _ _ Hstep0 Hi) as (v0 & v1 & v2 & p & o' & H1 & H2 & H3 & H4).
      exists v0, v1, v2, p, o'. simpl. auto.
Qed.

Lemma join_events_length team_rankings scoreboard_data :
  forall vars out,
    join_events team_rankings vars scoreboard_data [] = Return out ->
    length out = length scoreboard_data.
Proof.
  induction scoreboard_data as [|e rest IH]; intros vars out H.
  - now injection H as <-.
  - rewrite join_events_cons in H. bind_inv H. bind_inv H. injection H as <-.
    simpl. f_equal. eauto.
Qed.

(** The transform seen from one input record: its date is split, then it
    goes through one iteration of the join. *)
Lemma transform_nth scoreboard_data team_rankings out i event :
  transform_json_data scoreboard_data team_rankings = Return out ->
  nth_error scoreboard_data i = Some event ->
  exists event' vars0 vars1 ordered,
    add_date_and_time_1 event = Return event'
    /\ join_event team_rankings vars0 event' = Return (vars1, ordered)
    /\ nth_error out i = Some ordered.
Proof.
  unfold transform_json_data. intros H Hi. bind_inv H.
  destruct (add_date_and_time_nth _ _ _ _ Hstep Hi) as (event' & Hi' & H1).
  destruct (join_events_nth _ _ _ _ _ _ H Hi') as (v0 & v1 & o & Hj & Ho).
  exists event', v0, v1, o. auto.
Qed.

Lemma transform_consecutive scoreboard_data team_rankings out i event :
  transform_json_data scoreboard_data team_rankings = Return out ->
  nth_error scoreboard_data (S i) = Some event ->
  exists event' vars0 vars1 vars2 previous ordered,
    add_date_and_time_1 event = Return event'
    /\ nth_error out i = Some previous
    /\ (exists e, join_event team_rankings vars0 e = Return (vars1, previous))
    /\ join_event team_rankings vars1 event' = Return (vars2, ordered)
    /\ nth_error out (S i) = Some ordered.
Proof.
  unfold transform_json_data. intros H Hi. bind_inv H.
  destruct (add_date_and_time_nth _ _ _ _ Hstep Hi) as (event' & Hi' & H1).
  destruct (join_events_consecutive _ _ _ _ _ _ H Hi')
    as (v0 & v1 & v2 & p & o & Hp & Hj0 & Hj & Ho).
  exists event', v0, v1, v2, p, o. auto.
Qed.

Lemma transform_length scoreboard_data team_rankings out :
  transform_json_data scoreboard_data team_rankings = Return out ->
  length out = length scoreboard_data.
Proof.
  unfold transform_json_data. intros H. bind_inv H.
  apply join_events_length in H. apply add_date_and_time_length in Hstep.
  congruence.
Qed.

(** C2 (amended). In a successful transform, for an event whose away and
    home team ids are different strings, each the team id of some ranking
    record, the output record at the event's position carries as
    [away_rank] and [away_rank_points] the [rank] and [adjusted_points]
    of the ranking record for the away team, and as [home_rank] and
    [home_rank_points] those of the ranking record for the home team
    (the last record with that team id; the only one when ids are unique). *)
Theorem transform_joins_rankings
    (scoreboard_data team_rankings out : list pydict) (i : nat)
    (event away_ranking home_ranking : pydict) (away home : string) :
  transform_json_data scoreboard_data team_rankings = Return out ->
  nth_error scoreboard_data i = Some event ->
  dict_get "away_team_id" event = Some (VStr away) ->
  dict_get "home_team_id" event = Some (VStr home) ->
  away <> home ->
  ranking_for away team_rankings = Some away_ranking ->
  ranking_for home team_rankings = Some home_ranking ->
  exists record,
    nth_error out i = Some record
    /\ dict_get "away_rank" record = dict_get "rank" away_ranking
    /\ dict_get "away_rank_points" record
       = dict_get "adjusted_points" away_ranking
    /\ dict_get "home_rank" record = dict_get "rank" home_ranking
    /\ dict_get "home_rank_points" record
       = dict_get "adjusted_points" home_ranking.
Proof.
  intros H Hi Ha Hh Hne Hra Hrh.
  destruct (transform_nth _ _ _ _ _ H Hi) as (event' & v0 & v1 & o & H1 & Hj & Ho).
  exists o. split; [assumption|].
  apply join_event_inv in Hj.
  destruct Hj as (a & h & ar & ap & hr & hp & Ga & Gh & Hscan & Hb & _ & O1 & O2 & O3 & O4).
  rewrite (add_date_and_time_1_other _ _ _ H1) in Ga by discriminate.
  rewrite (add_date_and_time_1_other _ _ _ H1) in Gh by discriminate.
  assert (a = VStr away) by congruence. assert (h = VStr home) by congruence.
  subst a h.
  apply (scan_rankings_last _ _ Hne) in Hscan.
  rewrite Hra, Hrh in Hscan. destruct Hscan as (S1 & S2 & S3 & S4).
  unfold bound in Hb. subst v1. simpl in *.
  rewrite O1, O2, O3, O4. auto.
Qed.

Lemma transform_joins_rankings_witness :
  let event := samples.game "E1" "T1" "T2" in
  exists record,
    nth_error [samples.joined "E1" "T1" "T2" 5 10 2 20] 0 = Some record
    /\ dict_get "away_rank" record = Some (VInt 5)
    /\ dict_get "away_rank_points" record = Some (VInt 10)
    /\ dict_get "home_rank" record = Some (VInt 2)
    /\ dict_get "home_rank_points" record = Some (VInt 20).
Proof.
  intros event.
  refine (transform_joins_rankings [event] samples.rankings
            [samples.joined "E1" "T1" "T2" 5 10 2 20] 0 event
            [("team_id", VStr "T1"); ("rank", VInt 5); ("adjusted_points", VInt 10)]
            [("team_id", VStr "T2"); ("rank", VInt 2); ("adjusted_points", VInt 20)]
            "T1" "T2" _ _ _ _ _ _ _);
    try reflexivity.
  discriminate.
Defined.

(** C2 as stated fails when the two ids coincide: the ranking record is
    taken for the away side and the [elif] is never tried for the home
    side, which keeps the values of the previous event. *)
Lemma same_team_counterexample :
  let first := samples.game "E1" "T1" "T2" in
  let second := samples.game "E2" "T1" "T1" in
  let team := [("team_id", VStr "T1"); ("rank", VInt 5);
               ("adjusted_points", VInt 10)] in
  In team samples.rankings
  /\ dict_get "team_id" team = dict_get "away_team_id" second
  /\ dict_get "team_id" team = dict_get "home_team_id" second
  /\ exists record,
       transform_json_data [first; second] samples.rankings
       = Return [samples.joined "E1" "T1" "T2" 5 10 2 20; record]
       /\ dict_get "home_rank" record = Some (VInt 2)
       /\ dict_get "home_rank" record <> dict_get "rank" team.
Proof.
  cbv zeta. split; [left; reflexivity|]. split; [reflexivity|].
  split; [reflexivity|].
  exists (samples.joined "E2" "T1" "T1" 5 10 2 20).
  split; [vm_compute; reflexivity|]. split; [reflexivity | discriminate].
Qed.

Lemma transform_canonical_keys_witness :
  transform_json_data [samples.game "E1" "T1" "T2"] samples.rankings
  = Return [samples.joined "E1" "T1" "T2" 5 10 2 20]
  /\ Forall (fun record => keys record = desired_key_order)
            [samples.joined "E1" "T1" "T2" 5 10 2 20].
Proof.
  assert (H : transform_json_data [samples.game "E1" "T1" "T2"] samples.rankings
              = Return [samples.joined "E1" "T1" "T2" 5 10 2 20])
    by reflexivity.
  split; [exact H|].
  exact (transform_canonical_keys _ _ _ H).
Defined.

(** ** Unmatched team ids *)

Lemma has_key_true k (d : pydict) :
  has_key k d = true -> exists v, dict_get k d = Some v.
Proof. unfold has_key. destruct (dict_get k d); [eauto | discriminate]. Qed.

Lemma scan_rankings_total a h team_rankings :
  Forall (fun team => is_ranking_record team = true) team_rankings ->
  forall vars, paired vars ->
    exists vars', scan_rankings a h vars team_rankings = Return vars'
                  /\ paired vars'.
Proof.
  induction 1 as [|team l Hteam _ IH]; intros vars Hp; simpl.
  - eauto.
  - unfold is_ranking_record in Hteam.
    apply andb_true_iff in Hteam. destruct Hteam as [Hteam H3].
    apply andb_true_iff in Hteam. destruct Hteam as [H1 H2].
    apply has_key_true in H1, H2, H3.
    destruct H1 as [t H1], H2 as [r H2], H3 as [p H3].
    unfold match_team, getitem. rewrite H1, H2, H3. simpl.
    destruct Hp as [Hp1 Hp2].
    destruct (py_eq a t); simpl; [|destruct (py_eq h t); simpl];
      apply IH; split; simpl; try assumption; split; discriminate.
Qed.

Lemma paired_unbound : paired unbound.
Proof. split; simpl; tauto. Qed.

Lemma away_unmatched_split team_rankings event event' :
  add_date_and_time_1 event = Return event' ->
  away_unmatched team_rankings event' = away_unmatched team_rankings event.
Proof.
  intros H. unfold away_unmatched.
  now rewrite (add_date_and_time_1_other _ _ _ H) by discriminate.
Qed.

Lemma home_unmatched_split team_rankings event event' :
  add_date_and_time_1 event = Return event' ->
  home_unmatched team_rankings event' = home_unmatched team_rankings event.
Proof.
  intros H. unfold home_unmatched.
  now rewrite (add_date_and_time_1_other _ _ _ H) by discriminate.
Qed.

(** One iteration on an event whose away id is unmatched repeats the
    away values of the iteration before it. *)
Lemma join_event_away_stale team_rankings vars0 vars1 vars2 e previous event ordered :
  join_event team_rankings vars0 e = Return (vars1, previous) ->
  join_event team_rankings vars1 event = Return (vars2, ordered) ->
  away_unmatched team_rankings event = true ->
  dict_get "away_rank" ordered = dict_get "away_rank" previous
  /\ dict_get "away_rank_points" ordered = dict_get "away_rank_points" previous.
Proof.
  intros H0 H1 Hun.
  apply join_event_inv in H0, H1.
  destruct H0 as (_ & _ & ar & ap & hr & hp & _ & _ & _ & Hb & _ & P1 & P2 & _ & _).
  destruct H1 as (a & h & ar' & ap' & hr' & hp' & Ga & _ & Hscan & Hb' & _ & O1 & O2 & _ & _).
  unfold away_unmatched in Hun. rewrite Ga in Hun.
  destruct (scan_rankings_away_unmatched _ _ _ _ _ Hscan Hun) as [E1 E2].
  unfold bound in Hb, Hb'. subst vars1 vars2. simpl in E1, E2.
  rewrite O1, O2, P1, P2. split; congruence.
Qed.

Lemma join_event_home_stale team_rankings vars0 vars1 vars2 e previous event ordered :
  join_event team_rankings vars0 e = Return (vars1, previous) ->
  join_event team_rankings vars1 event = Return (vars2, ordered) ->
  home_unmatched team_rankings event = true ->
  dict_get "home_rank" ordered = dict_get "home_rank" previous
  /\ dict_get "home_rank_points" ordered = dict_get "home_rank_points" previous.
Proof.
  intros H0 H1 Hun.
  apply join_event_inv in H0, H1.
  destruct H0 as (_ & _ & ar & ap & hr & hp & _ & _ & _ & Hb & _ & _ & _ & P3 & P4).
  destruct H1 as (a & h & ar' & ap' & hr' & hp' & _ & Gh & Hscan & Hb' & _ & _ & _ & O3 & O4).
  unfold home_unmatched in Hun. rewrite Gh in Hun.
  destruct (scan_rankings_home_unmatched _ _ _ _ _ Hscan Hun) as [E1 E2].
  unfold bound in Hb, Hb'. subst vars1 vars2. simpl in E1, E2.
  rewrite O3, O4, P3, P4. split; congruence.
Qed.

(** The first iteration, which starts with every variable unbound. *)
Lemma join_event_unbound team_rankings event a h :
  dict_get "away_team_id" event = Some a ->
  dict_get "home_team_id" event = Some h ->
  Forall (fun team => is_ranking_record team = true) team_rankings ->
  (matches_no_team a team_rankings = true ->
   join_event team_rankings unbound event
   = Raise (UnboundLocalError "away_team_rank"))
  /\ (matches_no_team h team_rankings = true ->
      join_event team_rankings unbound event
      = Raise (UnboundLocalError "away_team_rank")
      \/ join_event team_rankings unbound event
         = Raise (UnboundLocalError "home_team_rank")).
Proof.
  intros Ga Gh Hwf.
  destruct (scan_rankings_total a h _ Hwf _ paired_unbound) as (vars' & Hscan & Hp).
  unfold join_event, getitem. rewrite Ga, Gh. simpl. rewrite Hscan. simpl.
  split; intros Hun.
  - destruct (scan_rankings_away_unmatched _ _ _ _ _ Hscan Hun) as [E _].
    simpl in E. rewrite E. reflexivity.
  - destruct (scan_rankings_home_unmatched _ _ _ _ _ Hscan Hun) as [E _].
    simpl in E. destruct Hp as [Hp _].
    destruct (away_team_rank vars') as [ar|] eqn:Ear; simpl; [|now left].
    destruct (away_team_points vars') as [ap|] eqn:Eap; simpl.
    + rewrite E. simpl. now right.
    + destruct Hp as [_ Hp]. specialize (Hp eq_refl). discriminate.
Qed.

Lemma transform_first_iteration scoreboard_data team_rankings split e :
  add_date_and_time scoreboard_data = Return split ->
  forall event rest, split = event :: rest ->
  join_event team_rankings unbound event = Raise e ->
  transform_json_data scoreboard_data team_rankings = Raise e.
Proof.
  intros H event rest -> Hj. unfold transform_json_data. rewrite H. simpl.
  now rewrite Hj.
Qed.

(** ** Iterations that return *)

Lemma scan_rankings_binds a h team_rankings :
  Forall (fun team => is_ranking_record team = true) team_rankings ->
  forall vars,
    exists vars',
      scan_rankings a h vars team_rankings = Return vars'
      /\ (away_bound vars
          \/ existsb (fun team => match dict_get "team_id" team with
                                  | Some t => py_eq a t
                                  | None => false
                                  end) team_rankings = true ->
          away_bound vars')
      /\ (home_bound vars
          \/ existsb (fun team => match dict_get "team_id" team with
                                  | Some t => negb (py_eq a t) && py_eq h t
                                  | None => false
                                  end) team_rankings = true ->
          home_bound vars').
Proof.
  induction 1 as [|team l Hteam _ IH]; intros vars; cbn [scan_rankings existsb].
  - exists vars. split; [reflexivity|].
    split; (intros [Hb|Hf]; [exact Hb|discriminate]).
  - unfold is_ranking_record in Hteam.
    apply andb_true_iff in Hteam. destruct Hteam as [Hteam H3].
    apply andb_true_iff in Hteam. destruct Hteam as [H1 H2].
    apply has_key_true in H1, H2, H3.
    destruct H1 as [t H1], H2 as [r H2], H3 as [p H3].
    unfold match_team, getitem. rewrite H1, H2, H3. cbn [bind].
    destruct (py_eq a t) eqn:Ea; cbn [bind negb andb orb].
    + destruct (IH (mk_locals (Some r) (Some p)
                      (home_team_rank vars) (home_team_points vars)))
        as (vars' & -> & Ka & Kh).
      exists vars'. split; [reflexivity|]. split.
      * intros _. apply Ka. left. split; discriminate.
      * intros [Hb|Hf]; apply Kh; [left; exact Hb|right; exact Hf].
    + destruct (py_eq h t) eqn:Eh; cbn [bind orb].
      * destruct (IH (mk_locals (away_team_rank vars) (away_team_points vars)
                        (Some r) (Some p)))
          as (vars' & -> & Ka & Kh).
        exists vars'. split; [reflexivity|]. split.
        -- intros [Hb|Hf]; apply Ka; [left; exact Hb|right; exact Hf].
        -- intros _. apply Kh. left. split; discriminate.
      * destruct (IH vars) as (vars' & -> & Ka & Kh).
        exists vars'. auto.
Qed.

Lemma reorder_returns key_order (event : pydict) :
  (forall k, In k key_order -> has_key k event = true) ->
  forall acc, exists ordered, reorder key_order event acc = Return ordered.
Proof.
  induction key_order as [|k ks IH]; intros Hk acc; cbn [reorder].
  - eauto.
  - destruct (has_key_true k event (Hk k (or_introl eq_refl))) as [v Hv].
    unfold getitem. rewrite Hv. cbn [bind].
    apply IH. intros k' Hin. apply Hk. now right.
Qed.

Lemma has_key_set k k' v (d : pydict) :
  has_key k (dict_set k' v d) = (String.eqb k k' || has_key k d)%bool.
Proof.
  unfold has_key. destruct (String.eqb_spec k k') as [->|Hne].
  - now rewrite dict_get_set_same.
  - now rewrite dict_get_set_other.
Qed.

(** An iteration returns when the rankings are well formed, the event
    has its nine fields, and each side is bound already or assigned by
    the scan; it leaves both sides bound. *)
Lemma join_event_returns team_rankings vars event :
  Forall (fun team => is_ranking_record team = true) team_rankings ->
  (forall k, In k ["event_id"; "event_date"; "event_time"; "away_team_id";
                   "away_nick_name"; "away_city"; "home_team_id";
                   "home_nick_name"; "home_city"] ->
             has_key k event = true) ->
  away_bound vars \/ away_assigned team_rankings event = true ->
  home_bound vars \/ home_assigned team_rankings event = true ->
  exists vars' ordered,
    join_event team_rankings vars event = Return (vars', ordered)
    /\ away_bound vars' /\ home_bound vars'.
Proof.
  intros Hwf Hkeys Ha Hh.
  destruct (has_key_true _ _ (Hkeys "away_team_id" ltac:(simpl; tauto))) as [a Ga].
  destruct (has_key_true _ _ (Hkeys "home_team_id" ltac:(simpl; tauto))) as [h Gh].
  unfold away_assigned in Ha. unfold home_assigned in Hh. rewrite Ga in Ha, Hh.
  rewrite Gh in Hh.
  destruct (scan_rankings_binds a h _ Hwf vars) as (vars' & Hscan & Ka & Kh).
  specialize (Ka Ha). specialize (Kh Hh).
  unfold join_event, getitem. rewrite Ga, Gh. cbn [bind]. rewrite Hscan.
  cbn [bind]. destruct Ka as [Ka1 Ka2], Kh as [Kh1 Kh2].
  destruct vars' as [[ar|] [ap|] [hr|] [hp|]]; cbn [away_team_rank
    away_team_points home_team_rank home_team_points] in *; try congruence.
  cbn [load bind].
  match goal with
  | |- context [reorder desired_key_order ?e []] =>
      destruct (reorder_returns desired_key_order e) with (acc := @nil (string * value))
        as [ordered ->]
  end.
  - intros k Hk. rewrite !has_key_set.
    unfold desired_key_order in Hk. cbn [In] in Hk.
    repeat match type of Hk with
           | _ \/ _ => destruct Hk as [<-|Hk]
           end; try reflexivity;
      try (cbn [String.eqb Ascii.eqb Bool.eqb orb];
           apply Hkeys; simpl; tauto).
    destruct Hk.
  - cbn [bind]. exists (mk_locals (Some ar) (Some ap) (Some hr) (Some hp)), ordered.
    split; [reflexivity|]. split; split; discriminate.
Qed.

Lemma join_events_returns team_rankings events :
  Forall (fun team => is_ranking_record team = true) team_rankings ->
  Forall (fun event =>
            forall k, In k ["event_id"; "event_date"; "event_time";
                            "away_team_id"; "away_nick_name"; "away_city";
                            "home_team_id"; "home_nick_name"; "home_city"] ->
                      has_key k event = true) events ->
  forall vars, away_bound vars -> home_bound vars ->
    exists out, join_events team_rankings vars events [] = Return out.
Proof.
  intros Hwf. induction 1 as [|event rest Hev _ IH]; intros vars Ha Hh.
  - cbn. eauto.
  - rewrite join_events_cons.
    destruct (join_event_returns _ vars event Hwf Hev (or_introl Ha) (or_introl Hh))
      as (vars' & ordered & -> & Ka & Kh).
    cbn [bind fst snd]. destruct (IH vars' Ka Kh) as [out ->]. cbn [bind]. eauto.
Qed.

Lemma add_date_and_time_records response_data :
  forall result,
    add_date_and_time response_data = Return result ->
    Forall2 (fun response response' =>
               add_date_and_time_1 response = Return response')
            response_data result.
Proof.
  induction response_data as [|r rest IH]; intros result H; simpl in H.
  - injection H as <-. constructor.
  - bind_inv H. bind_inv H. injection H as <-. constructor; auto.
Qed.

Lemma add_date_and_time_1_keys response response' :
  add_date_and_time_1 response = Return response' ->
  (forall k, In k ["event_id"; "event_date"; "away_team_id"; "away_nick_name";
                   "away_city"; "home_team_id"; "home_nick_name"; "home_city"] ->
             has_key k response = true) ->
  forall k, In k ["event_id"; "event_date"; "event_time"; "away_team_id";
                  "away_nick_name"; "away_city"; "home_team_id";
                  "home_nick_name"; "home_city"] ->
            has_key k response' = true.
Proof.
  intros H Hk k Hin. apply add_date_and_time_1_inv in H.
  destruct H as (s & date & time & _ & _ & ->). rewrite !has_key_set.
  cbn [In] in Hin.
  repeat match type of Hin with
         | _ \/ _ => destruct Hin as [<-|Hin]
         end; try reflexivity;
    try (cbn [String.eqb Ascii.eqb Bool.eqb orb]; apply Hk; simpl; tauto).
  destruct Hin.
Qed.

(** The transform returns when the dates split, the events have their
    eight fields, the rankings are well formed, and the first event
    assigns both sides. *)
Lemma transform_returns scoreboard_data team_rankings first rest split :
  scoreboard_data = first :: rest ->
  add_date_and_time scoreboard_data = Return split ->
  Forall (fun event =>
            forall k, In k ["event_id"; "event_date"; "away_team_id";
                            "away_nick_name"; "away_city"; "home_team_id";
                            "home_nick_name"; "home_city"] ->
                      has_key k event = true) scoreboard_data ->
  Forall (fun team => is_ranking_record team = true) team_rankings ->
  away_assigned team_rankings first = true ->
  home_assigned team_rankings first = true ->
  exists out, transform_json_data scoreboard_data team_rankings = Return out.
Proof.
  intros -> Hsplit Hev Hwf Ha Hh.
  pose proof (add_date_and_time_records _ _ Hsplit) as HF.
  assert (Hkeys : Forall (fun event =>
            forall k, In k ["event_id"; "event_date"; "event_time";
                            "away_team_id"; "away_nick_name"; "away_city";
                            "home_team_id"; "home_nick_name"; "home_city"] ->
                      has_key k event = true) split).
  { clear Hsplit Ha Hh. revert Hev.
    induction HF as [|r r' l l' H1 _ IH]; intros Hev; constructor.
    - inversion Hev; subst. eapply add_date_and_time_1_keys; eauto.
    - apply IH. now inversion Hev. }
  inversion HF as [|r first' l rest' H1 _]; subst.
  inversion Hkeys as [|? ? Hfirst Hrest]; subst.
  unfold transform_json_data. rewrite Hsplit. cbn [bind].
  rewrite join_events_cons.
  assert (Ha' : away_assigned team_rankings first' = true).
  { unfold away_assigned in *.
    now rewrite (add_date_and_time_1_other _ _ _ H1) by discriminate. }
  assert (Hh' : home_assigned team_rankings first' = true).
  { unfold home_assigned in *.
    now rewrite !(add_date_and_time_1_other _ _ _ H1) by discriminate. }
  destruct (join_event_returns _ unbound first' Hwf Hfirst (or_intror Ha')
              (or_intror Hh')) as (vars' & ordered & -> & Ka & Kh).
  cbn [bind fst snd].
  destruct (join_events_returns _ _ Hwf Hrest vars' Ka Kh) as [out ->].
  cbn [bind]. eauto.
Qed.

(** In a transform that returns, a run of events unmatched on a side
    repeats the values the record before the run has on that side. *)
Lemma transform_carries scoreboard_data team_rankings out j i previous record :
  transform_json_data scoreboard_data team_rankings = Return out ->
  (j <= i)%nat ->
  nth_error out j = Some previous ->
  nth_error out i = Some record ->
  ((forall k event, (j < k <= i)%nat ->
                    nth_error scoreboard_data k = Some event ->
                    away_unmatched team_rankings event = true) ->
   dict_get "away_rank" record = dict_get "away_rank" previous
   /\ dict_get "away_rank_points" record
      = dict_get "away_rank_points" previous)
  /\ ((forall k event, (j < k <= i)%nat ->
                       nth_error scoreboard_data k = Some event ->
                       home_unmatched team_rankings event = true) ->
      dict_get "home_rank" record = dict_get "home_rank" previous
      /\ dict_get "home_rank_points" record
         = dict_get "home_rank_points" previous).
Proof.
  intros H Hle Hj Hi.
  assert (Hlen := transform_length _ _ _ H).
  split; intros Hun; revert record Hi Hun;
    induction Hle as [|m Hle IH]; intros record Hi Hun;
    try (rewrite Hj in Hi; injection Hi as <-; now split).
  + assert (Hm : (S m < length scoreboard_data)%nat).
    { rewrite <- Hlen. apply nth_error_Some. congruence. }
    apply nth_error_Some in Hm.
    destruct (nth_error scoreboard_data (S m)) as [event|] eqn:He; [|congruence].
    destruct (transform_consecutive _ _ _ _ _ H He)
      as (event' & v0 & v1 & v2 & p & o & H1 & Hp & [e Hj0] & Hj1 & Ho).
    rewrite Ho in Hi. injection Hi as ->.
    assert (Hev : away_unmatched team_rankings event' = true).
    { rewrite (away_unmatched_split _ _ _ H1). apply (Hun (S m)); [lia | exact He]. }
    destruct (join_event_away_stale _ _ _ _ _ _ _ _ Hj0 Hj1 Hev) as [E1 E2].
    destruct (IH p Hp) as [E3 E4].
    { intros k ev Hk. apply Hun. lia. }
    split; congruence.
  + assert (Hm : (S m < length scoreboard_data)%nat).
    { rewrite <- Hlen. apply nth_error_Some. congruence. }
    apply nth_error_Some in Hm.
    destruct (nth_error scoreboard_data (S m)) as [event|] eqn:He; [|congruence].
    destruct (transform_consecutive _ _ _ _ _ H He)
      as (event' & v0 & v1 & v2 & p & o & H1 & Hp & [e Hj0] & Hj1 & Ho).
    rewrite Ho in Hi. injection Hi as ->.
    assert (Hev : home_unmatched team_rankings event' = true).
    { rewrite (home_unmatched_split _ _ _ H1). apply (Hun (S m)); [lia | exact He]. }
    destruct (join_event_home_stale _ _ _ _ _ _ _ _ Hj0 Hj1 Hev) as [E1 E2].
    destruct (IH p Hp) as [E3 E4].
    { intros k ev Hk. apply Hun. lia. }
    split; congruence.
Qed.

(** C3. An event whose away (or home) team id equals the team id of no
    ranking record does not assign the rank variables of that side, so
    the values of an earlier iteration are used.  (1) In a transform
    that returns, when the events after position [j] up to position [i]
    are all unmatched on a side, the output record at [i] repeats the
    rank and points that the output record at [j] has on that side.
    (2) The transform does return in that situation: when the dates
    split, the events have their eight fields, the ranking records are
    well formed and the first event assigns both sides, it returns one
    record per event, whatever the later events match, and the record of
    each later event that is unmatched on a side repeats the rank and
    points of the record before it on that side.  (3) When every event up
    to position [i] is unmatched on a side (the variables were never
    assigned), the transform of well-formed records whose dates were
    split fails with [UnboundLocalError]. *)
Theorem stale_rank_carry_over (scoreboard_data team_rankings : list pydict) :
  (forall out j i previous record,
      transform_json_data scoreboard_data team_rankings = Return out ->
      (j <= i)%nat ->
      nth_error out j = Some previous ->
      nth_error out i = Some record ->
      ((forall k event, (j < k <= i)%nat ->
                        nth_error scoreboard_data k = Some event ->
                        away_unmatched team_rankings event = true) ->
       dict_get "away_rank" record = dict_get "away_rank" previous
       /\ dict_get "away_rank_points" record
          = dict_get "away_rank_points" previous)
      /\ ((forall k event, (j < k <= i)%nat ->
                           nth_error scoreboard_data k = Some event ->
                           home_unmatched team_rankings event = true) ->
          dict_get "home_rank" record = dict_get "home_rank" previous
          /\ dict_get "home_rank_points" record
             = dict_get "home_rank_points" previous))
  /\ (forall first rest split,
         scoreboard_data = first :: rest ->
         add_date_and_time scoreboard_data = Return split ->
         Forall (fun event =>
                   forall k, In k ["event_id"; "event_date"; "away_team_id";
                                   "away_nick_name"; "away_city";
                                   "home_team_id"; "home_nick_name";
                                   "home_city"] ->
                             has_key k event = true) scoreboard_data ->
         Forall (fun team => is_ranking_record team = true) team_rankings ->
         away_assigned team_rankings first = true ->
         home_assigned team_rankings first = true ->
         exists out,
           transform_json_data scoreboard_data team_rankings = Return out
           /\ length out = length scoreboard_data
           /\ forall i event,
                nth_error scoreboard_data (S i) = Some event ->
                exists previous record,
                  nth_error out i = Some previous
                  /\ nth_error out (S i) = Some record
                  /\ (away_unmatched team_rankings event = true ->
                      dict_get "away_rank" record
                      = dict_get "away_rank" previous
                      /\ dict_get "away_rank_points" record
                         = dict_get "away_rank_points" previous)
                  /\ (home_unmatched team_rankings event = true ->
                      dict_get "home_rank" record
                      = dict_get "home_rank" previous
                      /\ dict_get "home_rank_points" record
                         = dict_get "home_rank_points" previous))
  /\ (forall i split,
         add_date_and_time scoreboard_data = Return split ->
         Forall (fun event => is_event_record event = true) scoreboard_data ->
         Forall (fun team => is_ranking_record team = true) team_rankings ->
         (i < length scoreboard_data)%nat ->
         ((forall k event, (k <= i)%nat ->
                           nth_error scoreboard_data k = Some event ->
                           away_unmatched team_rankings event = true) ->
          transform_json_data scoreboard_data team_rankings
          = Raise (UnboundLocalError "away_team_rank"))
         /\ ((forall k event, (k <= i)%nat ->
                              nth_error scoreboard_data k = Some event ->
                              home_unmatched team_rankings event = true) ->
             transform_json_data scoreboard_data team_rankings
             = Raise (UnboundLocalError "away_team_rank")
             \/ transform_json_data scoreboard_data team_rankings
                = Raise (UnboundLocalError "home_team_rank"))).
Proof.
  split; [|split].
  - intros out j i previous record. apply transform_carries.
  - intros first rest split Hsd Hsplit Hev Hwf Ha Hh.
    destruct (transform_returns _ _ _ _ _ Hsd Hsplit Hev Hwf Ha Hh) as [out H].
    exists out. split; [exact H|].
    pose proof (transform_length _ _ _ H) as Hlen. split; [exact Hlen|].
    intros i event Hi.
    destruct (transform_consecutive _ _ _ _ _ H Hi)
      as (event' & v0 & v1 & v2 & p & o & _ & Hp & _ & _ & Ho).
    exists p, o. split; [exact Hp|]. split; [exact Ho|].
    destruct (transform_carries _ _ _ i (S i) p o H (le_S _ _ (le_n _)) Hp Ho)
      as [Ca Ch].
    split; intros Hun; [apply Ca|apply Ch]; intros k ev Hk Hn;
      assert (k = S i) by lia; subst k; congruence.
  - intros i split Hsplit Hev Hrk Hi.
    destruct scoreboard_data as [|first rest]; [simpl in Hi; lia|].
    assert (H0 : nth_error (first :: rest) 0 = Some first) by reflexivity.
    destruct (add_date_and_time_nth _ _ _ _ Hsplit H0) as (first' & Hn & H1).
    destruct split as [|x split']; [discriminate|]. simpl in Hn.
    injection Hn as ->.
    inversion Hev as [|? ? Hfirst _]; subst.
    unfold is_event_record in Hfirst. apply andb_true_iff in Hfirst.
    destruct Hfirst as [Ha Hh]. apply has_key_true in Ha, Hh.
    destruct Ha as [a Ha], Hh as [h Hh].
    rewrite <- (add_date_and_time_1_other _ _ _ H1) in Ha by discriminate.
    rewrite <- (add_date_and_time_1_other _ _ _ H1) in Hh by discriminate.
    destruct (join_event_unbound team_rankings first' a h Ha Hh Hrk) as [Ja Jh].
    split; intros Hun; specialize (Hun 0%nat first (Nat.le_0_l i) eq_refl).
    + rewrite <- (away_unmatched_split _ _ _ H1) in Hun.
      unfold away_unmatched in Hun. rewrite Ha in Hun.
      eapply transform_first_iteration; eauto.
    + rewrite <- (home_unmatched_split _ _ _ H1) in Hun.
      unfold home_unmatched in Hun. rewrite Hh in Hun.
      destruct (Jh Hun) as [J|J]; [left | right];
        eapply transform_first_iteration; eauto.
Qed.

Lemma stale_rank_carry_over_witness :
  let first := samples.game "E1" "T1" "T2" in
  let second := samples.game "E2" "T9" "T2" in
  let third := samples.game "E3" "T2" "T8" in
  (away_assigned samples.rankings first = true
   /\ home_assigned samples.rankings first = true
   /\ away_unmatched samples.rankings second = true
   /\ home_unmatched samples.rankings third = true
   /\ transform_json_data [first; second; third] samples.rankings
      = Return [samples.joined "E1" "T1" "T2" 5 10 2 20;
                samples.joined "E2" "T9" "T2" 5 10 2 20;
                samples.joined "E3" "T2" "T8" 2 20 2 20]
   /\ exists out,
        transform_json_data [first; second; third] samples.rankings = Return out
        /\ length out = 3%nat
        /\ forall i event,
             nth_error [first; second; third] (S i) = Some event ->
             exists previous record,
               nth_error out i = Some previous
               /\ nth_error out (S i) = Some record
               /\ (away_unmatched samples.rankings event = true ->
                   dict_get "away_rank" record = dict_get "away_rank" previous
                   /\ dict_get "away_rank_points" record
                      = dict_get "away_rank_points" previous)
               /\ (home_unmatched samples.rankings event = true ->
                   dict_get "home_rank" record = dict_get "home_rank" previous
                   /\ dict_get "home_rank_points" record
                      = dict_get "home_rank_points" previous))
  /\ transform_json_data [second] samples.rankings
     = Raise (UnboundLocalError "away_team_rank").
Proof.
  intros first second third. split.
  - repeat (split; [reflexivity|]).
    refine (proj1 (proj2 (stale_rank_carry_over [first; second; third]
                            samples.rankings))
              first [second; third] _ eq_refl eq_refl _ _ eq_refl eq_refl).
    + repeat constructor; intros k Hk; cbn [In] in Hk;
        repeat (destruct Hk as [<-|Hk]; [reflexivity|]); destruct Hk.
    + repeat constructor.
  - refine (proj1 (proj2 (proj2 (stale_rank_carry_over [second] samples.rankings))
                     0%nat _ eq_refl _ _ (le_n _)) _).
    + repeat constructor.
    + repeat constructor.
    + intros k event Hk Hn.
      destruct k as [|k]; [|lia].
      injection Hn as <-. reflexivity.
Defined.

(** ** [pull_json_data] *)

(** C4. When the scoreboard fetch leaves [scoreboard_data] falsy, that
    is, when it raises (whatever the exception, [ValueError] and
    [TypeError] included, so the variable keeps its initial [None]) or
    returns [None] or an empty list, [pull_json_data] raises the
    [ValueError] of its [finally] clause; the exception in flight, if
    any, is replaced by it. *)
Theorem no_scoreboard_data_masks
    (_pull_scoreboard_data : string -> string -> result fetched)
    (_pull_team_rankings : unit -> result fetched)
    (start_date delta : string) :
  (forall data, _pull_scoreboard_data start_date delta = Return data ->
                fetched_truthy data = false) ->
  pull_json_data _pull_scoreboard_data _pull_team_rankings start_date delta
  = Raise (ValueError
      "No scoreboard data was returned for the specified starting date and delta provided. Either no data exists, or a date out of range was entered by mistake. Please check that the starting date provided is correct.").
Proof.
  intros H. unfold pull_json_data, pull_try.
  destruct (_pull_scoreboard_data start_date delta) as [data|e].
  - unfold pull_finally. now rewrite (H data eq_refl).
  - reflexivity.
Qed.

Lemma no_scoreboard_data_masks_witness :
  let fetch := fun start_date delta =>
                 _ <- generate_end_date start_date delta fmt_Ymd ;;
                 Return (Some [samples.game "E1" "T1" "T2"]) in
  fetch "2020-13-45" "7" = Raise (ValueError "time data does not match format")
  /\ pull_json_data fetch (fun _ => Return (Some samples.rankings))
       "2020-13-45" "7"
     = Raise (ValueError no_data_message).
Proof.
  intros fetch. split; [reflexivity|].
  apply (no_scoreboard_data_masks fetch).
  intros data H. discriminate H.
Defined.

(** ** [check_command_line_arguments] *)

(** C10 (amended). For an argument vector of three entries whose delta
    is not an integer literal, validation always fails; when the count is
    3 and the date has exactly three components between hyphens, the
    failure is the [ValueError] of the integer conversion, raised before
    the range of the delta is looked at. *)
Theorem non_integer_delta_rejected
    (argc : Z) (argv : list string) (program start_date delta : string) :
  argv = [program; start_date; delta] ->
  parse_int delta = None ->
  (exists e, check_command_line_arguments argc argv = Raise e)
  /\ (argc = 3 -> length (split "-" start_date) = 3%nat ->
      check_command_line_arguments argc argv
      = Raise (ValueError "invalid literal for int() with base 10")).
Proof.
  intros -> Hint. unfold check_command_line_arguments. simpl.
  unfold int_of_str. rewrite Hint.
  destruct (argc =? 3) eqn:Ec; simpl.
  - destruct (length (split "-" start_date) =? 3)%nat eqn:Ed; simpl.
    + split; [eauto | reflexivity].
    + split; [eauto|]. intros _ Hd. rewrite Hd in Ed. discriminate.
  - split; [eauto|]. intros ->. discriminate.
Qed.

Lemma non_integer_delta_rejected_witness :
  parse_int "3.5" = None
  /\ check_command_line_arguments 3 ["main.py"; "2020-01-12"; "3.5"]
     = Raise (ValueError "invalid literal for int() with base 10").
Proof.
  split; [reflexivity|].
  apply (proj2 (non_integer_delta_rejected 3 ["main.py"; "2020-01-12"; "3.5"]
                  "main.py" "2020-01-12" "3.5" eq_refl eq_refl));
    reflexivity.
Defined.

(** C10 as stated fails when the date argument is malformed: the date
    check comes first and its error is the one raised. *)
Lemma malformed_date_counterexample :
  let argv := ["main.py"; "20200112"; "abc"] in
  length argv = 3%nat
  /\ parse_int "abc" = None
  /\ check_command_line_arguments 3 argv = Raise (ValueError date_message)
  /\ check_command_line_arguments 3 argv
     <> Raise (ValueError "invalid literal for int() with base 10").
Proof.
  cbv zeta. repeat split; try reflexivity. discriminate.
Qed.

(** ** [add_date_and_time] *)

Lemma add_date_and_time_app before after :
  add_date_and_time (before ++ after)
  = (before' <- add_date_and_time before ;;
     after' <- add_date_and_time after ;;
     Return (before' ++ after')%list).
Proof.
  induction before as [|r before IH]; simpl.
  - destruct (add_date_and_time after); reflexivity.
  - destruct (add_date_and_time_1 r); simpl; [|reflexivity].
    rewrite IH. destruct (add_date_and_time before); simpl; [|reflexivity].
    destruct (add_date_and_time after); reflexivity.
Qed.

Lemma add_date_and_time_1_missing response :
  dict_get "event_date" response = None ->
  add_date_and_time_1 response = Raise (KeyError event_date_missing).
Proof. unfold add_date_and_time_1, getitem. now intros ->. Qed.

(** ** [_extract_scoreboard_fields_of_interest] *)

Lemma all_some_cons {A} (o : option A) l (xs : list A) :
  all_some (o :: l) = Some xs ->
  exists x xs', o = Some x /\ all_some l = Some xs' /\ xs = x :: xs'.
Proof.
  simpl. destruct o as [x|]; [|discriminate].
  destruct (all_some l) as [xs'|]; simpl; [|discriminate].
  intros [= <-]. eauto.
Qed.

(** The inner loop appends the records of the games to the accumulator. *)
Lemma extract_events_records fields games :
  forall acc records,
    all_some (map (event_record fields) games) = Some records ->
    extract_events fields games acc = Return (acc ++ records)%list.
Proof.
  induction games as [|[event_id event_data] games IH]; intros acc records H.
  - injection H as <-. simpl. now rewrite app_nil_r.
  - cbn [map] in H. apply all_some_cons in H.
    destruct H as (x & xs & Hx & Hxs & ->).
    unfold event_record in Hx. simpl in Hx.
    destruct event_data; try discriminate. injection Hx as <-.
    simpl. rewrite (IH _ _ Hxs). now rewrite <- app_assoc.
Qed.

Lemma extract_entries_app fields payload entries1 :
  forall entries2 acc,
    extract_entries fields payload (entries1 ++ entries2) acc
    = (acc' <- extract_entries fields payload entries1 acc ;;
       extract_entries fields payload entries2 acc').
Proof.
  induction entries1 as [|entry entries1 IH]; intros entries2 acc; simpl.
  - reflexivity.
  - destruct (getitem payload entry) as [event_results|e]; simpl; [|reflexivity].
    destruct (truthy event_results); [|apply IH].
    destruct (subscript event_results "data") as [data|e]; simpl; [|reflexivity].
    destruct (items data) as [games|e]; simpl; [|reflexivity].
    destruct (extract_events fields games acc); simpl; [apply IH | reflexivity].
Qed.

(** The loop only reads the payload under the keys it iterates over. *)
Lemma extract_entries_ext fields payload payload' entries :
  (forall k, In k entries -> dict_get k payload = dict_get k payload') ->
  forall acc, extract_entries fields payload entries acc
              = extract_entries fields payload' entries acc.
Proof.
  induction entries as [|entry entries IH]; intros Hagree acc; simpl.
  - reflexivity.
  - unfold getitem. rewrite <- (Hagree entry) by now left.
    assert (IH' := IH (fun k Hk => Hagree k (or_intror Hk))).
    destruct (dict_get entry payload) as [event_results|]; simpl; [|reflexivity].
    destruct (truthy event_results); [|apply IH'].
    destruct (subscript event_results "data") as [data|e]; simpl; [|reflexivity].
    destruct (items data) as [games|e]; simpl; [|reflexivity].
    destruct (extract_events fields games acc); simpl; [apply IH' | reflexivity].
Qed.

Lemma extract_entries_days fields payload (rest : pydict) :
  (forall k v, In (k, v) rest -> dict_get k payload = Some v) ->
  forall acc days,
    all_some (map (day_records fields) (map snd rest)) = Some days ->
    extract_entries fields payload (keys rest) acc
    = Return (acc ++ concat days)%list.
Proof.
  induction rest as [|[k bucket] rest IH]; intros Hget acc days H.
  - injection H as <-. simpl. now rewrite app_nil_r.
  - cbn [map snd] in H. apply all_some_cons in H.
    destruct H as (day & days' & Hday & Hdays & ->).
    assert (IH' := IH (fun k v Hin => Hget k v (or_intror Hin))).
    simpl. unfold getitem. rewrite (Hget k bucket) by now left. simpl.
    unfold day_records in Hday. destruct (truthy bucket).
    + destruct bucket; try discriminate. simpl. unfold getitem.
      destruct (dict_get "data" d) as [data|]; [|discriminate].
      destruct data; try discriminate. simpl.
      rewrite (extract_events_records _ _ _ _ Hday). simpl.
      rewrite (IH' _ _ Hdays). now rewrite <- app_assoc.
    + injection Hday as <-. simpl. apply (IH' _ _ Hdays).
Qed.

Lemma dict_get_app_other {A} (k k0 : string) (v0 : A) before after :
  k <> k0 ->
  dict_get k (before ++ (k0, v0) :: after)%list = dict_get k (before ++ after)%list.
Proof.
  intros Hne. induction before as [|[k1 v1] before IH]; simpl.
  - destruct (String.eqb_spec k k0); [contradiction | reflexivity].
  - now rewrite IH.
Qed.

(** C8. For a scoreboard payload (a dict, its keys distinct), the
    extraction returns the concatenation, in payload order, of the
    records of its date buckets: nothing for a bucket whose game list is
    empty, and for any other bucket one record per game entry of its
    [data] mapping, namely the entry's fields filtered by the allow-list
    with the entry's identifier stored under [event_id]; and dropping a
    bucket with an empty game list from a payload does not change the
    result. *)
Theorem extract_scoreboard_spec (fields : list string) (payload : pydict) :
  NoDup (keys payload) ->
  (forall days,
      all_some (map (day_records fields) (map snd payload)) = Some days ->
      _extract_scoreboard_fields_of_interest fields payload
      = Return (concat days))
  /\ (forall before day bucket after,
         payload = (before ++ (day, bucket) :: after)%list ->
         truthy bucket = false ->
         day_records fields bucket = Some []
         /\ _extract_scoreboard_fields_of_interest fields payload
            = _extract_scoreboard_fields_of_interest fields (before ++ after)%list)
  /\ (forall bucket games,
         dict_get "data" bucket = Some (VDict games) ->
         bucket <> [] ->
         Forall (fun game => exists event_data, snd game = VDict event_data)
                games ->
         exists records,
           day_records fields (VDict bucket) = Some records
           /\ Forall2 (fun game record =>
                         exists event_data,
                           snd game = VDict event_data
                           /\ record = dict_set "event_id" (VStr (fst game))
                                         (filter_dictionary event_data fields))
                      games records).
Proof.
  intros Hnd. split; [|split].
  - intros days H. unfold _extract_scoreboard_fields_of_interest.
    change (concat days) with ([] ++ concat days)%list.
    apply (extract_entries_days fields payload payload); [|exact H].
    intros k v Hin. now apply In_dict_get.
  - intros before day bucket after -> Hfalsy. split.
    + unfold day_records. now rewrite Hfalsy.
    + unfold _extract_scoreboard_fields_of_interest.
      rewrite !keys_app. cbn [keys map fst].
      rewrite !extract_entries_app.
      assert (Hday : ~ In day (keys before ++ keys after)%list).
      { rewrite keys_app in Hnd. cbn [keys map fst] in Hnd.
        now apply NoDup_remove_2 in Hnd. }
      assert (Hagree : forall k, In k (keys before ++ keys after)%list ->
                dict_get k (before ++ (day, bucket) :: after)%list
                = dict_get k (before ++ after)%list).
      { intros k Hk. apply dict_get_app_other. intros ->. contradiction. }
      rewrite (extract_entries_ext fields _ (before ++ after)%list (keys before))
        by (intros k Hk; apply Hagree, in_or_app; now left).
      destruct (extract_entries fields (before ++ after)%list (keys before) [])
        as [acc|e]; simpl; [|reflexivity].
      unfold getitem.
      rewrite (In_dict_get day bucket) by
        (try assumption; apply in_or_app; right; now left).
      simpl. rewrite Hfalsy.
      apply extract_entries_ext. intros k Hk. apply Hagree, in_or_app. now right.
  - intros bucket games Hdata Hne Hgames.
    unfold day_records. simpl. destruct bucket as [|x bucket]; [congruence|].
    rewrite Hdata. clear Hdata Hne.
    induction Hgames as [|game games [event_data Hg] _ [records [E F]]].
    + exists []. split; [reflexivity | constructor].
    + exists (dict_set "event_id" (VStr (fst game))
                (filter_dictionary event_data fields) :: records).
      split.
      * cbn [map all_some]. unfold event_record at 1. rewrite Hg, E. reflexivity.
      * constructor; [eauto | assumption].
Qed.

Lemma extract_scoreboard_spec_witness :
  let fields := ["event_date"; "home_city"] in
  let played := VDict [("data", VDict [("E1", VDict (samples.game "E1" "T1" "T2"))])] in
  let payload := [("2020-01-12", played); ("2020-01-13", VList [])] in
  NoDup (keys payload)
  /\ _extract_scoreboard_fields_of_interest fields payload
     = Return [[("event_date", VStr "2020-01-12 18:30");
                ("home_city", VStr "Baltimore"); ("event_id", VStr "E1")]]
  /\ _extract_scoreboard_fields_of_interest fields payload
     = _extract_scoreboard_fields_of_interest fields [("2020-01-12", played)].
Proof.
  intros fields played payload.
  assert (Hnd : NoDup (keys payload)).
  { repeat constructor; simpl; intuition discriminate. }
  destruct (extract_scoreboard_spec fields payload Hnd) as [Hdays [Hskip _]].
  split; [exact Hnd|]. split.
  - apply (Hdays [[[("event_date", VStr "2020-01-12 18:30");
                    ("home_city", VStr "Baltimore"); ("event_id", VStr "E1")]]; []]).
    reflexivity.
  - apply (Hskip [("2020-01-12", played)] "2020-01-13" (VList []) []);
      reflexivity.
Defined.

(** ** Dates *)

(** ** The calendar *)

Lemma In_zrange lo n z : lo <= z < lo + Z.of_nat n -> In z (zrange lo n).
Proof.
  intros H. unfold zrange. apply in_map_iff.
  exists (Z.to_nat (z - lo)). split; [lia|]. apply in_seq. lia.
Qed.

(** Evaluates the table look-ups and the closed conditions of a goal. *)
Ltac eval_tables :=
  repeat match goal with
         | |- context [table ?l ?m] =>
             let v := eval vm_compute in (table l m) in
             change (table l m) with v
         | H : context [table ?l ?m] |- _ =>
             let v := eval vm_compute in (table l m) in
             change (table l m) with v in H
         end.

Ltac eval_conds :=
  repeat match goal with
         | |- context [if ?b then ?x else ?y] =>
             let v := eval vm_compute in b in
             change (if b then x else y) with (if v then x else y);
             cbv iota
         | H : context [if ?b then ?x else ?y] |- _ =>
             let v := eval vm_compute in b in
             change (if b then x else y) with (if v then x else y) in H;
             cbv iota in H
         end.

Ltac month_cases m :=
  let Hc := fresh "Hc" in
  assert (Hc : m = 1 \/ m = 2 \/ m = 3 \/ m = 4 \/ m = 5 \/ m = 6 \/ m = 7
               \/ m = 8 \/ m = 9 \/ m = 10 \/ m = 11 \/ m = 12) by lia;
  repeat (destruct Hc as [->|Hc]); try subst m.

Lemma month_day_check_ok : month_day_check = true.
Proof. vm_compute. reflexivity. Qed.

Lemma month_day_correct (leap : bool) m d :
  1 <= m <= 12 ->
  1 <= d <= (if (m =? 2) && leap then 29 else table _DAYS_IN_MONTH m) ->
  let n := table _DAYS_BEFORE_MONTH m + (if (m >? 2) && leap then 1 else 0) + d - 1 in
  month_day leap n = (m, d) /\ 0 <= n <= (if leap then 365 else 364).
Proof.
  intros Hm Hd n.
  assert (Hd31 : d <= 31).
  { clear n. destruct leap; month_cases m; eval_tables; eval_conds; lia. }
  pose proof month_day_check_ok as H. unfold month_day_check in H.
  rewrite forallb_forall in H. specialize (H leap).
  assert (Hl : In leap [true; false]) by (destruct leap; simpl; auto).
  specialize (H Hl). rewrite forallb_forall in H.
  specialize (H m (In_zrange 1 12 m ltac:(lia))).
  rewrite forallb_forall in H.
  specialize (H d (In_zrange 1 31 d ltac:(lia))).
  cbv zeta in H. fold n in H.
  replace (d <=? (if (m =? 2) && leap then 29 else table _DAYS_IN_MONTH m))
    with true in H by (symmetry; apply Z.leb_le; lia).
  apply andb_true_iff in H. destruct H as [H H3].
  apply andb_true_iff in H. destruct H as [H1 H2].
  apply Z.eqb_eq in H1, H2. apply Z.leb_le in H3.
  split.
  - destruct (month_day leap n); simpl in *; congruence.
  - split; [|exact H3]. unfold n.
    clear H1 H2 H3 Hl.
    destruct leap; month_cases m; eval_tables; eval_conds; lia.
Qed.

(** ** From the ordinal back to the date

    A year is written [400 q + 100 b + 4 c + e + 1]; the divisions of
    [_ord2ymd] recover [q], [b], [c] and [e] from the ordinal. *)

Lemma year_split (Y : Z) :
  0 <= Y ->
  exists q b c e,
    Y = 400 * q + 100 * b + 4 * c + e
    /\ 0 <= q /\ 0 <= b <= 3 /\ 0 <= c <= 24 /\ 0 <= e <= 3.
Proof.
  intros HY. exists (Y / 400), (Y mod 400 / 100), (Y mod 100 / 4), (Y mod 4).
  Z.to_euclidean_division_equations. lia.
Qed.

Section cycle.
Variables q b c e : Z.
Hypothesis Hq : 0 <= q.
Hypothesis Hb : 0 <= b <= 3.
Hypothesis Hc : 0 <= c <= 24.
Hypothesis He : 0 <= e <= 3.
Let y := 400 * q + 100 * b + 4 * c + e + 1.

Lemma days_before_year_split :
  _days_before_year y = 146097 * q + 36524 * b + 1461 * c + 365 * e.
Proof.
  unfold _days_before_year, y.
  replace (400 * q + 100 * b + 4 * c + e + 1 - 1)
    with (400 * q + 100 * b + 4 * c + e) by lia.
  Z.to_euclidean_division_equations. lia.
Qed.

Lemma is_leap_split :
  _is_leap y = (e =? 3) && (negb (c =? 24) || (b =? 3)).
Proof.
  unfold _is_leap, y.
  assert (E4 : ((400 * q + 100 * b + 4 * c + e + 1) mod 4 =? 0) = (e =? 3)).
  { destruct (Z.eqb_spec e 3); [apply Z.eqb_eq | apply Z.eqb_neq];
      Z.to_euclidean_division_equations; lia. }
  assert (E100 : ((400 * q + 100 * b + 4 * c + e + 1) mod 100 =? 0)
                 = (c =? 24) && (e =? 3)).
  { destruct (Z.eqb_spec c 24); destruct (Z.eqb_spec e 3); cbn [andb];
      [apply Z.eqb_eq | apply Z.eqb_neq | apply Z.eqb_neq | apply Z.eqb_neq];
      Z.to_euclidean_division_equations; lia. }
  assert (E400 : ((400 * q + 100 * b + 4 * c + e + 1) mod 400 =? 0)
                 = (b =? 3) && (c =? 24) && (e =? 3)).
  { destruct (Z.eqb_spec b 3); destruct (Z.eqb_spec c 24);
      destruct (Z.eqb_spec e 3); cbn [andb];
      first [apply Z.eqb_eq | apply Z.eqb_neq];
      Z.to_euclidean_division_equations; lia. }
  rewrite E4, E100, E400.
  destruct (e =? 3), (c =? 24), (b =? 3); reflexivity.
Qed.

Lemma ord2ymd_day_of_year doy :
  0 <= doy <= 364 ->
  _ord2ymd (_days_before_year y + doy + 1)
  = (y, fst (month_day (_is_leap y) doy), snd (month_day (_is_leap y) doy)).
Proof.
  intros Hdoy. rewrite days_before_year_split, is_leap_split.
  unfold _ord2ymd, _DI400Y, _DI100Y, _DI4Y.
  replace (146097 * q + 36524 * b + 1461 * c + 365 * e + doy + 1 - 1)
    with (146097 * q + 36524 * b + 1461 * c + 365 * e + doy) by lia.
  set (n := 146097 * q + 36524 * b + 1461 * c + 365 * e + doy).
  assert (E1 : n / 146097 = q)
    by (unfold n; Z.to_euclidean_division_equations; lia).
  assert (R1 : n mod 146097 = 36524 * b + 1461 * c + 365 * e + doy)
    by (unfold n; Z.to_euclidean_division_equations; lia).
  rewrite E1, R1.
  assert (E2 : (36524 * b + 1461 * c + 365 * e + doy) / 36524 = b)
    by (Z.to_euclidean_division_equations; lia).
  assert (R2 : (36524 * b + 1461 * c + 365 * e + doy) mod 36524
               = 1461 * c + 365 * e + doy)
    by (Z.to_euclidean_division_equations; lia).
  rewrite E2, R2.
  assert (E3 : (1461 * c + 365 * e + doy) / 1461 = c)
    by (Z.to_euclidean_division_equations; lia).
  assert (R3 : (1461 * c + 365 * e + doy) mod 1461 = 365 * e + doy)
    by (Z.to_euclidean_division_equations; lia).
  rewrite E3, R3.
  assert (E4 : (365 * e + doy) / 365 = e)
    by (Z.to_euclidean_division_equations; lia).
  assert (R4 : (365 * e + doy) mod 365 = doy)
    by (Z.to_euclidean_division_equations; lia).
  rewrite E4, R4. cbv zeta.
  replace (e =? 4) with false by (symmetry; apply Z.eqb_neq; lia).
  replace (b =? 4) with false by (symmetry; apply Z.eqb_neq; lia).
  cbn [orb].
  replace (q * 400 + 1 + b * 100 + c * 4 + e) with y by (unfold y; lia).
  unfold month_day. cbv zeta.
  destruct (_ >? doy); reflexivity.
Qed.

Lemma ord2ymd_last_day_of_leap_year :
  _is_leap y = true ->
  _ord2ymd (_days_before_year y + 365 + 1) = (y, 12, 31).
Proof.
  rewrite is_leap_split, days_before_year_split. intros Hleap.
  apply andb_true_iff in Hleap. destruct Hleap as [E3 Hcb].
  apply Z.eqb_eq in E3.
  unfold _ord2ymd, _DI400Y, _DI100Y, _DI4Y.
  replace (146097 * q + 36524 * b + 1461 * c + 365 * e + 365 + 1 - 1)
    with (146097 * q + 36524 * b + 1461 * c + 365 * e + 365) by lia.
  set (n := 146097 * q + 36524 * b + 1461 * c + 365 * e + 365).
  assert (E1 : n / 146097 = q)
    by (unfold n; Z.to_euclidean_division_equations; lia).
  assert (R1 : n mod 146097 = 36524 * b + 1461 * c + 365 * e + 365)
    by (unfold n; Z.to_euclidean_division_equations; lia).
  rewrite E1, R1. cbv zeta.
  destruct (Z.eqb_spec c 24) as [Ec|Ec].
  - (* the last year of the 400-year cycle *)
    simpl in Hcb. apply Z.eqb_eq in Hcb. subst b c e.
    change ((36524 * 3 + 1461 * 24 + 365 * 3 + 365) / 36524) with 4.
    change (4 =? 4) with true. rewrite orb_true_r.
    f_equal. f_equal. unfold y.
    change ((36524 * 3 + 1461 * 24 + 365 * 3 + 365) mod 36524) with 0.
    change (0 / 1461) with 0. change (0 mod 1461) with 0.
    change (0 / 365) with 0. lia.
  - assert (E2 : (36524 * b + 1461 * c + 365 * e + 365) / 36524 = b)
      by (Z.to_euclidean_division_equations; lia).
    assert (R2 : (36524 * b + 1461 * c + 365 * e + 365) mod 36524
                 = 1461 * c + 365 * e + 365)
      by (Z.to_euclidean_division_equations; lia).
    rewrite E2, R2.
    assert (E3' : (1461 * c + 365 * e + 365) / 1461 = c)
      by (Z.to_euclidean_division_equations; lia).
    assert (R3 : (1461 * c + 365 * e + 365) mod 1461 = 365 * e + 365)
      by (Z.to_euclidean_division_equations; lia).
    rewrite E3', R3.
    assert (E4 : (365 * e + 365) / 365 = 4)
      by (Z.to_euclidean_division_equations; lia).
    rewrite E4. change (4 =? 4) with true. cbn [orb].
    f_equal. f_equal. unfold y. lia.
Qed.

End cycle.


(** Round trip through the ordinal. *)
Lemma ord2ymd_ymd2ord y m d :
  1 <= y -> 1 <= m <= 12 -> 1 <= d <= _days_in_month y m ->
  _ord2ymd (_ymd2ord y m d) = (y, m, d).
Proof.
  intros Hy Hm Hd.
  destruct (year_split (y - 1) ltac:(lia)) as (q & b & c & e & HY & Hq & Hb & Hc & He).
  assert (Ey : y = 400 * q + 100 * b + 4 * c + e + 1) by lia.
  unfold _ymd2ord, _days_before_month, _days_in_month in *.
  destruct (month_day_correct (_is_leap y) m d Hm Hd) as [Hmd Hn].
  cbv zeta in Hmd, Hn.
  set (doy := table _DAYS_BEFORE_MONTH m
              + (if (m >? 2) && _is_leap y then 1 else 0) + d - 1) in *.
  replace (_days_before_year y
           + (table _DAYS_BEFORE_MONTH m
              + (if (m >? 2) && _is_leap y then 1 else 0)) + d)
    with (_days_before_year y + doy + 1) by (unfold doy; lia).
  destruct (Z.eq_dec doy 365) as [E365|N365].
  - assert (Hleap : _is_leap y = true)
      by (destruct (_is_leap y); [reflexivity | lia]).
    rewrite E365. rewrite Ey at 1.
    rewrite ord2ymd_last_day_of_leap_year by (try rewrite <- Ey; assumption).
    rewrite <- Ey. rewrite Hleap, E365 in Hmd.
    change (month_day true 365) with (12, 31) in Hmd.
    injection Hmd as <- <-. reflexivity.
  - assert (Hdoy : 0 <= doy <= 364) by (destruct (_is_leap y); lia).
    rewrite Ey at 1. rewrite ord2ymd_day_of_year by assumption.
    rewrite <- Ey, Hmd. reflexivity.
Qed.

(** The calendar of the specification and the tables of the module agree. *)
Lemma leap_year_is_leap y : leap_year y = _is_leap y.
Proof.
  unfold leap_year, _is_leap.
  destruct (Z.eqb_spec (y mod 400) 0) as [E400|E400];
    destruct (Z.eqb_spec (y mod 100) 0) as [E100|E100];
    destruct (Z.eqb_spec (y mod 4) 0) as [E4|E4]; try reflexivity;
    exfalso; Z.to_euclidean_division_equations; lia.
Qed.

Lemma month_length_days_in_month y m :
  1 <= m <= 12 -> month_length y m = _days_in_month y m.
Proof.
  intros Hm. unfold month_length, _days_in_month. rewrite leap_year_is_leap.
  destruct (_is_leap y); month_cases m; reflexivity.
Qed.

Lemma days_before_next_year y :
  _days_before_year (y + 1)
  = _days_before_year y + 365 + (if _is_leap y then 1 else 0).
Proof.
  unfold _days_before_year, _is_leap.
  replace (y + 1 - 1) with y by lia.
  destruct (Z.eqb_spec (y mod 400) 0) as [E400|E400];
    destruct (Z.eqb_spec (y mod 100) 0) as [E100|E100];
    destruct (Z.eqb_spec (y mod 4) 0) as [E4|E4]; cbn [andb orb negb];
    Z.to_euclidean_division_equations; lia.
Qed.

Lemma ordinal_tomorrow date :
  date_ok date ->
  date_ok (tomorrow date) /\ ordinal (tomorrow date) = ordinal date + 1.
Proof.
  destruct date as [[y m] d]. intros (Hy & Hm & Hd).
  unfold tomorrow. rewrite month_length_days_in_month by assumption.
  destruct (Z.ltb_spec d (_days_in_month y m)) as [Hlt|Hge].
  - split; [unfold date_ok; lia | unfold ordinal, _ymd2ord; lia].
  - assert (Ed : d = _days_in_month y m) by lia. clear Hge Hd.
    destruct (Z.ltb_spec m 12) as [Hm12|Hm12].
    + unfold date_ok, ordinal, _ymd2ord, _days_before_month, _days_in_month in *.
      destruct (_is_leap y);
        month_cases m; try lia; subst d; eval_tables; eval_conds; lia.
    + assert (m = 12) by lia. subst m.
      unfold date_ok, ordinal, _ymd2ord, _days_before_month, _days_in_month in *.
      rewrite days_before_next_year.
      destruct (_is_leap y), (_is_leap (y + 1));
        subst d; eval_tables; eval_conds; lia.
Qed.

Lemma ordinal_days_after n date :
  date_ok date ->
  date_ok (days_after n date)
  /\ ordinal (days_after n date) = ordinal date + Z.of_nat n.
Proof.
  intros Hok. induction n as [|n [IH1 IH2]].
  - simpl. split; [assumption | lia].
  - change (days_after (S n) date) with (tomorrow (days_after n date)).
    destruct (ordinal_tomorrow _ IH1) as [H1 H2]. split; [assumption | lia].
Qed.

Lemma days_before_year_mono y y' :
  y <= y' -> _days_before_year y <= _days_before_year y'.
Proof.
  intros H. unfold _days_before_year.
  Z.to_euclidean_division_equations. lia.
Qed.

Lemma ordinal_bounds date :
  date_ok date -> fst (fst date) <= 9999 -> 1 <= ordinal date <= _MAXORDINAL.
Proof.
  destruct date as [[y m] d]. intros (Hy & Hm & Hd) H9. simpl in H9.
  unfold ordinal, _ymd2ord.
  destruct (month_day_correct (_is_leap y) m d Hm Hd) as [_ Hn].
  cbv zeta in Hn. unfold _days_before_month.
  pose proof (days_before_year_mono 1 y Hy) as Hlo.
  pose proof (days_before_year_mono (y + 1) 10000 ltac:(lia)) as Hhi.
  rewrite days_before_next_year in Hhi.
  change (_days_before_year 1) with 0 in Hlo.
  change (_days_before_year 10000) with 3652059 in Hhi.
  unfold _MAXORDINAL. destruct (_is_leap y); lia.
Qed.

(** ** Parsing the renderings *)

Lemma zrange_cases (P : Z -> Prop) lo n :
  Forall P (zrange lo n) -> forall z, lo <= z < lo + Z.of_nat n -> P z.
Proof.
  intros H z Hz. rewrite Forall_forall in H. apply H. now apply In_zrange.
Qed.

(** Proves [P z] for [lo <= z < lo + n] by checking each value. *)
Ltac by_cases_on z lo n :=
  pattern z; apply (zrange_cases _ lo n); [|lia];
  cbv [zrange seq map]; repeat constructor.

Lemma digit_char_facts k :
  0 <= k <= 9 ->
  is_digit (digit_char k) = true
  /\ digit_value (digit_char k) = k
  /\ is_space (digit_char k) = false.
Proof.
  intros Hk. by_cases_on k 0 10%nat; vm_compute; auto.
Qed.

Lemma pad4_digits y :
  0 <= y <= 9999 ->
  0 <= y / 1000 <= 9 /\ 0 <= y / 100 mod 10 <= 9
  /\ 0 <= y / 10 mod 10 <= 9 /\ 0 <= y mod 10 <= 9
  /\ y = 10 * (10 * (10 * (y / 1000) + y / 100 mod 10) + y / 10 mod 10) + y mod 10.
Proof. intros Hy. Z.to_euclidean_division_equations. lia. Qed.

Lemma match_group_year y rest :
  0 <= y <= 9999 -> match_group dY (pad4 y ++ rest) = [(pad4 y, rest)].
Proof.
  intros Hy. destruct (pad4_digits y Hy) as (H1 & H2 & H3 & H4 & _).
  apply digit_char_facts in H1, H2, H3, H4.
  destruct H1 as [H1 _], H2 as [H2 _], H3 as [H3 _], H4 as [H4 _].
  unfold match_group, alternatives, pad4. simpl.
  now rewrite H1, H2, H3, H4.
Qed.

Lemma int_of_str_pad4 y : 0 <= y <= 9999 -> int_of_str (pad4 y) = Return y.
Proof.
  intros Hy. destruct (pad4_digits y Hy) as (H1 & H2 & H3 & H4 & E).
  unfold int_of_str, pad4.
  assert (parse_int
            (String (digit_char (y / 1000))
               (String (digit_char (y / 100 mod 10))
                  (String (digit_char (y / 10 mod 10))
                     (String (digit_char (y mod 10)) "")))) = Some y);
    [|now rewrite H].
  apply digit_char_facts in H2, H3, H4.
  destruct H2 as [D2 [V2 _]], H3 as [D3 [V3 _]], H4 as [D4 [V4 _]].
  rewrite E at 5. clear E.
  generalize dependent (y / 100 mod 10). generalize dependent (y / 10 mod 10).
  generalize dependent (y mod 10). generalize dependent (y / 1000).
  intros k1 Hk1 k4 D4 V4 k3 D3 V3 k2 D2 V2.
  pattern k1. apply (zrange_cases _ 0 10%nat); [|lia].
  cbv [zrange seq map]. repeat constructor;
    (cbv [parse_int lstrip]; simpl; rewrite D2, D3, D4, V2, V3, V4; reflexivity).
Qed.

Lemma int_of_str_pad2 v : 0 <= v <= 99 -> int_of_str (pad2 v) = Return v.
Proof.
  intros Hv. by_cases_on v 0 100%nat; vm_compute; reflexivity.
Qed.

(** A zero-padded field is the first match of its group. *)
Lemma match_group_month m :
  1 <= m <= 12 ->
  forall rest, exists others,
    match_group dm (pad2 m ++ rest) = (pad2 m, rest) :: others.
Proof.
  intros Hm. by_cases_on m 1 12%nat; intros rest; vm_compute; eauto.
Qed.

Lemma match_group_day d :
  1 <= d <= 31 ->
  forall rest, exists others,
    match_group dd (pad2 d ++ rest) = (pad2 d, rest) :: others.
Proof.
  intros Hd. by_cases_on d 1 31%nat; intros rest; vm_compute; eauto.
Qed.

Lemma match_group_hour H :
  0 <= H <= 23 ->
  forall rest, exists others,
    match_group dH (pad2 H ++ rest) = (pad2 H, rest) :: others.
Proof.
  intros HH. by_cases_on H 0 24%nat; intros rest; vm_compute; eauto.
Qed.

Lemma match_group_minute M :
  0 <= M <= 59 ->
  forall rest, exists others,
    match_group dM (pad2 M ++ rest) = (pad2 M, rest) :: others.
Proof.
  intros HM. by_cases_on M 0 60%nat; intros rest; vm_compute; eauto.
Qed.

Lemma matches_group_first d re s text rest others g r others' :
  match_group d s = (text, rest) :: others ->
  matches re rest = (g, r) :: others' ->
  exists others'',
    matches (RGroup d :: re) s = ((d, text) :: g, r) :: others''.
Proof.
  intros Hg Hre. cbn [matches]. rewrite Hg. cbn [flat_map fst snd].
  rewrite Hre. cbn [map app fst snd]. eauto.
Qed.

Lemma matches_char c re s : matches (RChar c :: re) (String c s) = matches re s.
Proof. cbn [matches]. now rewrite Ascii.eqb_refl. Qed.

Lemma valid_date_ok y m d :
  valid_date y m d = true <-> date_ok (y, m, d) /\ y <= 9999.
Proof.
  unfold valid_date, date_ok. rewrite !andb_true_iff, !Z.leb_le. split.
  - intros [[[[[Hy1 Hy2] Hm1] Hm2] Hd1] Hd2].
    rewrite month_length_days_in_month in Hd2 by lia. lia.
  - intros [(Hy & Hm & Hd) H9].
    rewrite month_length_days_in_month by lia. lia.
Qed.

Lemma valid_date_day y m d : valid_date y m d = true -> 1 <= d <= 31.
Proof.
  intros H. apply valid_date_ok in H. destruct H as [(Hy & Hm & Hd) _].
  revert Hd. unfold _days_in_month.
  destruct (_is_leap y); month_cases m; eval_tables; eval_conds; lia.
Qed.

Lemma new_valid y m d H M :
  valid_date y m d = true -> valid_time H M = true ->
  new y m d H M = Return (mk y m d H M).
Proof.
  intros Hd Ht. apply valid_date_ok in Hd. destruct Hd as [(Hy & Hm & Hd) H9].
  unfold valid_time in Ht. rewrite !andb_true_iff, !Z.leb_le in Ht.
  unfold new, check_date_fields, check_time_fields, MINYEAR, MAXYEAR.
  replace ((1 <=? y) && (y <=? 9999)) with true
    by (symmetry; apply andb_true_iff; rewrite !Z.leb_le; lia).
  replace ((1 <=? m) && (m <=? 12)) with true
    by (symmetry; apply andb_true_iff; rewrite !Z.leb_le; lia).
  replace ((1 <=? d) && (d <=? _days_in_month y m)) with true
    by (symmetry; apply andb_true_iff; rewrite !Z.leb_le; lia).
  replace ((0 <=? H) && (H <=? 23)) with true
    by (symmetry; apply andb_true_iff; rewrite !Z.leb_le; lia).
  replace ((0 <=? M) && (M <=? 59)) with true
    by (symmetry; apply andb_true_iff; rewrite !Z.leb_le; lia).
  reflexivity.
Qed.

Lemma new_Return y m d H M dt :
  new y m d H M = Return dt ->
  dt = mk y m d H M /\ valid_date y m d = true /\ valid_time H M = true.
Proof.
  unfold new, check_date_fields, check_time_fields, MINYEAR, MAXYEAR.
  destruct ((1 <=? y) && (y <=? 9999)) eqn:Ey; [|discriminate].
  destruct ((1 <=? m) && (m <=? 12)) eqn:Em; [|discriminate].
  destruct ((1 <=? d) && (d <=? _days_in_month y m)) eqn:Ed; [|discriminate].
  destruct ((0 <=? H) && (H <=? 23)) eqn:EH; [|discriminate].
  destruct ((0 <=? M) && (M <=? 59)) eqn:EM; [|discriminate].
  simpl. intros [= <-]. split; [reflexivity|].
  rewrite andb_true_iff, !Z.leb_le in Ey, Em, Ed, EH, EM.
  split.
  - apply valid_date_ok. unfold date_ok. lia.
  - unfold valid_time. rewrite !andb_true_iff, !Z.leb_le. lia.
Qed.

Lemma new_Raise y m d H M e :
  new y m d H M = Raise e -> exists msg, e = ValueError msg.
Proof.
  unfold new, check_date_fields, check_time_fields.
  repeat match goal with
         | |- context [if ?b then _ else _] => destruct b
         end; simpl; intros [= <-]; eauto.
Qed.

Lemma field_Raise g d default e :
  field g d default = Raise e -> exists msg, e = ValueError msg.
Proof.
  unfold field, int_of_str. destruct (group g d) as [text|]; [|discriminate].
  destruct (parse_int text); [discriminate|]. intros [= <-]. eauto.
Qed.

(** [strptime] returns a valid date and time, or raises [ValueError]. *)
Lemma strptime_outcome s f :
  (exists dt, strptime s f = Return dt
              /\ valid_date (year dt) (month dt) (day dt) = true
              /\ valid_time (hour dt) (minute dt) = true)
  \/ (exists msg, strptime s f = Raise (ValueError msg)).
Proof.
  unfold strptime.
  destruct (matches (compile false f) s) as [|[g rest] others]; [right; eauto|].
  destruct (negb (rest =? "")%string); [right; eauto|].
  destruct (field g dm 1) as [m|e] eqn:Em;
    [|apply field_Raise in Em; destruct Em as [msg ->]; right; cbn [bind]; eauto].
  destruct (field g dd 1) as [d|e] eqn:Ed;
    [|apply field_Raise in Ed; destruct Ed as [msg ->]; right; cbn [bind]; eauto].
  destruct (field g dH 0) as [H|e] eqn:EH;
    [|apply field_Raise in EH; destruct EH as [msg ->]; right; cbn [bind]; eauto].
  destruct (field g dM 0) as [M|e] eqn:EM;
    [|apply field_Raise in EM; destruct EM as [msg ->]; right; cbn [bind]; eauto].
  cbn [bind].
  destruct (field g dY _) as [y|e] eqn:EY;
    [|apply field_Raise in EY; destruct EY as [msg ->]; right; cbn [bind]; eauto].
  cbn [bind].
  destruct (new y m d H M) as [dt|e] eqn:En.
  - apply new_Return in En. destruct En as (-> & Hd & Ht). left. eauto.
  - apply new_Raise in En. destruct En as [msg ->]. right. eauto.
Qed.

Lemma append_empty_r s : s ++ "" = s.
Proof. induction s; simpl; congruence. Qed.

(** ** Characters *)

Lemma digit_of_code c :
  48 <= char_code c <= 57 -> c = digit_char (char_code c - 48).
Proof.
  intros H. unfold digit_char, char_code in *.
  replace (48 + (Z.of_nat (nat_of_ascii c) - 48)) with (Z.of_nat (nat_of_ascii c))
    by lia.
  rewrite Nat2Z.id. symmetry. apply ascii_nat_embedding.
Qed.

Lemma in_range_digit lo hi c :
  in_range lo hi c = true -> 48 <= char_code lo -> char_code hi <= 57 ->
  exists k, char_code lo - 48 <= k <= char_code hi - 48 /\ c = digit_char k.
Proof.
  unfold in_range. rewrite andb_true_iff, !Z.leb_le. intros [H1 H2] Hlo Hhi.
  exists (char_code c - 48). split; [lia|]. apply digit_of_code. lia.
Qed.

Lemma is_digit_digit c :
  is_digit c = true -> exists k, 0 <= k <= 9 /\ c = digit_char k.
Proof.
  unfold is_digit. rewrite andb_true_iff, !Z.leb_le. intros [H1 H2].
  exists (char_code c - 48). split; [lia|]. apply digit_of_code. lia.
Qed.

Lemma in_range_is_digit lo hi c :
  is_digit lo = true -> is_digit hi = true -> is_digit c = false ->
  in_range lo hi c = false.
Proof.
  unfold is_digit, in_range. rewrite !andb_true_iff, !Z.leb_le, andb_false_iff.
  intros [H1 _] [_ H2] H. apply andb_false_iff.
  destruct H as [H|H]; [left|right]; apply Z.leb_gt; apply Z.leb_gt in H; lia.
Qed.

Lemma is_space_not_digit c : is_space c = true -> is_digit c = false.
Proof.
  unfold is_space, is_digit. cbv zeta.
  rewrite !orb_true_iff, !andb_true_iff, !Z.leb_le, !Z.eqb_eq. intros H.
  apply andb_false_iff. rewrite !Z.leb_gt. lia.
Qed.

Lemma two_digits a b :
  0 <= a <= 9 -> 0 <= b <= 9 ->
  String (digit_char a) (String (digit_char b) "") = pad2 (10 * a + b).
Proof.
  intros Ha Hb. unfold pad2.
  replace ((10 * a + b) / 10) with a by (Z.to_euclidean_division_equations; lia).
  replace ((10 * a + b) mod 10) with b by (Z.to_euclidean_division_equations; lia).
  reflexivity.
Qed.

Lemma four_digits a b c d :
  0 <= a <= 9 -> 0 <= b <= 9 -> 0 <= c <= 9 -> 0 <= d <= 9 ->
  String (digit_char a) (String (digit_char b)
    (String (digit_char c) (String (digit_char d) "")))
  = pad4 (1000 * a + 100 * b + 10 * c + d).
Proof.
  intros Ha Hb Hc Hd. unfold pad4.
  replace ((1000 * a + 100 * b + 10 * c + d) / 1000) with a
    by (Z.to_euclidean_division_equations; lia).
  replace ((1000 * a + 100 * b + 10 * c + d) / 100 mod 10) with b
    by (Z.to_euclidean_division_equations; lia).
  replace ((1000 * a + 100 * b + 10 * c + d) / 10 mod 10) with c
    by (Z.to_euclidean_division_equations; lia).
  replace ((1000 * a + 100 * b + 10 * c + d) mod 10) with d
    by (Z.to_euclidean_division_equations; lia).
  reflexivity.
Qed.

(** ** The text of a field *)

Lemma field_text_int d v text :
  field_text d v text -> int_of_str text = Return v.
Proof.
  destruct d; cbn [field_text].
  - intros [Hv ->]. now apply int_of_str_pad4.
  - intros [Hv [->|[H9 ->]]]; [apply int_of_str_pad2; lia|].
    by_cases_on v 1 9%nat; reflexivity.
  - intros [Hv [->|[H9 [->| ->]]]]; [apply int_of_str_pad2; lia| |];
      by_cases_on v 1 9%nat; reflexivity.
  - intros [Hv [->|[H9 ->]]]; [apply int_of_str_pad2; lia|].
    by_cases_on v 0 10%nat; reflexivity.
  - intros [Hv [->|[H9 ->]]]; [apply int_of_str_pad2; lia|].
    by_cases_on v 0 10%nat; reflexivity.
Qed.

Lemma match_classes_1 p s text rest :
  match_classes [p] s = Some (text, rest) ->
  exists c, s = String c rest /\ text = String c "" /\ p c = true.
Proof.
  destruct s as [|c s]; cbn [match_classes]; [discriminate|].
  destruct (p c) eqn:E; [|discriminate]. intros [= <- <-]. eauto.
Qed.

Lemma match_classes_2 p q s text rest :
  match_classes [p; q] s = Some (text, rest) ->
  exists c1 c2,
    s = String c1 (String c2 rest) /\ text = String c1 (String c2 "")
    /\ p c1 = true /\ q c2 = true.
Proof.
  destruct s as [|c1 s]; cbn [match_classes]; [discriminate|].
  destruct (p c1) eqn:E1; [|discriminate].
  destruct s as [|c2 s]; [discriminate|].
  destruct (q c2) eqn:E2; [|discriminate]. intros [= <- <-].
  exists c1, c2. auto.
Qed.

Lemma match_classes_4 p1 p2 p3 p4 s text rest :
  match_classes [p1; p2; p3; p4] s = Some (text, rest) ->
  exists c1 c2 c3 c4,
    s = String c1 (String c2 (String c3 (String c4 rest)))
    /\ text = String c1 (String c2 (String c3 (String c4 "")))
    /\ p1 c1 = true /\ p2 c2 = true /\ p3 c3 = true /\ p4 c4 = true.
Proof.
  destruct s as [|c1 s]; cbn [match_classes]; [discriminate|].
  destruct (p1 c1) eqn:E1; [|discriminate].
  destruct s as [|c2 s]; [discriminate|].
  destruct (p2 c2) eqn:E2; [|discriminate].
  destruct s as [|c3 s]; [discriminate|].
  destruct (p3 c3) eqn:E3; [|discriminate].
  destruct s as [|c4 s]; [discriminate|].
  destruct (p4 c4) eqn:E4; [|discriminate]. intros [= <- <-].
  exists c1, c2, c3, c4. auto 7.
Qed.

Lemma is_char_eq a c : is_char a c = true -> c = a.
Proof. unfold is_char. intros H. apply Ascii.eqb_eq in H. now subst. Qed.

(** Splits the membership in the matches of a group into its
    alternatives. *)
Ltac split_alternatives H :=
  unfold match_group, alternatives in H; cbn [flat_map] in H;
  repeat (apply in_app_or in H; destruct H as [H|H]);
  try (destruct H; fail);
  match type of H with
  | In _ match ?m with _ => _ end =>
      let E := fresh "E" in
      destruct m as [[? ?]|] eqn:E; [|destruct H];
      destruct H as [H|[]]; injection H as -> ->
  end.

Ltac digit_of H k :=
  first [ apply is_digit_digit in H
        | apply in_range_digit in H; [|vm_compute; discriminate..] ];
  let Hk := fresh "Hk" in
  destruct H as (k & Hk & ->);
  repeat match type of Hk with
         | context [char_code ?c] =>
             let n := eval vm_compute in (char_code c) in
             change (char_code c) with n in Hk
         end.

(** Whatever a group matches is a text of its directive, at the front of
    the string. *)
Lemma match_group_sound d s text rest :
  In (text, rest) (match_group d s) ->
  s = text ++ rest /\ exists v, field_text d v text.
Proof.
  intros H. destruct d; split_alternatives H.
  - apply match_classes_4 in E.
    destruct E as (c1 & c2 & c3 & c4 & -> & -> & H1 & H2 & H3 & H4).
    split; [reflexivity|].
    digit_of H1 k1. digit_of H2 k2. digit_of H3 k3. digit_of H4 k4.
    exists (1000 * k1 + 100 * k2 + 10 * k3 + k4). cbn [field_text].
    split; [lia|]. apply four_digits; lia.
  - apply match_classes_2 in E. destruct E as (c1 & c2 & -> & -> & H1 & H2).
    split; [reflexivity|]. apply is_char_eq in H1. subst c1. digit_of H2 k.
    exists (10 * 1 + k). cbn [field_text]. split; [lia|]. left.
    apply (two_digits 1 k); lia.
  - apply match_classes_2 in E. destruct E as (c1 & c2 & -> & -> & H1 & H2).
    split; [reflexivity|]. apply is_char_eq in H1. subst c1. digit_of H2 k.
    exists (10 * 0 + k). cbn [field_text]. split; [lia|]. left.
    apply (two_digits 0 k); lia.
  - apply match_classes_1 in E. destruct E as (c & -> & -> & H1).
    split; [reflexivity|]. digit_of H1 k.
    exists k. cbn [field_text]. split; [lia|]. right. split; [lia|reflexivity].
  - apply match_classes_2 in E. destruct E as (c1 & c2 & -> & -> & H1 & H2).
    split; [reflexivity|]. apply is_char_eq in H1. subst c1. digit_of H2 k.
    exists (10 * 3 + k). cbn [field_text]. split; [lia|]. left.
    apply (two_digits 3 k); lia.
  - apply match_classes_2 in E. destruct E as (c1 & c2 & -> & -> & H1 & H2).
    split; [reflexivity|]. digit_of H1 k1. digit_of H2 k2.
    exists (10 * k1 + k2). cbn [field_text]. split; [lia|]. left.
    apply two_digits; lia.
  - apply match_classes_2 in E. destruct E as (c1 & c2 & -> & -> & H1 & H2).
    split; [reflexivity|]. apply is_char_eq in H1. subst c1. digit_of H2 k.
    exists (10 * 0 + k). cbn [field_text]. split; [lia|]. left.
    apply (two_digits 0 k); lia.
  - apply match_classes_1 in E. destruct E as (c & -> & -> & H1).
    split; [reflexivity|]. digit_of H1 k.
    exists k. cbn [field_text]. split; [lia|]. right. split; [lia|].
    left. reflexivity.
  - apply match_classes_2 in E. destruct E as (c1 & c2 & -> & -> & H1 & H2).
    split; [reflexivity|]. apply is_char_eq in H1. subst c1. digit_of H2 k.
    exists k. cbn [field_text]. split; [lia|]. right. split; [lia|].
    right. reflexivity.
  - apply match_classes_2 in E. destruct E as (c1 & c2 & -> & -> & H1 & H2).
    split; [reflexivity|]. apply is_char_eq in H1. subst c1. digit_of H2 k.
    exists (10 * 2 + k). cbn [field_text]. split; [lia|]. left.
    apply (two_digits 2 k); lia.
  - apply match_classes_2 in E. destruct E as (c1 & c2 & -> & -> & H1 & H2).
    split; [reflexivity|]. digit_of H1 k1. digit_of H2 k2.
    exists (10 * k1 + k2). cbn [field_text]. split; [lia|]. left.
    apply two_digits; lia.
  - apply match_classes_1 in E. destruct E as (c & -> & -> & H1).
    split; [reflexivity|]. digit_of H1 k.
    exists k. cbn [field_text]. split; [lia|]. right. split; [lia|reflexivity].
  - apply match_classes_2 in E. destruct E as (c1 & c2 & -> & -> & H1 & H2).
    split; [reflexivity|]. digit_of H1 k1. digit_of H2 k2.
    exists (10 * k1 + k2). cbn [field_text]. split; [lia|]. left.
    apply two_digits; lia.
  - apply match_classes_1 in E. destruct E as (c & -> & -> & H1).
    split; [reflexivity|]. digit_of H1 k.
    exists k. cbn [field_text]. split; [lia|]. right. split; [lia|reflexivity].
Qed.

(** The facts about a character that is not a digit which the
    alternatives of the groups ask for. *)
Ltac not_digit c H :=
  pose proof (in_range_is_digit "0" "1" c eq_refl eq_refl H);
  pose proof (in_range_is_digit "0" "2" c eq_refl eq_refl H);
  pose proof (in_range_is_digit "0" "3" c eq_refl eq_refl H);
  pose proof (in_range_is_digit "0" "5" c eq_refl eq_refl H);
  pose proof (in_range_is_digit "1" "2" c eq_refl eq_refl H);
  pose proof (in_range_is_digit "1" "9" c eq_refl eq_refl H).

Ltac bare_digit rest Hrest :=
  destruct rest as [|c r];
  [ vm_compute; eauto
  | cbn [starts_with] in Hrest; not_digit c Hrest;
    unfold match_group, alternatives, digit1;
    cbn [flat_map match_classes append];
    repeat match goal with
           | E : ?p c = false |- context [?p c] => rewrite E
           end;
    vm_compute; eauto ].

(** A text of a directive that no digit follows is the first match of
    the directive's group. *)
Lemma match_group_first d v text rest :
  field_text d v text -> starts_with is_digit rest = false ->
  exists others, match_group d (text ++ rest) = (text, rest) :: others.
Proof.
  intros Ht Hrest. destruct d; cbn [field_text] in Ht.
  - destruct Ht as [Hv ->]. exists []. now apply match_group_year.
  - destruct Ht as [Hv [->|[H9 ->]]]; [now apply match_group_month|].
    revert rest Hrest. by_cases_on v 1 9%nat; intros rest Hrest;
      bare_digit rest Hrest.
  - destruct Ht as [Hv [->|[H9 [->| ->]]]]; [now apply match_group_day| |].
    + revert rest Hrest. by_cases_on v 1 9%nat; intros rest Hrest;
        bare_digit rest Hrest.
    + by_cases_on v 1 9%nat; vm_compute; eauto.
  - destruct Ht as [Hv [->|[H9 ->]]]; [now apply match_group_hour|].
    revert rest Hrest. by_cases_on v 0 10%nat; intros rest Hrest;
      bare_digit rest Hrest.
  - destruct Ht as [Hv [->|[H9 ->]]]; [now apply match_group_minute|].
    revert rest Hrest. by_cases_on v 0 10%nat; intros rest Hrest;
      bare_digit rest Hrest.
Qed.

(** A text of a directive other than the day starts with a digit. *)
Lemma field_text_starts_with_digit d v text rest :
  field_text d v text -> d <> dd ->
  starts_with is_digit (text ++ rest) = true.
Proof.
  intros Ht Hd.
  assert (D : forall k, 0 <= k <= 9 -> is_digit (digit_char k) = true)
    by (intros k Hk; now apply digit_char_facts).
  destruct d; cbn [field_text] in Ht; try congruence.
  - destruct Ht as [Hv ->]. apply D. Z.to_euclidean_division_equations. lia.
  - destruct Ht as [Hv [->|[H9 ->]]]; apply D;
      try (Z.to_euclidean_division_equations; lia); lia.
  - destruct Ht as [Hv [->|[H9 ->]]]; apply D;
      try (Z.to_euclidean_division_equations; lia); lia.
  - destruct Ht as [Hv [->|[H9 ->]]]; apply D;
      try (Z.to_euclidean_division_equations; lia); lia.
Qed.

Lemma starts_with_digit_not_space s :
  starts_with is_digit s = true -> starts_with is_space s = false.
Proof.
  destruct s as [|c s]; [reflexivity|]. cbn [starts_with]. intros H.
  destruct (is_space c) eqn:E; [|reflexivity].
  apply is_space_not_digit in E. congruence.
Qed.

Lemma blanks_not_digit ws rest :
  blanks ws -> starts_with is_digit (ws ++ rest) = false.
Proof.
  intros [Hne Hall]. destruct ws as [|c ws]; [congruence|].
  cbn [all_chars] in Hall. apply andb_true_iff in Hall.
  cbn [append starts_with]. now apply is_space_not_digit.
Qed.

(** ** White space *)

Lemma after_spaces_sound s rest :
  In rest (after_spaces s) -> exists ws, blanks ws /\ s = ws ++ rest.
Proof.
  revert rest. induction s as [|c s IH]; cbn [after_spaces]; [easy|].
  destruct (is_space c) eqn:E; [|easy]. intros rest H.
  apply in_app_or in H. destruct H as [H|[<-|[]]].
  - destruct (IH _ H) as (ws & [Hne Hall] & ->). exists (String c ws).
    split; [|reflexivity]. split; [discriminate|].
    cbn [all_chars]. now rewrite E.
  - exists (String c ""). split; [|reflexivity]. split; [discriminate|].
    cbn [all_chars]. now rewrite E.
Qed.

Lemma after_spaces_first ws rest :
  blanks ws -> starts_with is_space rest = false ->
  exists others, after_spaces (ws ++ rest) = rest :: others.
Proof.
  intros [Hne Hall] Hrest. induction ws as [|c ws IH]; [congruence|].
  cbn [all_chars] in Hall. apply andb_true_iff in Hall. destruct Hall as [Hc Hall].
  cbn [append after_spaces]. rewrite Hc.
  destruct ws as [|c' ws].
  - cbn [append]. exists [].
    destruct rest as [|c' r]; [reflexivity|].
    cbn [starts_with] in Hrest. cbn [after_spaces]. now rewrite Hrest.
  - destruct (IH ltac:(discriminate) Hall) as [others ->].
    cbn [app]. eauto.
Qed.

(** ** The matches of an expression *)

Lemma matches_group_inv d re s g rest :
  In (g, rest) (matches (RGroup d :: re) s) ->
  exists text s' g',
    In (text, s') (match_group d s) /\ In (g', rest) (matches re s')
    /\ g = (d, text) :: g'.
Proof.
  cbn [matches]. rewrite in_flat_map. intros ([text s'] & Hm & H).
  rewrite in_map_iff in H. destruct H as ([g' r'] & E & H).
  cbn [fst snd] in *. injection E as <- <-. eauto 7.
Qed.

Lemma matches_char_inv c re s g rest :
  In (g, rest) (matches (RChar c :: re) s) ->
  exists s', s = String c s' /\ In (g, rest) (matches re s').
Proof.
  cbn [matches]. destruct s as [|c' s]; [easy|].
  destruct (Ascii.eqb c c') eqn:E; [|easy].
  apply Ascii.eqb_eq in E. subst c'. eauto.
Qed.

Lemma matches_spaces_inv re s g rest :
  In (g, rest) (matches (RSpaces :: re) s) ->
  exists ws s', blanks ws /\ s = ws ++ s' /\ In (g, rest) (matches re s').
Proof.
  cbn [matches]. rewrite in_flat_map. intros (s' & Hs & H).
  apply after_spaces_sound in Hs. destruct Hs as (ws & Hws & ->). eauto.
Qed.

Lemma matches_nil_inv s g rest : In (g, rest) (matches [] s) -> g = [] /\ rest = s.
Proof. cbn [matches]. intros [[= <- <-]|[]]. auto. Qed.

Lemma matches_spaces_first re ws s g r others :
  blanks ws -> starts_with is_space s = false ->
  matches re s = (g, r) :: others ->
  exists others', matches (RSpaces :: re) (ws ++ s) = (g, r) :: others'.
Proof.
  intros Hws Hs Hre. destruct (after_spaces_first ws s Hws Hs) as [o E].
  cbn [matches]. rewrite E. cbn [flat_map]. rewrite Hre. cbn [app]. eauto.
Qed.

(** ** [strptime] on the two formats of the package *)

Lemma matches_Ymd_first y m d ty tm td :
  field_text dY y ty -> field_text dm m tm -> field_text dd d td ->
  exists others,
    matches re_Ymd (ty ++ "-" ++ tm ++ "-" ++ td)
    = ([(dY, ty); (dm, tm); (dd, td)], "") :: others.
Proof.
  intros Hy Hm Hd. unfold re_Ymd.
  destruct (match_group_first dd d td "" Hd eq_refl) as [o3 G3].
  destruct (matches_group_first dd [] _ _ _ _ [] "" [] G3 eq_refl) as [o3' M3].
  pose proof (matches_char "-" [RGroup dd] (td ++ "")) as C2. rewrite M3 in C2.
  destruct (match_group_first dm m tm ("-" ++ td ++ "") Hm eq_refl) as [o2 G2].
  destruct (matches_group_first dm _ _ _ _ _ _ _ _ G2 C2) as [o2' M2].
  pose proof (matches_char "-" [RGroup dm; RChar "-"; RGroup dd]
                (tm ++ "-" ++ td ++ "")) as C1.
  rewrite M2 in C1.
  destruct (match_group_first dY y ty ("-" ++ tm ++ "-" ++ td ++ "") Hy eq_refl)
    as [o1 G1].
  destruct (matches_group_first dY _ _ _ _ _ _ _ _ G1 C1) as [o1' M1].
  rewrite (append_empty_r td) in M1. eauto.
Qed.

Lemma matches_Ymd_inv s g rest :
  In (g, rest) (matches re_Ymd s) ->
  exists y m d ty tm td,
    g = [(dY, ty); (dm, tm); (dd, td)]
    /\ s = ty ++ "-" ++ tm ++ "-" ++ td ++ rest
    /\ field_text dY y ty /\ field_text dm m tm /\ field_text dd d td.
Proof.
  unfold re_Ymd. intros H.
  apply matches_group_inv in H. destruct H as (ty & s1 & g1 & G1 & H & ->).
  apply match_group_sound in G1. destruct G1 as [-> [y Hy]].
  apply matches_char_inv in H. destruct H as (s2 & -> & H).
  apply matches_group_inv in H. destruct H as (tm & s3 & g3 & G3 & H & ->).
  apply match_group_sound in G3. destruct G3 as [-> [m Hm]].
  apply matches_char_inv in H. destruct H as (s4 & -> & H).
  apply matches_group_inv in H. destruct H as (td & s5 & g5 & G5 & H & ->).
  apply match_group_sound in G5. destruct G5 as [-> [d Hd]].
  apply matches_nil_inv in H. destruct H as [-> ->].
  exists y, m, d, ty, tm, td. auto 7.
Qed.

Lemma matches_Ymd_HM_first y m d H M ty tm td ws tH tM :
  field_text dY y ty -> field_text dm m tm -> field_text dd d td ->
  blanks ws -> field_text dH H tH -> field_text dM M tM ->
  exists others,
    matches re_Ymd_HM (ty ++ "-" ++ tm ++ "-" ++ td ++ ws ++ tH ++ ":" ++ tM)
    = ([(dY, ty); (dm, tm); (dd, td); (dH, tH); (dM, tM)], "") :: others.
Proof.
  intros Hy Hm Hd Hws HH HM. unfold re_Ymd_HM.
  destruct (match_group_first dM M tM "" HM eq_refl) as [o5 G5].
  destruct (matches_group_first dM [] _ _ _ _ [] "" [] G5 eq_refl) as [o5' M5].
  pose proof (matches_char ":" [RGroup dM] (tM ++ "")) as C4. rewrite M5 in C4.
  destruct (match_group_first dH H tH (":" ++ tM ++ "") HH eq_refl) as [o4 G4].
  destruct (matches_group_first dH _ _ _ _ _ _ _ _ G4 C4) as [o4' M4].
  destruct (matches_spaces_first [RGroup dH; RChar ":"; RGroup dM] ws
              (tH ++ ":" ++ tM ++ "") _ _ _ Hws
              (starts_with_digit_not_space _
                 (field_text_starts_with_digit dH H tH _ HH ltac:(discriminate)))
              M4) as [o3s B3].
  destruct (match_group_first dd d td (ws ++ tH ++ ":" ++ tM ++ "") Hd
              (blanks_not_digit ws _ Hws)) as [o3 G3].
  destruct (matches_group_first dd _ _ _ _ _ _ _ _ G3 B3) as [o3' M3].
  pose proof (matches_char "-"
                [RGroup dd; RSpaces; RGroup dH; RChar ":"; RGroup dM]
                (td ++ ws ++ tH ++ ":" ++ tM ++ "")) as C2.
  rewrite M3 in C2.
  destruct (match_group_first dm m tm
              ("-" ++ td ++ ws ++ tH ++ ":" ++ tM ++ "") Hm eq_refl) as [o2 G2].
  destruct (matches_group_first dm _ _ _ _ _ _ _ _ G2 C2) as [o2' M2].
  pose proof (matches_char "-"
                [RGroup dm; RChar "-"; RGroup dd; RSpaces; RGroup dH;
                 RChar ":"; RGroup dM]
                (tm ++ "-" ++ td ++ ws ++ tH ++ ":" ++ tM ++ "")) as C1.
  rewrite M2 in C1.
  destruct (match_group_first dY y ty
              ("-" ++ tm ++ "-" ++ td ++ ws ++ tH ++ ":" ++ tM ++ "") Hy eq_refl)
    as [o1 G1].
  destruct (matches_group_first dY _ _ _ _ _ _ _ _ G1 C1) as [o1' M1].
  rewrite (append_empty_r tM) in M1. eauto.
Qed.

Lemma matches_Ymd_HM_inv s g rest :
  In (g, rest) (matches re_Ymd_HM s) ->
  exists y m d H M ty tm td ws tH tM,
    g = [(dY, ty); (dm, tm); (dd, td); (dH, tH); (dM, tM)]
    /\ s = ty ++ "-" ++ tm ++ "-" ++ td ++ ws ++ tH ++ ":" ++ tM ++ rest
    /\ field_text dY y ty /\ field_text dm m tm /\ field_text dd d td
    /\ blanks ws /\ field_text dH H tH /\ field_text dM M tM.
Proof.
  unfold re_Ymd_HM. intros H0.
  apply matches_group_inv in H0. destruct H0 as (ty & s1 & g1 & G1 & H0 & ->).
  apply match_group_sound in G1. destruct G1 as [-> [y Hy]].
  apply matches_char_inv in H0. destruct H0 as (s2 & -> & H0).
  apply matches_group_inv in H0. destruct H0 as (tm & s3 & g3 & G3 & H0 & ->).
  apply match_group_sound in G3. destruct G3 as [-> [m Hm]].
  apply matches_char_inv in H0. destruct H0 as (s4 & -> & H0).
  apply matches_group_inv in H0. destruct H0 as (td & s5 & g5 & G5 & H0 & ->).
  apply match_group_sound in G5. destruct G5 as [-> [d Hd]].
  apply matches_spaces_inv in H0. destruct H0 as (ws & s6 & Hws & -> & H0).
  apply matches_group_inv in H0. destruct H0 as (tH & s7 & g7 & G7 & H0 & ->).
  apply match_group_sound in G7. destruct G7 as [-> [H HH]].
  apply matches_char_inv in H0. destruct H0 as (s8 & -> & H0).
  apply matches_group_inv in H0. destruct H0 as (tM & s9 & g9 & G9 & H0 & ->).
  apply match_group_sound in G9. destruct G9 as [-> [M HM]].
  apply matches_nil_inv in H0. destruct H0 as [-> ->].
  exists y, m, d, H, M, ty, tm, td, ws, tH, tM. auto 12.
Qed.

(** [strptime] with ["%Y-%m-%d"] returns exactly on the strings that read
    as a valid date, and returns that date. *)
Lemma strptime_date_reads s y m d :
  reads_as_date s y m d -> valid_date y m d = true ->
  strptime s fmt_Ymd = Return (mk y m d 0 0).
Proof.
  intros (ty & tm & td & -> & Hy & Hm & Hd) Hvalid.
  unfold strptime. change (compile false fmt_Ymd) with re_Ymd.
  destruct (matches_Ymd_first y m d ty tm td Hy Hm Hd) as [others ->].
  cbn [String.eqb negb]. unfold field, group. cbn [find directive_eqb fst snd].
  rewrite (field_text_int _ _ _ Hy), (field_text_int _ _ _ Hm),
    (field_text_int _ _ _ Hd).
  cbn [bind]. now apply new_valid.
Qed.

Lemma strptime_date_inv s dt :
  strptime s fmt_Ymd = Return dt ->
  exists y m d,
    reads_as_date s y m d /\ valid_date y m d = true /\ dt = mk y m d 0 0.
Proof.
  unfold strptime. change (compile false fmt_Ymd) with re_Ymd.
  destruct (matches re_Ymd s) as [|[g rest] others] eqn:E; [discriminate|].
  destruct (String.eqb rest "") eqn:Er; [|discriminate]. cbn [negb].
  apply String.eqb_eq in Er. subst rest.
  assert (Hin : In (g, "") (matches re_Ymd s)) by (rewrite E; now left).
  apply matches_Ymd_inv in Hin.
  destruct Hin as (y & m & d & ty & tm & td & -> & -> & Hy & Hm & Hd).
  unfold field, group. cbn [find directive_eqb fst snd].
  rewrite (field_text_int _ _ _ Hy), (field_text_int _ _ _ Hm),
    (field_text_int _ _ _ Hd).
  cbn [bind]. intros Hnew. apply new_Return in Hnew.
  destruct Hnew as (-> & Hvalid & _).
  exists y, m, d. split; [|auto].
  exists ty, tm, td. rewrite (append_empty_r td). auto.
Qed.

Lemma strptime_datetime_reads s y m d H M :
  reads_as_datetime s y m d H M ->
  valid_date y m d = true -> valid_time H M = true ->
  strptime s fmt_Ymd_HM = Return (mk y m d H M).
Proof.
  intros (ty & tm & td & ws & tH & tM & -> & Hy & Hm & Hd & Hws & HH & HM)
    Hdate Htime.
  unfold strptime. change (compile false fmt_Ymd_HM) with re_Ymd_HM.
  destruct (matches_Ymd_HM_first y m d H M ty tm td ws tH tM Hy Hm Hd Hws HH HM)
    as [others ->].
  cbn [String.eqb negb]. unfold field, group. cbn [find directive_eqb fst snd].
  rewrite (field_text_int _ _ _ Hy), (field_text_int _ _ _ Hm),
    (field_text_int _ _ _ Hd), (field_text_int _ _ _ HH),
    (field_text_int _ _ _ HM).
  cbn [bind]. now apply new_valid.
Qed.

Lemma strptime_datetime_inv s dt :
  strptime s fmt_Ymd_HM = Return dt ->
  exists y m d H M,
    reads_as_datetime s y m d H M
    /\ valid_date y m d = true /\ valid_time H M = true /\ dt = mk y m d H M.
Proof.
  unfold strptime. change (compile false fmt_Ymd_HM) with re_Ymd_HM.
  destruct (matches re_Ymd_HM s) as [|[g rest] others] eqn:E; [discriminate|].
  destruct (String.eqb rest "") eqn:Er; [|discriminate]. cbn [negb].
  apply String.eqb_eq in Er. subst rest.
  assert (Hin : In (g, "") (matches re_Ymd_HM s)) by (rewrite E; now left).
  apply matches_Ymd_HM_inv in Hin.
  destruct Hin as (y & m & d & H & M & ty & tm & td & ws & tH & tM
                   & -> & -> & Hy & Hm & Hd & Hws & HH & HM).
  unfold field, group. cbn [find directive_eqb fst snd].
  rewrite (field_text_int _ _ _ Hy), (field_text_int _ _ _ Hm),
    (field_text_int _ _ _ Hd), (field_text_int _ _ _ HH),
    (field_text_int _ _ _ HM).
  cbn [bind]. intros Hnew. apply new_Return in Hnew.
  destruct Hnew as (-> & Hdate & Htime).
  exists y, m, d, H, M. split; [|auto].
  exists ty, tm, td, ws, tH, tM. rewrite (append_empty_r tM). auto 8.
Qed.

(** ** Ordinals and dates *)

Lemma days_before_month_nonneg y m : 1 <= m <= 12 -> 0 <= _days_before_month y m.
Proof.
  intros Hm. unfold _days_before_month.
  destruct (_is_leap y); month_cases m; eval_tables; eval_conds; lia.
Qed.

Lemma ordinal_after_year date :
  date_ok date -> _days_before_year (fst (fst date)) < ordinal date.
Proof.
  destruct date as [[y m] d]. intros (Hy & Hm & Hd). simpl.
  unfold _ymd2ord. pose proof (days_before_month_nonneg y m Hm). lia.
Qed.

(** Every ordinal of the supported range is the ordinal of a date of the
    years 1 to 9999, and [_ord2ymd] finds that date. *)
Lemma ord2ymd_valid n :
  1 <= n <= _MAXORDINAL ->
  exists y m d, _ord2ymd n = (y, m, d) /\ valid_date y m d = true
                /\ ordinal (y, m, d) = n.
Proof.
  intros Hn.
  assert (Hfirst : date_ok (1, 1, 1)) by (unfold date_ok; cbv; intuition discriminate).
  destruct (ordinal_days_after (Z.to_nat (n - 1)) (1, 1, 1) Hfirst) as [Hok Hord].
  change (ordinal (1, 1, 1)) with 1 in Hord.
  destruct (days_after (Z.to_nat (n - 1)) (1, 1, 1)) as [[y m] d] eqn:E.
  exists y, m, d.
  assert (Hordn : ordinal (y, m, d) = n) by lia.
  assert (H9 : y <= 9999).
  { destruct (Z.le_gt_cases y 9999) as [|Hbig]; [assumption|].
    pose proof (ordinal_after_year _ Hok) as Hlow. simpl in Hlow.
    pose proof (days_before_year_mono 10000 y ltac:(lia)) as Hmono.
    change (_days_before_year 10000) with 3652059 in Hmono.
    unfold _MAXORDINAL in Hn. simpl in Hordn. lia. }
  split; [|split; [|assumption]].
  - rewrite <- Hordn. destruct Hok as (Hy & Hm & Hd).
    simpl. now apply ord2ymd_ymd2ord.
  - apply valid_date_ok. auto.
Qed.

(** ** The renderings *)

Lemma digit_char_nonzero k : 1 <= k <= 9 -> Ascii.eqb "0" (digit_char k) = false.
Proof. intros Hk. by_cases_on k 1 9%nat; reflexivity. Qed.

(** [strftime] writes the year of a date as the specification's
    vocabulary has it. *)
Lemma decimal_year_text y : 1 <= y <= 9999 -> decimal y = year_text y.
Proof.
  intros Hy. unfold decimal, year_text, pad4, pad2.
  destruct (Z.ltb_spec y 10) as [H10|H10];
    [|destruct (Z.ltb_spec y 100) as [H100|H100];
      [|destruct (Z.ltb_spec y 1000) as [H1000|H1000]]].
  - replace (y / 1000) with 0 by (Z.to_euclidean_division_equations; lia).
    replace (y / 100 mod 10) with 0 by (Z.to_euclidean_division_equations; lia).
    replace (y / 10 mod 10) with 0 by (Z.to_euclidean_division_equations; lia).
    replace (y mod 10) with y by (Z.to_euclidean_division_equations; lia).
    cbn [lstrip]. change (Ascii.eqb "0" (digit_char 0)) with true. cbv iota.
    now rewrite digit_char_nonzero by lia.
  - replace (y / 1000) with 0 by (Z.to_euclidean_division_equations; lia).
    replace (y / 100 mod 10) with 0 by (Z.to_euclidean_division_equations; lia).
    replace (y / 10 mod 10) with (y / 10)
      by (Z.to_euclidean_division_equations; lia).
    cbn [lstrip]. change (Ascii.eqb "0" (digit_char 0)) with true. cbv iota.
    now rewrite digit_char_nonzero
      by (Z.to_euclidean_division_equations; lia).
  - replace (y / 1000) with 0 by (Z.to_euclidean_division_equations; lia).
    replace (y / 100 mod 10) with (y / 100)
      by (Z.to_euclidean_division_equations; lia).
    cbn [lstrip]. change (Ascii.eqb "0" (digit_char 0)) with true. cbv iota.
    now rewrite digit_char_nonzero
      by (Z.to_euclidean_division_equations; lia).
  - cbn [lstrip].
    now rewrite digit_char_nonzero
      by (Z.to_euclidean_division_equations; lia).
Qed.

Lemma year_text_pad4 y : 1000 <= y <= 9999 -> year_text y = pad4 y.
Proof.
  intros Hy. rewrite <- decimal_year_text by lia. unfold decimal.
  rewrite (proj2 (Z.ltb_ge y 10)), (proj2 (Z.ltb_ge y 100)),
    (proj2 (Z.ltb_ge y 1000)) by lia.
  reflexivity.
Qed.

Lemma ymd_text_iso_date y m d :
  1000 <= y <= 9999 -> ymd_text (y, m, d) = iso_date (y, m, d).
Proof. intros Hy. unfold ymd_text, iso_date. now rewrite year_text_pad4. Qed.

Lemma dmy_text_dmy_date y m d :
  1000 <= y <= 9999 -> dmy_text y m d = dmy_date y m d.
Proof. intros Hy. unfold dmy_text, dmy_date. now rewrite year_text_pad4. Qed.

Lemma strftime_Ymd y m d H M :
  1 <= y <= 9999 -> strftime (mk y m d H M) fmt_Ymd = ymd_text (y, m, d).
Proof.
  intros Hy. unfold ymd_text. rewrite <- decimal_year_text by assumption.
  reflexivity.
Qed.

Lemma strftime_dmY y m d H M :
  1 <= y <= 9999 -> strftime (mk y m d H M) fmt_dmY = dmy_text y m d.
Proof.
  intros Hy. unfold dmy_text. rewrite <- decimal_year_text by assumption.
  cbn [strftime fmt_dmY render year month day]. now rewrite append_empty_r.
Qed.

Lemma strftime_HM y m d H M : strftime (mk y m d H M) fmt_HM = hm_time H M.
Proof.
  unfold hm_time. cbn [strftime fmt_HM render hour minute].
  now rewrite append_empty_r.
Qed.

Lemma valid_date_year y m d : valid_date y m d = true -> 1 <= y <= 9999.
Proof. intros H. apply valid_date_ok in H. destruct H as [(Hy & _) H9]. lia. Qed.

(** The zero-padded forms are among the strings read. *)
Lemma iso_date_reads y m d :
  valid_date y m d = true -> reads_as_date (iso_date (y, m, d)) y m d.
Proof.
  intros Hvalid. pose proof (valid_date_day _ _ _ Hvalid) as Hd.
  apply valid_date_ok in Hvalid. destruct Hvalid as [(Hy & Hm & _) H9].
  exists (pad4 y), (pad2 m), (pad2 d). cbn [field_text].
  split; [reflexivity|]. split; [split; [lia|reflexivity]|].
  split; (split; [lia|left; reflexivity]).
Qed.

Lemma iso_datetime_reads y m d H M :
  valid_date y m d = true -> valid_time H M = true ->
  reads_as_datetime (iso_datetime y m d H M) y m d H M.
Proof.
  intros Hvalid Htime. pose proof (valid_date_day _ _ _ Hvalid) as Hd.
  apply valid_date_ok in Hvalid. destruct Hvalid as [(Hy & Hm & _) H9].
  unfold valid_time in Htime. rewrite !andb_true_iff, !Z.leb_le in Htime.
  exists (pad4 y), (pad2 m), (pad2 d), " ", (pad2 H), (pad2 M).
  cbn [field_text]. split; [reflexivity|]. split; [split; [lia|reflexivity]|].
  split; [split; [lia|left; reflexivity]|].
  split; [split; [lia|left; reflexivity]|].
  split; [split; [discriminate|reflexivity]|].
  split; (split; [lia|left; reflexivity]).
Qed.

(** ** [split_datetime] *)

Lemma split_datetime_reads date_time y m d H M :
  reads_as_datetime date_time y m d H M ->
  valid_date y m d = true -> valid_time H M = true ->
  split_datetime date_time fmt_Ymd_HM = Return (dmy_text y m d, hm_time H M).
Proof.
  intros Hr Hd Ht. unfold split_datetime.
  rewrite (strptime_datetime_reads _ _ _ _ _ _ Hr Hd Ht). cbn [bind].
  now rewrite strftime_dmY, strftime_HM by (eapply valid_date_year; eauto).
Qed.

Lemma split_datetime_inv date_time result :
  split_datetime date_time fmt_Ymd_HM = Return result ->
  exists y m d H M,
    reads_as_datetime date_time y m d H M
    /\ valid_date y m d = true /\ valid_time H M = true
    /\ result = (dmy_text y m d, hm_time H M).
Proof.
  unfold split_datetime. intros H0. bind_inv H0.
  apply strptime_datetime_inv in Hstep.
  destruct Hstep as (y & m & d & H & M & Hr & Hd & Ht & ->).
  rewrite strftime_dmY, strftime_HM in H0 by (eapply valid_date_year; eauto).
  injection H0 as <-.
  exists y, m, d, H, M. auto.
Qed.

Lemma split_datetime_Raise date_time e :
  split_datetime date_time fmt_Ymd_HM = Raise e -> exists msg, e = ValueError msg.
Proof.
  unfold split_datetime.
  destruct (strptime_outcome date_time fmt_Ymd_HM) as [(dt & -> & _)|(msg & ->)];
    cbn [bind]; [discriminate|].
  intros [= <-]. eauto.
Qed.

(** C5 (amended). A string reads as a date and time when it is a
    four-digit year, a month, a day, a non-empty run of white space, an
    hour and a minute, separated by [-], [-] and [:], where month, day,
    hour and minute are zero-padded or, below ten, a bare digit (the day
    also a digit after a blank).  On every string that reads as a valid
    date and time [split_datetime] returns the date written day first,
    with day and month zero-padded and the year without padding (so
    [DD-MM-YYYY] from the year 1000 on), and the time written [HH:MM];
    the strings [YYYY-MM-DD HH:MM] are among them, and
    ["2020-01-12 18:30"] gives [("12-01-2020", "18:30")].  It returns on
    no other string: every other string makes it raise [ValueError]. *)
Theorem split_datetime_spec :
  (forall date_time y m d H M,
      reads_as_datetime date_time y m d H M ->
      valid_date y m d = true -> valid_time H M = true ->
      split_datetime date_time fmt_Ymd_HM
      = Return (dmy_text y m d, hm_time H M)
      /\ (1000 <= y ->
          split_datetime date_time fmt_Ymd_HM
          = Return (dmy_date y m d, hm_time H M)))
  /\ (forall y m d H M,
         valid_date y m d = true -> valid_time H M = true ->
         reads_as_datetime (iso_datetime y m d H M) y m d H M)
  /\ split_datetime "2020-01-12 18:30" fmt_Ymd_HM
     = Return ("12-01-2020", "18:30")
  /\ (forall date_time result,
         split_datetime date_time fmt_Ymd_HM = Return result ->
         exists y m d H M,
           reads_as_datetime date_time y m d H M
           /\ valid_date y m d = true /\ valid_time H M = true
           /\ result = (dmy_text y m d, hm_time H M))
  /\ (forall date_time,
         (forall y m d H M,
             valid_date y m d = true -> valid_time H M = true ->
             ~ reads_as_datetime date_time y m d H M) ->
         exists msg,
           split_datetime date_time fmt_Ymd_HM = Raise (ValueError msg)).
Proof.
  split; [|split; [|split; [|split]]].
  - intros date_time y m d H M Hr Hd Ht.
    pose proof (split_datetime_reads _ _ _ _ _ _ Hr Hd Ht) as E.
    split; [exact E|]. intros Hy. rewrite <- dmy_text_dmy_date; [exact E|].
    apply valid_date_year in Hd. lia.
  - exact iso_datetime_reads.
  - reflexivity.
  - exact split_datetime_inv.
  - intros date_time Hno.
    destruct (split_datetime date_time fmt_Ymd_HM) as [result|e] eqn:E.
    + apply split_datetime_inv in E.
      destruct E as (y & m & d & H & M & Hr & Hd & Ht & _).
      destruct (Hno y m d H M Hd Ht Hr).
    + destruct (split_datetime_Raise _ _ E) as [msg ->]. eauto.
Qed.

Lemma split_datetime_spec_witness :
  reads_as_datetime "2020-1-5  7:05" 2020 1 5 7 5
  /\ valid_date 2020 1 5 = true /\ valid_time 7 5 = true /\ 1000 <= 2020
  /\ split_datetime "2020-1-5  7:05" fmt_Ymd_HM = Return ("05-01-2020", "07:05").
Proof.
  assert (Hr : reads_as_datetime "2020-1-5  7:05" 2020 1 5 7 5).
  { exists "2020", "1", "5", "  ", "7", "05". cbn [field_text].
    split; [reflexivity|]. split; [split; [lia|reflexivity]|].
    split; [split; [lia|right; split; [lia|reflexivity]]|].
    split; [split; [lia|right; split; [lia|left; reflexivity]]|].
    split; [split; [discriminate|reflexivity]|].
    split; [split; [lia|right; split; [lia|reflexivity]]|].
    split; [lia|left; reflexivity]. }
  split; [exact Hr|]. split; [reflexivity|]. split; [reflexivity|].
  split; [lia|].
  apply (proj2 (proj1 split_datetime_spec "2020-1-5  7:05" 2020 1 5 7 5
                  Hr eq_refl eq_refl)).
  lia.
Defined.

Lemma length_iso_datetime y m d H M :
  String.length (iso_datetime y m d H M) = 16%nat.
Proof. reflexivity. Qed.

Lemma length_dmy_date y m d : String.length (dmy_date y m d) = 10%nat.
Proof. reflexivity. Qed.

(** C5 as stated fails in two ways: a string that is not of the form
    [YYYY-MM-DD HH:MM] is parsed all the same, and for a string of that
    form with a year before 1000 the date returned is not of the form
    [DD-MM-YYYY]. *)
Lemma unpadded_month_counterexample :
  (split_datetime "2020-1-12 18:30" fmt_Ymd_HM = Return ("12-01-2020", "18:30")
   /\ forall y m d H M, iso_datetime y m d H M <> "2020-1-12 18:30")
  /\ (valid_date 999 1 12 = true /\ valid_time 18 30 = true
      /\ iso_datetime 999 1 12 18 30 = "0999-01-12 18:30"
      /\ split_datetime "0999-01-12 18:30" fmt_Ymd_HM
         = Return ("12-01-999", "18:30")
      /\ forall y m d, dmy_date y m d <> "12-01-999").
Proof.
  split; [split; [reflexivity|]|].
  - intros y m d H M E. apply (f_equal String.length) in E.
    rewrite length_iso_datetime in E. discriminate.
  - repeat (split; [reflexivity|]).
    intros y m d E. apply (f_equal String.length) in E.
    rewrite length_dmy_date in E. discriminate.
Qed.

(** ** [generate_end_date] *)

Lemma tomorrow_year date : fst (fst date) <= fst (fst (tomorrow date)).
Proof.
  destruct date as [[y m] d]. unfold tomorrow.
  destruct (d <? month_length y m); [simpl; lia|].
  destruct (m <? 12); simpl; lia.
Qed.

Lemma days_after_year n date : fst (fst date) <= fst (fst (days_after n date)).
Proof.
  induction n as [|n IH]; [simpl; lia|].
  change (days_after (S n) date) with (tomorrow (days_after n date)).
  pose proof (tomorrow_year (days_after n date)). lia.
Qed.

(** From a start date that reads as a valid date, a delta that stays
    within the supported ordinals gives the date at that ordinal. *)
Lemma generate_end_date_ordinal start_date y m d delta k :
  reads_as_date start_date y m d -> valid_date y m d = true ->
  parse_int delta = Some k ->
  1 <= ordinal (y, m, d) + k <= _MAXORDINAL ->
  generate_end_date start_date delta fmt_Ymd
  = Return (ymd_text (_ord2ymd (ordinal (y, m, d) + k))).
Proof.
  intros Hr Hvalid Hdelta Hrange.
  unfold generate_end_date. rewrite (strptime_date_reads _ _ _ _ Hr Hvalid).
  cbn [bind]. unfold int_of_str. rewrite Hdelta. cbn [bind].
  apply valid_date_ok in Hvalid. destruct Hvalid as [Hok H9].
  pose proof (ordinal_bounds _ Hok H9) as B0.
  unfold add_days, toordinal. cbn [year month day hour minute].
  change (_ymd2ord y m d) with (ordinal (y, m, d)).
  replace (999999999 <? Z.abs k) with false
    by (symmetry; apply Z.ltb_ge; unfold _MAXORDINAL in *; lia).
  replace ((0 <? ordinal (y, m, d) + k)
           && (ordinal (y, m, d) + k <=? _MAXORDINAL)) with true
    by (symmetry; apply andb_true_iff; rewrite Z.ltb_lt, Z.leb_le; lia).
  destruct (ord2ymd_valid (ordinal (y, m, d) + k) Hrange)
    as (y' & m' & d' & -> & Hv' & _).
  cbn [bind]. rewrite strftime_Ymd by (eapply valid_date_year; eauto).
  reflexivity.
Qed.

Lemma ord2ymd_ordinal date :
  date_ok date -> _ord2ymd (ordinal date) = date.
Proof.
  destruct date as [[y m] d]. intros (Hy & Hm & Hd).
  now apply ord2ymd_ymd2ord.
Qed.

Lemma generate_end_date_days_after start_date y m d delta n :
  reads_as_date start_date y m d -> valid_date y m d = true ->
  parse_int delta = Some (Z.of_nat n) ->
  fst (fst (days_after n (y, m, d))) <= 9999 ->
  generate_end_date start_date delta fmt_Ymd
  = Return (ymd_text (days_after n (y, m, d))).
Proof.
  intros Hr Hvalid Hdelta Hyear.
  pose proof Hvalid as Hv. apply valid_date_ok in Hv. destruct Hv as [Hok H9].
  destruct (ordinal_days_after n _ Hok) as [Hok' Hord].
  pose proof (ordinal_bounds _ Hok H9) as B0.
  pose proof (ordinal_bounds _ Hok' Hyear) as B1.
  rewrite (generate_end_date_ordinal _ _ _ _ _ _ Hr Hvalid Hdelta) by lia.
  rewrite <- Hord. now rewrite ord2ymd_ordinal.
Qed.

Lemma generate_end_date_overflow start_date y m d delta n :
  reads_as_date start_date y m d -> valid_date y m d = true ->
  parse_int delta = Some (Z.of_nat n) ->
  9999 < fst (fst (days_after n (y, m, d))) ->
  exists msg, generate_end_date start_date delta fmt_Ymd = Raise (OverflowError msg).
Proof.
  intros Hr Hvalid Hdelta Hyear.
  unfold generate_end_date. rewrite (strptime_date_reads _ _ _ _ Hr Hvalid).
  cbn [bind]. unfold int_of_str. rewrite Hdelta. cbn [bind].
  apply valid_date_ok in Hvalid. destruct Hvalid as [Hok H9].
  destruct (ordinal_days_after n _ Hok) as [Hok' Hord].
  pose proof (ordinal_after_year _ Hok') as Hlow.
  pose proof (days_before_year_mono 10000 (fst (fst (days_after n (y, m, d))))
                ltac:(lia)) as Hmono.
  change (_days_before_year 10000) with 3652059 in Hmono.
  unfold add_days, toordinal. cbn [year month day hour minute].
  change (_ymd2ord y m d) with (ordinal (y, m, d)).
  destruct (999999999 <? Z.abs (Z.of_nat n)); [cbn [bind]; eauto|].
  replace ((0 <? ordinal (y, m, d) + Z.of_nat n)
           && (ordinal (y, m, d) + Z.of_nat n <=? _MAXORDINAL)) with false
    by (symmetry; apply andb_false_iff; right; apply Z.leb_gt;
        unfold _MAXORDINAL; lia).
  cbn [bind]. eauto.
Qed.

Lemma generate_end_date_rejects start_date delta :
  (forall y m d, valid_date y m d = true -> ~ reads_as_date start_date y m d) ->
  exists msg, generate_end_date start_date delta fmt_Ymd = Raise (ValueError msg).
Proof.
  intros Hno. unfold generate_end_date.
  destruct (strptime_outcome start_date fmt_Ymd) as [(dt & E & _)|(msg & ->)].
  - apply strptime_date_inv in E. destruct E as (y & m & d & Hr & Hv & _).
    destruct (Hno y m d Hv Hr).
  - cbn [bind]. eauto.
Qed.

(** C6 (amended). A string reads as a date when it is a four-digit
    year, a month and a day separated by [-], where month and day are
    zero-padded or, below ten, a bare digit (the day also a digit after a
    blank); the strings [YYYY-MM-DD] are among them.  For every start
    date that reads as a valid date and every delta that [int] reads as a
    number [n >= 0] of days (0 to 7 in particular), [generate_end_date]
    returns the date [n] calendar days later, month and day zero-padded
    and the year without padding, hence written [YYYY-MM-DD] when the
    start date is of the year 1000 or later, provided that date is not
    after 9999-12-31; when it is, the call raises [OverflowError].  A
    start date that does not read as a valid date makes it raise
    [ValueError]. *)
Theorem generate_end_date_spec :
  (forall start_date y m d delta n,
      reads_as_date start_date y m d -> valid_date y m d = true ->
      parse_int delta = Some (Z.of_nat n) ->
      (fst (fst (days_after n (y, m, d))) <= 9999 ->
       generate_end_date start_date delta fmt_Ymd
       = Return (ymd_text (days_after n (y, m, d)))
       /\ (1000 <= y ->
           generate_end_date start_date delta fmt_Ymd
           = Return (iso_date (days_after n (y, m, d)))))
      /\ (9999 < fst (fst (days_after n (y, m, d))) ->
          exists msg,
            generate_end_date start_date delta fmt_Ymd
            = Raise (OverflowError msg)))
  /\ (forall y m d,
         valid_date y m d = true -> reads_as_date (iso_date (y, m, d)) y m d)
  /\ (forall start_date delta,
         (forall y m d,
             valid_date y m d = true -> ~ reads_as_date start_date y m d) ->
         exists msg,
           generate_end_date start_date delta fmt_Ymd = Raise (ValueError msg)).
Proof.
  split; [|split].
  - intros start_date y m d delta n Hr Hvalid Hdelta. split.
    + intros Hyear.
      pose proof (generate_end_date_days_after _ _ _ _ _ _ Hr Hvalid Hdelta Hyear)
        as E.
      split; [exact E|]. intros Hy. rewrite E.
      pose proof (days_after_year n (y, m, d)) as Hge. cbn [fst] in Hge.
      destruct (days_after n (y, m, d)) as [[y' m'] d']. cbn [fst] in Hge, Hyear.
      rewrite ymd_text_iso_date by lia. reflexivity.
    + now apply generate_end_date_overflow.
  - exact iso_date_reads.
  - exact generate_end_date_rejects.
Qed.

Lemma generate_end_date_spec_witness :
  reads_as_date "2020-2-27" 2020 2 27
  /\ valid_date 2020 2 27 = true
  /\ parse_int "7" = Some 7
  /\ generate_end_date "2020-2-27" "7" fmt_Ymd = Return "2020-03-05".
Proof.
  assert (Hr : reads_as_date "2020-2-27" 2020 2 27).
  { exists "2020", "2", "27". cbn [field_text].
    split; [reflexivity|]. split; [split; [lia|reflexivity]|].
    split; [split; [lia|right; split; [lia|reflexivity]]|].
    split; [lia|left; reflexivity]. }
  split; [exact Hr|]. split; [reflexivity|]. split; [reflexivity|].
  refine (proj2 (proj1 (proj1 generate_end_date_spec "2020-2-27" 2020 2 27 "7"
                          7%nat Hr eq_refl eq_refl) _) _).
  - cbv. discriminate.
  - lia.
Defined.

Lemma length_iso_date date : String.length (iso_date date) = 10%nat.
Proof. destruct date as [[y m] d]. reflexivity. Qed.

(** C6 as stated fails in three ways: a start date that is not of the
    form [YYYY-MM-DD] is accepted, a valid start date close to the last
    representable day overflows, and from a start date before the year
    1000 the date returned is not of the form [YYYY-MM-DD]. *)
Lemma lenient_and_overflow_counterexample :
  (generate_end_date "2020-1-12" "7" fmt_Ymd = Return "2020-01-19"
   /\ forall date, iso_date date <> "2020-1-12")
  /\ (valid_date 9999 12 31 = true
      /\ iso_date (9999, 12, 31) = "9999-12-31"
      /\ generate_end_date "9999-12-31" "1" fmt_Ymd
         = Raise (OverflowError "date value out of range"))
  /\ (valid_date 999 1 1 = true
      /\ iso_date (999, 1, 1) = "0999-01-01"
      /\ days_after 7 (999, 1, 1) = (999, 1, 8)
      /\ generate_end_date "0999-01-01" "7" fmt_Ymd = Return "999-01-08"
      /\ forall date, iso_date date <> "999-01-08").
Proof.
  split; [split|split].
  - reflexivity.
  - intros date E. apply (f_equal String.length) in E.
    rewrite length_iso_date in E. discriminate.
  - split; [|split]; reflexivity.
  - repeat (split; [reflexivity|]).
    intros date E. apply (f_equal String.length) in E.
    rewrite length_iso_date in E. discriminate.
Qed.

(** ** [add_date_and_time]: the first record that cannot be split *)

Lemma add_date_and_time_first_error before response after e :
  (exists split, add_date_and_time before = Return split) ->
  add_date_and_time_1 response = Raise e ->
  add_date_and_time (before ++ response :: after) = Raise e.
Proof.
  intros [split Hb] Hr. rewrite add_date_and_time_app, Hb. cbn [bind].
  cbn [add_date_and_time]. now rewrite Hr.
Qed.

Lemma add_date_and_time_returns response_data :
  Forall (fun response =>
            exists s dt, dict_get "event_date" response = Some (VStr s)
                         /\ split_datetime s fmt_Ymd_HM = Return dt)
         response_data ->
  exists result, add_date_and_time response_data = Return result.
Proof.
  induction 1 as [|r rest (s & dt & Hs & Hsplit) _ [result IH]]; simpl.
  - eauto.
  - unfold add_date_and_time_1, getitem. rewrite Hs. simpl. rewrite Hsplit.
    simpl. rewrite IH. simpl. eauto.
Qed.

(** C9 (amended). When [add_date_and_time] returns, every record had a
    date-time string, and the record returned for it has the date as
    [event_date], the time as [event_time] and every other field
    unchanged; it does return when every record has a date-time string
    that [split_datetime] accepts.  When a record lacks the field the
    call fails.  The error is that of the first record that cannot be
    split: when the records before a record can all be split, the call
    raises the [KeyError] about the missing column if the record lacks
    the field, the [ValueError] of [split_datetime] if its date-time
    string is rejected, and [TypeError] if its date-time is not a
    string. *)
Theorem add_date_and_time_spec (response_data : list pydict) :
  (forall result,
      add_date_and_time response_data = Return result ->
      Forall2
        (fun response response' =>
           exists s date time,
             dict_get "event_date" response = Some (VStr s)
             /\ split_datetime s fmt_Ymd_HM = Return (date, time)
             /\ dict_get "event_date" response' = Some (VStr date)
             /\ dict_get "event_time" response' = Some (VStr time)
             /\ forall k, k <> "event_date" -> k <> "event_time" ->
                          dict_get k response' = dict_get k response)
        response_data result)
  /\ (Forall (fun response =>
                exists s dt, dict_get "event_date" response = Some (VStr s)
                             /\ split_datetime s fmt_Ymd_HM = Return dt)
             response_data ->
      exists result, add_date_and_time response_data = Return result)
  /\ (forall before response after,
         response_data = (before ++ response :: after)%list ->
         dict_get "event_date" response = None ->
         (exists e, add_date_and_time response_data = Raise e)
         /\ ((exists split, add_date_and_time before = Return split) ->
             add_date_and_time response_data
             = Raise (KeyError event_date_missing)))
  /\ (forall before response after,
         response_data = (before ++ response :: after)%list ->
         Forall (fun response =>
                   exists s dt, dict_get "event_date" response = Some (VStr s)
                                /\ split_datetime s fmt_Ymd_HM = Return dt)
                before ->
         (dict_get "event_date" response = None ->
          add_date_and_time response_data
          = Raise (KeyError event_date_missing))
         /\ (forall s e,
                dict_get "event_date" response = Some (VStr s) ->
                split_datetime s fmt_Ymd_HM = Raise e ->
                add_date_and_time response_data = Raise e
                /\ exists msg, e = ValueError msg)
         /\ (forall v,
                dict_get "event_date" response = Some v ->
                (forall s, v <> VStr s) ->
                exists msg,
                  add_date_and_time response_data = Raise (TypeError msg))).
Proof.
  split; [|split; [|split]].
  - induction response_data as [|r rest IH]; intros result H; simpl in H.
    + injection H as <-. constructor.
    + bind_inv H. bind_inv H. injection H as <-. constructor; [|auto].
      apply add_date_and_time_1_inv in Hstep.
      destruct Hstep as (s & date & time & Hs & Hsplit & E).
      exists s, date, time. split; [assumption|]. split; [assumption|].
      subst a. split; [|split].
      * rewrite dict_get_set_other by discriminate. apply dict_get_set_same.
      * apply dict_get_set_same.
      * intros k H1 H2. rewrite !dict_get_set_other by congruence. reflexivity.
  - apply add_date_and_time_returns.
  - intros before response after -> Hmissing.
    rewrite add_date_and_time_app. simpl.
    rewrite (add_date_and_time_1_missing _ Hmissing). simpl.
    destruct (add_date_and_time before) as [split|e]; simpl.
    + split; [eauto | reflexivity].
    + split; [eauto|]. intros [split H]. discriminate.
  - intros before response after -> Hbefore.
    apply add_date_and_time_returns in Hbefore.
    split; [|split].
    + intros Hmissing. apply add_date_and_time_first_error; [assumption|].
      now apply add_date_and_time_1_missing.
    + intros s e Hs Hsplit.
      destruct (split_datetime_Raise _ _ Hsplit) as [msg ->].
      split; [|eauto]. apply add_date_and_time_first_error; [assumption|].
      unfold add_date_and_time_1, getitem. rewrite Hs. cbn [bind expect_str].
      now rewrite Hsplit.
    + intros v Hv Hns. exists "strptime() argument 1 must be str".
      apply add_date_and_time_first_error; [assumption|].
      unfold add_date_and_time_1, getitem. rewrite Hv. cbn [bind].
      destruct v; try reflexivity. destruct (Hns s eq_refl).
Qed.

Lemma add_date_and_time_spec_witness :
  let record := samples.game "E1" "T1" "T2" in
  let bare := [("event_id", VStr "E2")] in
  let undated := [("event_date", VStr "tomorrow")] in
  dict_get "event_date" bare = None
  /\ split_datetime "tomorrow" fmt_Ymd_HM
     = Raise (ValueError "time data does not match format")
  /\ add_date_and_time [record; bare; undated]
     = Raise (KeyError event_date_missing)
  /\ add_date_and_time [record; undated; bare]
     = Raise (ValueError "time data does not match format").
Proof.
  intros record bare undated.
  assert (Hrecord : Forall (fun response =>
                              exists s dt,
                                dict_get "event_date" response = Some (VStr s)
                                /\ split_datetime s fmt_Ymd_HM = Return dt)
                           [record]).
  { constructor; [|constructor].
    exists "2020-01-12 18:30", ("12-01-2020", "18:30"). split; reflexivity. }
  split; [reflexivity|]. split; [reflexivity|]. split.
  - exact (proj1 (proj2 (proj2 (proj2 (add_date_and_time_spec
                                          [record; bare; undated])))
                    [record] bare [undated] eq_refl Hrecord) eq_refl).
  - exact (proj1 (proj1 (proj2 (proj2 (proj2 (proj2 (add_date_and_time_spec
                                                      [record; undated; bare])))
                                 [record] undated [bare] eq_refl Hrecord))
                    "tomorrow" _ eq_refl eq_refl)).
Defined.

(** C9 as stated fails when an earlier record cannot be split: its error
    is raised, not the [KeyError], although a later record lacks the
    field. *)
Lemma unsplit_record_counterexample :
  let bare := [("event_id", VStr "E2")] in
  dict_get "event_date" bare = None
  /\ add_date_and_time [[("event_date", VStr "tomorrow")]; bare]
     = Raise (ValueError "time data does not match format")
  /\ forall msg, add_date_and_time [[("event_date", VStr "tomorrow")]; bare]
                 <> Raise (KeyError msg).
Proof.
  cbv zeta. split; [reflexivity|]. split; [reflexivity|].
  intros msg. discriminate.
Qed.

(* ================================================================== *)
(** * Further properties of the package *)
(* ================================================================== *)

Import config posixpath fetch vocabulary.

(** ** [filter_dictionary] *)

Lemma keys_dict_set_cases {A} k (v : A) d :
  keys (dict_set k v d) = keys d \/ (~ In k (keys d) /\ keys (dict_set k v d) = (keys d ++ [k])%list).
Proof.
  destruct (in_dec string_dec k (keys d)) as [Hin|Hni].
  - left. now apply keys_dict_set_present.
  - right. split; [assumption|]. rewrite dict_set_fresh by assumption.
    now rewrite keys_app.
Qed.

Lemma comprehension_keys keys_to_keep (d : pydict) :
  forall acc,
    NoDup (keys acc) ->
    let result :=
      fold_left
        (fun acc kv => if contains keys_to_keep (fst kv)
                       then dict_set (fst kv) (snd kv) acc else acc) d acc in
    NoDup (keys result)
    /\ forall k, In k (keys result) ->
                 In k (keys acc) \/ (In k keys_to_keep /\ In k (keys d)).
Proof.
  induction d as [|[k0 v0] d IH]; intros acc Hnd; cbn [fold_left fst snd].
  - split; [assumption | auto].
  - destruct (contains keys_to_keep k0) eqn:Ek.
    + apply contains_In in Ek.
      assert (Hnd' : NoDup (keys (dict_set k0 v0 acc))).
      { destruct (keys_dict_set_cases k0 v0 acc) as [->|[Hni ->]]; [assumption|].
        apply NoDup_app; [assumption | repeat constructor; simpl; tauto |].
        intros x Hx [<-|[]]. contradiction. }
      destruct (IH _ Hnd') as [H1 H2]. split; [exact H1|].
      intros k Hk. apply H2 in Hk. destruct Hk as [Hk|[Hk1 Hk2]].
      * destruct (keys_dict_set_cases k0 v0 acc) as [E|[_ E]]; rewrite E in Hk.
        -- now left.
        -- apply in_app_or in Hk. destruct Hk as [Hk|[<-|[]]]; [now left|].
           right. split; [assumption | now left].
      * right. split; [assumption | now right].
    + destruct (IH _ Hnd) as [H1 H2]. split; [exact H1|].
      intros k Hk. apply H2 in Hk. destruct Hk as [Hk|[Hk1 Hk2]]; [now left|].
      right. split; [assumption | now right].
Qed.

Lemma filter_dictionary_keys_lemma (dictionary : pydict) (keys_to_keep : list string) :
  NoDup (keys (filter_dictionary dictionary keys_to_keep))
  /\ forall k, In k (keys (filter_dictionary dictionary keys_to_keep)) ->
               In k keys_to_keep.
Proof.
  destruct (comprehension_keys keys_to_keep dictionary [] (NoDup_nil _))
    as [H1 H2].
  split; [exact H1|]. intros k Hk. apply H2 in Hk.
  destruct Hk as [[]|[Hk _]]. exact Hk.
Qed.

(** X1. Whatever the input items (repeated keys included), the result of
    [filter_dictionary] has distinct keys, each of them both in the
    allow-list and among the keys of the input. *)
Theorem filter_dictionary_keys (dictionary : pydict) (keys_to_keep : list string) :
  NoDup (keys (filter_dictionary dictionary keys_to_keep))
  /\ forall k, In k (keys (filter_dictionary dictionary keys_to_keep)) ->
               In k keys_to_keep /\ In k (keys dictionary).
Proof.
  destruct (comprehension_keys keys_to_keep dictionary [] (NoDup_nil _))
    as [H1 H2].
  split; [exact H1|]. intros k Hk. apply H2 in Hk.
  destruct Hk as [[]|Hk]. exact Hk.
Qed.

Lemma filter_filter {A} (p q : A -> bool) l :
  filter q (filter p l) = filter (fun x => p x && q x) l.
Proof.
  induction l as [|x l IH]; simpl; [reflexivity|].
  destruct (p x); simpl; [destruct (q x); simpl; now rewrite IH | exact IH].
Qed.

(** X2. On a dict, filtering twice is filtering once by the keys common
    to the two allow-lists; so filtering is idempotent, and an allow-list
    that holds every key of the dict gives the dict back. *)
Theorem filter_dictionary_compose (dictionary : pydict) (first second : list string) :
  NoDup (keys dictionary) ->
  filter_dictionary (filter_dictionary dictionary first) second
  = filter_dictionary dictionary (filter (contains second) first)
  /\ filter_dictionary (filter_dictionary dictionary first) first
     = filter_dictionary dictionary first
  /\ ((forall k, In k (keys dictionary) -> In k first) ->
      filter_dictionary dictionary first = dictionary).
Proof.
  intros Hnd.
  assert (Hnd1 : NoDup (keys (filter (kept first) dictionary)))
    by now apply NoDup_keys_filter.
  rewrite !(filter_dictionary_filter dictionary) by assumption.
  rewrite !filter_dictionary_filter by assumption.
  rewrite !filter_filter. split; [|split].
  - apply filter_ext. intros [k v]. unfold kept. simpl.
    destruct (contains first k) eqn:E1, (contains second k) eqn:E2; simpl;
      symmetry.
    + apply contains_In. apply filter_In. split; [now apply contains_In | exact E2].
    + destruct (contains (filter (contains second) first) k) eqn:E; [|reflexivity].
      apply contains_In, filter_In in E. destruct E as [_ E]. congruence.
    + destruct (contains (filter (contains second) first) k) eqn:E; [|reflexivity].
      apply contains_In, filter_In in E. destruct E as [E _].
      apply contains_In in E. congruence.
    + destruct (contains (filter (contains second) first) k) eqn:E; [|reflexivity].
      apply contains_In, filter_In in E. destruct E as [_ E]. congruence.
  - apply filter_ext. intros x. now destruct (kept first x).
  - intros Hall. clear Hnd Hnd1.
    induction dictionary as [|[k v] d IH]; simpl; [reflexivity|].
    unfold kept at 1. simpl.
    rewrite (proj2 (contains_In first k)) by (apply Hall; now left).
    f_equal. apply IH. intros k' Hk'. apply Hall. now right.
Qed.

Lemma filter_dictionary_compose_witness :
  let dictionary := [("a", VInt 1); ("b", VInt 2); ("c", VInt 3)] in
  NoDup (keys dictionary)
  /\ filter_dictionary (filter_dictionary dictionary ["a"; "b"]) ["b"; "c"]
     = filter_dictionary dictionary ["b"].
Proof.
  intros dictionary.
  assert (Hnd : NoDup (keys dictionary)).
  { repeat constructor; simpl; intuition discriminate. }
  split; [exact Hnd|].
  exact (proj1 (filter_dictionary_compose dictionary ["a"; "b"] ["b"; "c"] Hnd)).
Defined.

(** ** [load_config_constants] *)

Lemma constants_Return config_json keys values :
  constants config_json keys = Return values ->
  Forall2 (fun key v => dict_get key config_json = Some v) keys values.
Proof.
  revert values. induction keys as [|key rest IH]; intros values H; simpl in H.
  - injection H as <-. constructor.
  - bind_inv H. bind_inv H. injection H as <-.
    constructor; [now apply getitem_Return | auto].
Qed.

Lemma constants_present config_json keys :
  forallb (present config_json) keys = true ->
  exists values, constants config_json keys = Return values.
Proof.
  induction keys as [|key rest IH]; simpl; intros H; [eauto|].
  apply andb_true_iff in H. destruct H as [Hk Hrest].
  destruct (IH Hrest) as [vs Hvs]. unfold present in Hk. unfold getitem.
  destruct (dict_get key config_json) as [v|]; [|discriminate].
  simpl. rewrite Hvs. simpl. eauto.
Qed.

Lemma constants_missing config_json before key after :
  forallb (present config_json) before = true ->
  dict_get key config_json = None ->
  constants config_json (before ++ key :: after) = Raise (KeyError key).
Proof.
  induction before as [|k before IH]; simpl; intros Hb Hk.
  - unfold getitem. now rewrite Hk.
  - apply andb_true_iff in Hb. destruct Hb as [Hp Hb]. unfold present in Hp.
    unfold getitem. destruct (dict_get k config_json); [|discriminate].
    simpl. now rewrite IH.
Qed.

(** X3. Called with keys, [load_config_constants] either returns one
    value per key, in the order of the keys, each the value the
    configuration holds under that key, or, when some key is absent,
    raises the [ValueError] about config.json; it raises nothing else. *)
Theorem load_config_constants_keys
    (keys : list string) (config_json : pydict) :
  keys <> [] ->
  (forallb (present config_json) keys = true ->
   exists values,
     load_config_constants keys config_json = Return values
     /\ Forall2 (fun key v => dict_get key config_json = Some v) keys values)
  /\ (forall key, In key keys -> dict_get key config_json = None ->
      load_config_constants keys config_json
      = Raise (ValueError
                 "One or more keys provided does not exist in config.json.")).
Proof.
  intros Hne. destruct keys as [|k0 keys0]; [congruence|].
  unfold load_config_constants. split.
  - intros Hall. rewrite Hall. cbn [negb].
    destruct (constants_present _ _ Hall) as [values Hv].
    exists values. split; [assumption | now apply constants_Return].
  - intros key Hin Hnone.
    assert (E : forallb (present config_json) (k0 :: keys0) = false).
    { apply not_true_is_false. intros Hall.
      rewrite forallb_forall in Hall. specialize (Hall key Hin).
      unfold present in Hall. now rewrite Hnone in Hall. }
    now rewrite E.
Qed.

Lemma load_config_constants_keys_witness :
  let config_json := [("API_KEY", VStr "k"); ("OUTPUT_DIRECTORY", VStr "out/")] in
  load_config_constants ["OUTPUT_DIRECTORY"; "RANKINGS"] config_json
  = Raise (ValueError missing_key_message)
  /\ exists values,
       load_config_constants ["OUTPUT_DIRECTORY"; "API_KEY"] config_json
       = Return values
       /\ Forall2 (fun key v => dict_get key config_json = Some v)
                  ["OUTPUT_DIRECTORY"; "API_KEY"] values.
Proof.
  intros config_json. split.
  - apply (proj2 (load_config_constants_keys ["OUTPUT_DIRECTORY"; "RANKINGS"]
                    config_json ltac:(discriminate)) "RANKINGS");
      [simpl; tauto | reflexivity].
  - apply (proj1 (load_config_constants_keys ["OUTPUT_DIRECTORY"; "API_KEY"]
                    config_json ltac:(discriminate))).
    reflexivity.
Defined.

(** X4. Called without keys, [load_config_constants] reads the four
    standard keys without checking them first: when one is absent it
    raises [KeyError] for the first absent one, in the order [API_KEY],
    [SCOREBOARD], [RANKINGS], [OUTPUT_DIRECTORY], and not the
    [ValueError] of the other case; when all are there it returns their
    four values in that order. *)
Theorem load_config_constants_default (config_json : pydict) :
  (forall before key after,
      default_keys = (before ++ key :: after)%list ->
      forallb (present config_json) before = true ->
      dict_get key config_json = None ->
      load_config_constants [] config_json = Raise (KeyError key))
  /\ (forall api_key scoreboard rankings output_directory,
         dict_get "API_KEY" config_json = Some api_key ->
         dict_get "SCOREBOARD" config_json = Some scoreboard ->
         dict_get "RANKINGS" config_json = Some rankings ->
         dict_get "OUTPUT_DIRECTORY" config_json = Some output_directory ->
         load_config_constants [] config_json
         = Return [api_key; scoreboard; rankings; output_directory]).
Proof.
  split.
  - intros before key after E Hb Hk. unfold load_config_constants.
    rewrite E. now apply constants_missing.
  - intros a s r o Ha Hs Hr Ho. unfold load_config_constants, default_keys.
    simpl. unfold getitem. rewrite Ha, Hs, Hr, Ho. reflexivity.
Qed.

Lemma load_config_constants_default_witness :
  load_config_constants [] [("API_KEY", VStr "k"); ("RANKINGS", VDict [])]
  = Raise (KeyError "SCOREBOARD").
Proof.
  apply (proj1 (load_config_constants_default
                  [("API_KEY", VStr "k"); ("RANKINGS", VDict [])])
           ["API_KEY"] "SCOREBOARD" ["RANKINGS"; "OUTPUT_DIRECTORY"]);
    reflexivity.
Defined.

(** ** [check_command_line_arguments] *)

Lemma length_split c s : length (split c s) = S (occurrences c s).
Proof.
  induction s as [|c' s IH]; simpl; [reflexivity|].
  destruct (Ascii.eqb c' c); simpl; [now rewrite IH|].
  destruct (split c s) as [|part parts]; simpl in *; [discriminate | exact IH].
Qed.

(** [int] converts a literal of 4300 digits and refuses one of 4302,
    leading zeros counted. *)
Lemma int_of_long_literal :
  parse_int (String.concat "" (repeat "0" 4299) ++ "7") = Some 7
  /\ parse_int (String.concat "" (repeat "0" 4301) ++ "7") = None.
Proof. split; vm_compute; reflexivity. Qed.

(** X5. [check_command_line_arguments] accepts exactly when the count is
    3, the argument vector has a start date with exactly two hyphens in
    it and a delta that [int] reads as one of 0, ..., 7; entries after
    the third are not looked at. *)
Theorem check_command_line_arguments_accepts (argc : Z) (argv : list string) :
  check_command_line_arguments argc argv = Return tt
  <-> argc = 3
      /\ exists program start_date delta rest days,
           argv = program :: start_date :: delta :: rest
           /\ occurrences "-" start_date = 2%nat
           /\ parse_int delta = Some days
           /\ 0 <= days <= 7.
Proof.
  unfold check_command_line_arguments. split.
  - destruct (Z.eqb_spec argc 3) as [->|Hne]; cbn [negb]; [|discriminate].
    intros H. split; [reflexivity|].
    bind_inv H. rename a into start_date.
    destruct (length (split "-" start_date) =? 3)%nat eqn:Ed; cbn [negb] in H;
      [|discriminate].
    bind_inv H. rename a into delta. bind_inv H. rename a into days.
    destruct ((0 <=? days) && (days <? 8)) eqn:Er; cbn [negb] in H;
      [|discriminate].
    unfold list_item in Hstep, Hstep0.
    destruct argv as [|program [|d1 [|d2 rest]]]; try discriminate.
    simpl in Hstep, Hstep0. injection Hstep as ->. injection Hstep0 as ->.
    exists program, start_date, delta, rest, days.
    split; [reflexivity|].
    apply Nat.eqb_eq in Ed. rewrite length_split in Ed.
    split; [lia|].
    unfold int_of_str in Hstep1.
    destruct (parse_int delta) as [n|]; [|discriminate].
    injection Hstep1 as ->. split; [reflexivity|].
    apply andb_true_iff in Er. rewrite Z.leb_le, Z.ltb_lt in Er. lia.
  - intros (-> & program & start_date & delta & rest & days
            & -> & Hd & Hp & Hr).
    simpl. rewrite length_split, Hd. simpl.
    unfold int_of_str. rewrite Hp. simpl.
    replace ((0 <=? days) && (days <? 8)) with true; [reflexivity|].
    symmetry. apply andb_true_iff. rewrite Z.leb_le, Z.ltb_lt. lia.
Qed.

(** X6. When the count is the length of the argument vector, as [main]
    passes them, every failure of [check_command_line_arguments] is a
    [ValueError]: the usage message unless there are exactly three
    arguments, and never an [IndexError]. *)
Theorem check_command_line_arguments_errors (argv : list string) (e : exn) :
  check_command_line_arguments (Z.of_nat (length argv)) argv = Raise e ->
  (exists msg, e = ValueError msg)
  /\ (length argv <> 3%nat -> e = ValueError usage_message).
Proof.
  unfold check_command_line_arguments.
  destruct (Z.eqb_spec (Z.of_nat (length argv)) 3) as [E|Hne]; cbn [negb].
  - assert (Hlen : length argv = 3%nat) by lia.
    destruct argv as [|program [|start_date [|delta [|x rest]]]];
      try discriminate. simpl.
    destruct (length (split "-" start_date) =? 3)%nat; cbn [negb].
    + unfold int_of_str. destruct (parse_int delta) as [days|]; simpl.
      * destruct ((0 <=? days) && (days <? 8)); cbn [negb]; [discriminate|].
        intros [= <-]. split; [eauto | intros H; now elim H].
      * intros [= <-]. split; [eauto | intros H; now elim H].
    + intros [= <-]. split; [eauto | intros H; now elim H].
  - intros [= <-]. split; [eauto | reflexivity].
Qed.

Lemma check_command_line_arguments_errors_witness :
  check_command_line_arguments 2 ["main.py"; "2020-01-12"]
  = Raise (ValueError usage_message)
  /\ exists msg, ValueError usage_message = ValueError msg.
Proof.
  split; [reflexivity|].
  exact (proj1 (check_command_line_arguments_errors
                  ["main.py"; "2020-01-12"] (ValueError usage_message)
                  eq_refl)).
Defined.

(** ** What [strptime] consumes *)

Lemma occurrences_app c s t :
  occurrences c (s ++ t) = (occurrences c s + occurrences c t)%nat.
Proof.
  induction s as [|c' s IH]; simpl; [reflexivity|]. rewrite IH. lia.
Qed.

Lemma string_app_assoc (s t u : string) : (s ++ t) ++ u = s ++ t ++ u.
Proof. induction s as [|c s IH]; simpl; [reflexivity | now rewrite IH]. Qed.

Lemma match_classes_consumes c classes :
  forall s text rest,
    match_classes classes s = Some (text, rest) ->
    rejected c classes = true ->
    s = text ++ rest /\ occurrences c text = 0%nat.
Proof.
  induction classes as [|p classes IH]; intros s text rest H Hrej; simpl in H.
  - injection H as <- <-. auto.
  - destruct s as [|c' s]; [discriminate|].
    destruct (p c') eqn:Ep; [|discriminate].
    destruct (match_classes classes s) as [[text' rest']|] eqn:Em; [|discriminate].
    injection H as <- <-. simpl in Hrej. apply andb_true_iff in Hrej.
    destruct Hrej as [Hp Hrej].
    destruct (IH _ _ _ Em Hrej) as [-> Ho]. split; [reflexivity|].
    simpl. rewrite Ho.
    destruct (Ascii.eqb_spec c' c) as [->|]; [|reflexivity].
    rewrite Ep in Hp. discriminate.
Qed.

Lemma alternatives_reject_hyphen d classes :
  In classes (alternatives d) -> rejected "-" classes = true.
Proof.
  destruct d; simpl; intros H;
    repeat (destruct H as [<-|H]; [reflexivity|]); destruct H.
Qed.

Lemma match_group_consumes d s text rest :
  In (text, rest) (match_group d s) ->
  s = text ++ rest /\ occurrences "-" text = 0%nat.
Proof.
  unfold match_group. rewrite in_flat_map. intros (classes & Hin & H).
  destruct (match_classes classes s) as [[text' rest']|] eqn:Em; [|destruct H].
  destruct H as [[= <- <-]|[]].
  eapply match_classes_consumes; [exact Em|].
  eapply alternatives_reject_hyphen, Hin.
Qed.

Lemma after_spaces_consumes s rest :
  In rest (after_spaces s) ->
  exists blanks, s = blanks ++ rest /\ occurrences "-" blanks = 0%nat.
Proof.
  revert rest. induction s as [|c s IH]; intros rest H; simpl in H; [destruct H|].
  destruct (is_space c) eqn:Es; [|destruct H].
  assert (Hc : Ascii.eqb c "-" = false).
  { destruct (Ascii.eqb_spec c "-") as [->|]; [discriminate | reflexivity]. }
  apply in_app_or in H. destruct H as [H|[<-|[]]].
  - destruct (IH _ H) as (blanks & -> & Ho).
    exists (String c blanks). split; [reflexivity|]. simpl. now rewrite Hc, Ho.
  - exists (String c ""). split; [reflexivity|]. simpl. now rewrite Hc.
Qed.

(** A match consumes a prefix with as many hyphens as the expression
    spells out. *)
Lemma matches_consumes re :
  forall s g rest,
    In (g, rest) (matches re s) ->
    exists consumed,
      s = consumed ++ rest
      /\ occurrences "-" consumed = literal_count "-" re.
Proof.
  induction re as [|item re IH]; intros s g rest H.
  - destruct H as [[= <- <-]|[]]. exists "". auto.
  - destruct item as [d|c|]; cbn [matches literal_count] in *.
    + apply in_flat_map in H. destruct H as ([text s'] & Hg & H).
      apply in_map_iff in H. destruct H as ([g' rest'] & [= <- <-] & H).
      simpl in H. apply match_group_consumes in Hg. destruct Hg as [-> Ht].
      destruct (IH _ _ _ H) as (consumed & -> & Hc).
      exists (text ++ consumed). split.
      * now rewrite string_app_assoc.
      * rewrite occurrences_app. lia.
    + destruct s as [|c' s]; [destruct H|].
      destruct (Ascii.eqb_spec c c') as [<-|]; [|destruct H].
      destruct (IH _ _ _ H) as (consumed & -> & Hc).
      exists (String c consumed). split; [reflexivity|]. simpl. now rewrite Hc.
    + apply in_flat_map in H. destruct H as (s' & Hs & H).
      apply after_spaces_consumes in Hs. destruct Hs as (blanks & -> & Hb).
      destruct (IH _ _ _ H) as (consumed & -> & Hc).
      exists (blanks ++ consumed). split.
      * now rewrite string_app_assoc.
      * rewrite occurrences_app. lia.
Qed.

Lemma strptime_hyphens s f dt :
  strptime s f = Return dt ->
  occurrences "-" s = literal_count "-" (compile false f).
Proof.
  unfold strptime.
  destruct (matches (compile false f) s) as [|[g rest] others] eqn:Em;
    [discriminate|].
  destruct (String.eqb_spec rest "") as [->|]; cbn [negb]; [|discriminate].
  intros _.
  destruct (matches_consumes (compile false f) s g "") as (consumed & E & Hc).
  { rewrite Em. now left. }
  rewrite append_empty_r in E. now subst.
Qed.

(** X7. A start date that [generate_end_date] can parse always passes
    the date test of [check_command_line_arguments]: it splits into
    exactly three components at its hyphens.  The test never turns away
    a date the pipeline could use. *)
Theorem parsed_date_has_three_components (start_date delta end_date : string) :
  generate_end_date start_date delta fmt_Ymd = Return end_date ->
  length (split "-" start_date) = 3%nat.
Proof.
  unfold generate_end_date. intros H. bind_inv H.
  apply strptime_hyphens in Hstep. rewrite length_split, Hstep. reflexivity.
Qed.

Lemma parsed_date_has_three_components_witness :
  generate_end_date "2020-1-5" "7" fmt_Ymd = Return "2020-01-12"
  /\ length (split "-" "2020-1-5") = 3%nat.
Proof.
  split; [reflexivity|].
  exact (parsed_date_has_three_components "2020-1-5" "7" "2020-01-12" eq_refl).
Defined.

(** ** [generate_end_date] over the whole range of dates *)

(** X8. Going forward and coming back: from a valid start date of the
    year 1000 or later, a delta of [n] days gives a date from which a
    delta of [-n] days gives the start date again (as long as the later
    date is not after 9999). *)
Theorem generate_end_date_round_trip
    (y m d : Z) (forward backward : string) (n : nat) :
  valid_date y m d = true ->
  1000 <= y ->
  parse_int forward = Some (Z.of_nat n) ->
  parse_int backward = Some (- Z.of_nat n) ->
  fst (fst (days_after n (y, m, d))) <= 9999 ->
  exists later,
    generate_end_date (iso_date (y, m, d)) forward fmt_Ymd = Return later
    /\ later = iso_date (days_after n (y, m, d))
    /\ generate_end_date later backward fmt_Ymd = Return (iso_date (y, m, d)).
Proof.
  intros Hvalid H1000 Hf Hb Hyear.
  pose proof Hvalid as Hv. apply valid_date_ok in Hv. destruct Hv as [Hok H9].
  destruct (ordinal_days_after n _ Hok) as [Hok' Hord].
  pose proof (ordinal_bounds _ Hok H9) as B0.
  pose proof (ordinal_bounds _ Hok' Hyear) as B1.
  pose proof (days_after_year n (y, m, d)) as Hge. cbn [fst] in Hge.
  exists (iso_date (days_after n (y, m, d))).
  split; [|split; [reflexivity|]].
  - rewrite (generate_end_date_days_after _ y m d forward n
               (iso_date_reads _ _ _ Hvalid) Hvalid Hf Hyear).
    destruct (days_after n (y, m, d)) as [[y' m'] d']. cbn [fst] in Hge, Hyear.
    now rewrite ymd_text_iso_date by lia.
  - destruct (days_after n (y, m, d)) as [[y' m'] d'] eqn:E.
    cbn [fst] in Hyear, Hge.
    assert (Hvalid' : valid_date y' m' d' = true) by (apply valid_date_ok; auto).
    rewrite (generate_end_date_ordinal _ y' m' d' backward (- Z.of_nat n)
               (iso_date_reads _ _ _ Hvalid') Hvalid' Hb) by lia.
    replace (ordinal (y', m', d') + - Z.of_nat n) with (ordinal (y, m, d)) by lia.
    rewrite ord2ymd_ordinal by assumption.
    now rewrite ymd_text_iso_date by lia.
Qed.

Lemma generate_end_date_round_trip_witness :
  exists later,
    generate_end_date "2020-02-27" "7" fmt_Ymd = Return later
    /\ later = "2020-03-05"
    /\ generate_end_date later "-7" fmt_Ymd = Return "2020-02-27".
Proof.
  refine (generate_end_date_round_trip 2020 2 27 "7" "-7" 7%nat
            eq_refl _ eq_refl eq_refl _).
  - lia.
  - cbv. discriminate.
Defined.

Lemma days_after_add n1 n2 date :
  days_after (n1 + n2) date = days_after n2 (days_after n1 date).
Proof.
  unfold days_after. rewrite Nat.add_comm. apply Nat.iter_add.
Qed.

(** X9. Deltas add up: from a valid start date of the year 1000 or
    later, the end date for [n1] days, taken as the start date for [n2]
    more days, gives the end date for [n1 + n2] days. *)
Theorem generate_end_date_adds
    (y m d : Z) (delta1 delta2 delta12 : string) (n1 n2 : nat) :
  valid_date y m d = true ->
  1000 <= y ->
  parse_int delta1 = Some (Z.of_nat n1) ->
  parse_int delta2 = Some (Z.of_nat n2) ->
  parse_int delta12 = Some (Z.of_nat (n1 + n2)) ->
  fst (fst (days_after (n1 + n2) (y, m, d))) <= 9999 ->
  exists middle,
    generate_end_date (iso_date (y, m, d)) delta1 fmt_Ymd = Return middle
    /\ generate_end_date middle delta2 fmt_Ymd
       = generate_end_date (iso_date (y, m, d)) delta12 fmt_Ymd
    /\ generate_end_date (iso_date (y, m, d)) delta12 fmt_Ymd
       = Return (iso_date (days_after (n1 + n2) (y, m, d))).
Proof.
  intros Hvalid H1000 H1 H2 H12 Hyear.
  pose proof Hvalid as Hv. apply valid_date_ok in Hv. destruct Hv as [Hok H9].
  pose proof (iso_date_reads _ _ _ Hvalid) as Hreads.
  destruct (ordinal_days_after n1 _ Hok) as [Hok1 Hord1].
  pose proof (days_after_year n1 (y, m, d)) as Hge1. cbn [fst] in Hge1.
  pose proof (days_after_year n2 (days_after n1 (y, m, d))) as Hge2.
  rewrite <- days_after_add in Hge2.
  assert (E12 : generate_end_date (iso_date (y, m, d)) delta12 fmt_Ymd
                = Return (iso_date (days_after (n1 + n2) (y, m, d)))).
  { rewrite (generate_end_date_days_after _ y m d delta12 (n1 + n2)
               Hreads Hvalid H12 Hyear).
    destruct (days_after (n1 + n2) (y, m, d)) as [[y' m'] d'].
    cbn [fst] in Hge2, Hyear. now rewrite ymd_text_iso_date by lia. }
  destruct (days_after n1 (y, m, d)) as [[y1 m1] d1] eqn:E1.
  cbn [fst] in Hge1, Hge2.
  assert (Hy1 : y1 <= 9999) by lia.
  assert (Hvalid1 : valid_date y1 m1 d1 = true) by (apply valid_date_ok; auto).
  exists (iso_date (y1, m1, d1)). split; [|split; [|exact E12]].
  - rewrite (generate_end_date_days_after _ y m d delta1 n1
               Hreads Hvalid H1) by (rewrite E1; exact Hy1).
    rewrite E1. now rewrite ymd_text_iso_date by lia.
  - rewrite E12, days_after_add, E1.
    rewrite days_after_add, E1 in Hyear.
    rewrite (generate_end_date_days_after _ y1 m1 d1 delta2 n2
               (iso_date_reads _ _ _ Hvalid1) Hvalid1 H2 Hyear).
    rewrite days_after_add, E1 in Hge2.
    destruct (days_after n2 (y1, m1, d1)) as [[y' m'] d'].
    cbn [fst] in Hge2, Hyear. now rewrite ymd_text_iso_date by lia.
Qed.

Lemma generate_end_date_adds_witness :
  exists middle,
    generate_end_date "2020-12-28" "3" fmt_Ymd = Return middle
    /\ generate_end_date middle "4" fmt_Ymd
       = generate_end_date "2020-12-28" "7" fmt_Ymd
    /\ generate_end_date "2020-12-28" "7" fmt_Ymd = Return "2021-01-04".
Proof.
  refine (generate_end_date_adds 2020 12 28 "3" "4" "7" 3%nat 4%nat
            eq_refl _ eq_refl eq_refl eq_refl _).
  - lia.
  - cbv. discriminate.
Defined.

Lemma digit_char_not_hyphen k : 0 <= k <= 9 -> digit_char k <> "-"%char.
Proof. intros Hk. by_cases_on k 0 10%nat; discriminate. Qed.

(** A date written with a year of fewer than four digits does not read
    as a date. *)
Lemma short_year_unreadable y m d :
  1 <= y < 1000 -> forall y' m' d', ~ reads_as_date (ymd_text (y, m, d)) y' m' d'.
Proof.
  intros Hy y' m' d' (ty & tm & td & E & [Hy' ->] & _).
  destruct (pad4_digits y' Hy') as (K1 & K2 & K3 & K4 & _).
  revert E. unfold ymd_text. rewrite <- decimal_year_text by lia.
  unfold decimal, pad4, pad2.
  destruct (Z.ltb_spec y 10) as [H10|H10];
    [|destruct (Z.ltb_spec y 100) as [H100|H100];
      [|rewrite (proj2 (Z.ltb_lt y 1000)) by lia]];
    cbn [append]; intros E.
  - injection E as _ E _. symmetry in E. now apply digit_char_not_hyphen in E.
  - injection E as _ _ E _. symmetry in E. now apply digit_char_not_hyphen in E.
  - injection E as _ _ _ E _. symmetry in E. now apply digit_char_not_hyphen in E.
Qed.

(** X10. Whatever the start date and the delta (a negative one too),
    what [generate_end_date] returns is a valid date of the years 1 to
    9999 with month and day zero-padded and the year without leading
    zeros.  From the year 1000 on that is the form [YYYY-MM-DD], and
    the date given back as a start date with a delta of 0 is returned
    unchanged; a date before the year 1000 given back as a start date is
    rejected with [ValueError]. *)
Theorem generate_end_date_canonical (start_date delta end_date : string) :
  generate_end_date start_date delta fmt_Ymd = Return end_date ->
  exists y m d,
    valid_date y m d = true
    /\ end_date = ymd_text (y, m, d)
    /\ (1000 <= y ->
        end_date = iso_date (y, m, d)
        /\ generate_end_date end_date "0" fmt_Ymd = Return end_date)
    /\ (y < 1000 ->
        exists msg,
          generate_end_date end_date "0" fmt_Ymd = Raise (ValueError msg)).
Proof.
  unfold generate_end_date at 1. intros H.
  bind_inv H. rename a into start. bind_inv H. rename a into days.
  bind_inv H. rename a into finish.
  assert (Hend : end_date = strftime finish fmt_Ymd) by (now injection H).
  clear H. subst end_date.
  unfold add_days in Hstep1.
  destruct (999999999 <? Z.abs days); [discriminate|].
  destruct ((0 <? toordinal start + days)
            && (toordinal start + days <=? _MAXORDINAL)) eqn:Er; [|discriminate].
  apply andb_true_iff in Er. rewrite Z.ltb_lt, Z.leb_le in Er.
  destruct (ord2ymd_valid (toordinal start + days) ltac:(lia))
    as (y & m & d & E & Hv & Ho).
  rewrite E in Hstep1.
  assert (Hfinish : finish = mk y m d (hour start) (minute start))
    by (now injection Hstep1).
  clear Hstep1. subst finish.
  pose proof (valid_date_year _ _ _ Hv) as Hy.
  exists y, m, d. split; [assumption|].
  rewrite strftime_Ymd by assumption. split; [reflexivity|]. split.
  - intros H1000. rewrite ymd_text_iso_date by lia. split; [reflexivity|].
    rewrite (generate_end_date_ordinal _ y m d "0" 0
               (iso_date_reads _ _ _ Hv) Hv eq_refl) by (rewrite Ho; lia).
    rewrite Z.add_0_r, ord2ymd_ordinal by (now apply valid_date_ok in Hv).
    now rewrite ymd_text_iso_date by lia.
  - intros Hshort. apply generate_end_date_rejects.
    intros y' m' d' _. apply short_year_unreadable. lia.
Qed.

Lemma generate_end_date_canonical_witness :
  generate_end_date "1000-1-1" "-1" fmt_Ymd = Return "999-12-31"
  /\ exists y m d,
       valid_date y m d = true
       /\ "999-12-31" = ymd_text (y, m, d)
       /\ (1000 <= y ->
           "999-12-31" = iso_date (y, m, d)
           /\ generate_end_date "999-12-31" "0" fmt_Ymd = Return "999-12-31")
       /\ (y < 1000 ->
           exists msg,
             generate_end_date "999-12-31" "0" fmt_Ymd
             = Raise (ValueError msg)).
Proof.
  split; [reflexivity|].
  exact (generate_end_date_canonical "1000-1-1" "-1" "999-12-31" eq_refl).
Defined.

(** ** [add_date_and_time] applied twice *)

Lemma strptime_day_first dt :
  strptime (strftime dt fmt_dmY) fmt_Ymd_HM
  = Raise (ValueError "time data does not match format").
Proof.
  unfold strptime.
  change (compile false fmt_Ymd_HM)
    with [RGroup dY; RChar "-"; RGroup dm; RChar "-"; RGroup dd; RSpaces;
          RGroup dH; RChar ":"; RGroup dM].
  cbn [matches]. unfold match_group, alternatives.
  cbn [strftime fmt_dmY render pad2 append flat_map match_classes].
  destruct (is_digit (digit_char (day dt / 10)));
    destruct (is_digit (digit_char (day dt mod 10))); reflexivity.
Qed.

Lemma add_date_and_time_1_again response response' :
  add_date_and_time_1 response = Return response' ->
  add_date_and_time_1 response'
  = Raise (ValueError "time data does not match format").
Proof.
  intros H. apply add_date_and_time_1_inv in H.
  destruct H as (s & date & time & _ & Hsplit & ->).
  unfold split_datetime in Hsplit. bind_inv Hsplit.
  assert (Hdate : strftime a fmt_dmY = date) by congruence. clear Hsplit.
  unfold add_date_and_time_1, getitem.
  rewrite dict_get_set_other by discriminate.
  rewrite dict_get_set_same. cbn [bind expect_str].
  unfold split_datetime. rewrite <- Hdate, strptime_day_first. reflexivity.
Qed.

(** X11. [add_date_and_time] cannot be applied twice: the date it stores
    is written day first, which the parser of the next application
    rejects.  On the result of a successful call on at least one record
    a second call raises [ValueError]. *)
Theorem add_date_and_time_not_idempotent (response_data result : list pydict) :
  add_date_and_time response_data = Return result ->
  response_data <> [] ->
  add_date_and_time result
  = Raise (ValueError "time data does not match format").
Proof.
  intros H Hne. destruct response_data as [|r rest]; [congruence|].
  simpl in H. bind_inv H. bind_inv H. injection H as <-.
  simpl. now rewrite (add_date_and_time_1_again _ _ Hstep).
Qed.

Lemma add_date_and_time_not_idempotent_witness :
  exists result,
    add_date_and_time [samples.game "E1" "T1" "T2"] = Return result
    /\ add_date_and_time result
       = Raise (ValueError "time data does not match format").
Proof.
  eexists. split; [reflexivity|].
  refine (add_date_and_time_not_idempotent [samples.game "E1" "T1" "T2"] _
            eq_refl _).
  discriminate.
Defined.

(** ** The records of the scoreboard extraction *)

(** A record as the extraction makes it: distinct keys, each the
    [event_id] it adds or one of the allowed fields, and an [event_id]
    that is a string. *)
Lemma extracted_record fields (event_data : pydict) event_id :
  let record := dict_set "event_id" (VStr event_id)
                  (filter_dictionary event_data fields) in
  NoDup (keys record)
  /\ dict_get "event_id" record = Some (VStr event_id)
  /\ forall k, In k (keys record) -> k = "event_id" \/ In k fields.
Proof.
  intros record. destruct (filter_dictionary_keys_lemma event_data fields)
    as [Hnd Hsub].
  unfold record. split; [|split].
  - destruct (keys_dict_set_cases "event_id" (VStr event_id)
                (filter_dictionary event_data fields)) as [->|[Hni ->]];
      [assumption|].
    apply NoDup_app; [assumption | repeat constructor; simpl; tauto |].
    intros x Hx [<-|[]]. contradiction.
  - apply dict_get_set_same.
  - intros k Hk.
    destruct (keys_dict_set_cases "event_id" (VStr event_id)
                (filter_dictionary event_data fields)) as [E|[_ E]];
      rewrite E in Hk.
    + right. now apply Hsub.
    + apply in_app_or in Hk. destruct Hk as [Hk|[<-|[]]]; [|now left].
      right. now apply Hsub.
Qed.

Lemma extract_events_extracted fields games :
  forall acc out,
    Forall (extracted fields) acc ->
    extract_events fields games acc = Return out ->
    Forall (extracted fields) out.
Proof.
  induction games as [|[event_id event_data] games IH]; intros acc out Hacc H;
    simpl in H.
  - now injection H as <-.
  - bind_inv H. eapply IH; [|exact H].
    apply Forall_app. split; [assumption|]. constructor; [|constructor].
    destruct (extracted_record fields a event_id) as (H1 & H2 & H3).
    split; [assumption|]. split; [eauto | assumption].
Qed.

Lemma extract_entries_extracted fields payload entries :
  forall acc out,
    Forall (extracted fields) acc ->
    extract_entries fields payload entries acc = Return out ->
    Forall (extracted fields) out.
Proof.
  induction entries as [|entry entries IH]; intros acc out Hacc H; simpl in H.
  - now injection H as <-.
  - bind_inv H. destruct (truthy a); [|eauto].
    bind_inv H. bind_inv H. bind_inv H.
    eapply IH; [|exact H]. eapply extract_events_extracted; eauto.
Qed.

Lemma extract_list_entries_extracted fields payload entries :
  forall acc out,
    Forall (extracted fields) acc ->
    extract_list_entries fields payload entries acc = Return out ->
    Forall (extracted fields) out.
Proof.
  induction entries as [|entry entries IH]; intros acc out Hacc H; simpl in H.
  - now injection H as <-.
  - bind_inv H. destruct (truthy a); [|eauto].
    bind_inv H. bind_inv H. bind_inv H.
    eapply IH; [|exact H]. eapply extract_events_extracted; eauto.
Qed.

Lemma extract_scoreboard_extracted fields complete out :
  extract_scoreboard fields complete = Return out ->
  Forall (extracted fields) out.
Proof.
  destruct complete as [| | |s|l|d]; simpl; try discriminate.
  - destruct s; [|discriminate]. intros [= <-]. constructor.
  - apply extract_list_entries_extracted. constructor.
  - apply extract_entries_extracted. constructor.
Qed.

(** X12. Whatever the network answers, every record that
    [_pull_scoreboard_data] returns has distinct keys, carries an
    [event_id] that is a string, and has no key other than [event_id]
    and the fields of interest (the property the package's test checks
    on a stored response). *)
Theorem pull_scoreboard_data_fields
    (requests_get : string -> string -> get_outcome)
    (API_KEY : string) (fields_of_interest : list string)
    (start_date delta endpoint api_key : string) (records : list pydict) :
  _pull_scoreboard_data requests_get API_KEY fields_of_interest
    start_date delta endpoint api_key = Return (Some records) ->
  Forall (fun record =>
            NoDup (keys record)
            /\ (exists event_id,
                   dict_get "event_id" record = Some (VStr event_id))
            /\ forall k, In k (keys record) ->
                         k = "event_id" \/ In k fields_of_interest)
         records.
Proof.
  unfold _pull_scoreboard_data. intros H. bind_inv H.
  destruct (requests_get _ API_KEY) as [response|e|e]; try discriminate.
  bind_inv H. bind_inv H. injection H as <-.
  eapply extract_scoreboard_extracted, Hstep1.
Qed.

Lemma pull_scoreboard_data_fields_witness :
  let body := VDict [("results",
                VDict [("2020-01-12",
                  VDict [("data",
                    VDict [("E1", VDict (samples.game "X" "T1" "T2"))])])])] in
  let records := [[("away_team_id", VStr "T1"); ("event_id", VStr "E1")]] in
  _pull_scoreboard_data (fun _ _ => OkResponse body) "key"
    ["event_id"; "away_team_id"] "2020-01-12" "7" "http://host/NFL.json" "key"
  = Return (Some records)
  /\ Forall (fun record =>
               NoDup (keys record)
               /\ (exists event_id,
                      dict_get "event_id" record = Some (VStr event_id))
               /\ forall k, In k (keys record) ->
                            k = "event_id" \/ In k ["event_id"; "away_team_id"])
            records.
Proof.
  intros body records. split; [reflexivity|].
  exact (pull_scoreboard_data_fields (fun _ _ => OkResponse body) "key"
           ["event_id"; "away_team_id"] "2020-01-12" "7"
           "http://host/NFL.json" "key" records eq_refl).
Defined.

(** X13. When the field filter does not keep [event_date], the records
    of the extraction cannot be transformed: for any non-empty
    extraction the transform raises the [KeyError] that points at
    [SCOREBOARD['fields_of_interest']]. *)
Theorem transform_without_event_date
    (fields : list string) (payload : pydict)
    (records team_rankings : list pydict) :
  ~ In "event_date" fields ->
  _extract_scoreboard_fields_of_interest fields payload = Return records ->
  records <> [] ->
  transform_json_data records team_rankings
  = Raise (KeyError
      "event_date column not present in response fields provided. Check config.json to ensure it was not removed from SCOREBOARD['fields_of_interest'].").
Proof.
  intros Hni H Hne.
  apply extract_entries_extracted in H; [|constructor].
  destruct records as [|record rest]; [congruence|].
  inversion H as [|? ? (_ & _ & Hkeys) _]; subst.
  assert (Hmissing : dict_get "event_date" record = None).
  { apply dict_get_None. intros Hin. apply Hkeys in Hin.
    destruct Hin as [E|Hin]; [discriminate | contradiction]. }
  unfold transform_json_data. simpl.
  now rewrite (add_date_and_time_1_missing _ Hmissing).
Qed.

Lemma transform_without_event_date_witness :
  let payload := [("2020-01-12",
                   VDict [("data",
                     VDict [("E1", VDict (samples.game "E1" "T1" "T2"))])])] in
  _extract_scoreboard_fields_of_interest ["away_team_id"] payload
  = Return [[("away_team_id", VStr "T1"); ("event_id", VStr "E1")]]
  /\ transform_json_data [[("away_team_id", VStr "T1"); ("event_id", VStr "E1")]]
       samples.rankings
     = Raise (KeyError event_date_missing).
Proof.
  intros payload. split; [reflexivity|].
  refine (transform_without_event_date ["away_team_id"] payload _ _ _ eq_refl _).
  - simpl. intuition discriminate.
  - discriminate.
Defined.

(** ** A date bucket of the wrong shape *)

Lemma extract_events_ill_shaped fields games :
  all_some (map (event_record fields) games) = None ->
  forall acc, exists msg,
    extract_events fields games acc = Raise (AttributeError msg).
Proof.
  induction games as [|[event_id event_data] games IH]; intros H acc.
  - discriminate.
  - cbn [map all_some] in H. unfold event_record at 1 in H. simpl in H. simpl.
    destruct event_data; simpl; eauto.
    destruct (all_some (map (event_record fields) games)) eqn:E;
      [discriminate|].
    apply IH. reflexivity.
Qed.

(** X14. A date bucket that is not empty and does not have the expected
    shape makes the extraction fail, whatever the buckets before it
    yielded: with [KeyError] for [data] when the bucket is a mapping
    without a [data] entry, with [TypeError] when the bucket is not a
    mapping, with [AttributeError] when [data] or one of its entries is
    not a mapping. *)
Theorem extract_scoreboard_ill_shaped
    (fields : list string) (payload before after : pydict)
    (day : string) (bucket : value) (days : list (list pydict)) :
  NoDup (keys payload) ->
  payload = (before ++ (day, bucket) :: after)%list ->
  all_some (map (day_records fields) (map snd before)) = Some days ->
  day_records fields bucket = None ->
  exists e,
    _extract_scoreboard_fields_of_interest fields payload = Raise e
    /\ match bucket with
       | VDict b =>
           match dict_get "data" b with
           | None => e = KeyError "data"
           | Some _ => exists msg, e = AttributeError msg
           end
       | _ => exists msg, e = TypeError msg
       end.
Proof.
  intros Hnd -> Hbefore Hbucket.
  unfold _extract_scoreboard_fields_of_interest.
  rewrite keys_app. cbn [keys map fst]. rewrite extract_entries_app.
  rewrite (extract_entries_days fields _ before) with (days := days);
    [|intros k v Hin; apply In_dict_get; [assumption | apply in_or_app; now left]
     |assumption].
  cbn [bind extract_entries]. unfold getitem.
  rewrite (In_dict_get day bucket) by
    (try assumption; apply in_or_app; right; now left).
  cbn [bind]. unfold day_records in Hbucket.
  destruct (truthy bucket); [|discriminate].
  destruct bucket as [| | | | |b]; simpl; eauto.
  unfold getitem. destruct (dict_get "data" b) as [data|]; simpl; [|eauto].
  destruct data as [| | | | |games]; simpl; eauto.
  cbn [app].
  destruct (extract_events_ill_shaped fields games Hbucket (concat days))
    as [msg ->].
  simpl. eauto.
Qed.

Lemma extract_scoreboard_ill_shaped_witness :
  let payload := [("2020-01-12", VList []);
                  ("2020-01-13", VDict [("games", VDict [])])] in
  exists e,
    _extract_scoreboard_fields_of_interest ["event_date"] payload = Raise e
    /\ e = KeyError "data".
Proof.
  intros payload.
  refine (extract_scoreboard_ill_shaped ["event_date"] payload
            [("2020-01-12", VList [])] [] "2020-01-13"
            (VDict [("games", VDict [])]) [[]] _ eq_refl eq_refl eq_refl).
  repeat constructor; simpl; intuition discriminate.
Defined.

(** ** [_extract_rankings_fields_of_interest] *)

Lemma extract_teams_dicts fields (teams : list pydict) :
  forall acc,
    extract_teams fields (map VDict teams) acc
    = Return (acc ++ map (fun team => filter_dictionary team fields) teams)%list.
Proof.
  induction teams as [|team teams IH]; intros acc; simpl.
  - now rewrite app_nil_r.
  - rewrite IH. now rewrite <- app_assoc.
Qed.

Lemma extract_teams_keys fields teams :
  forall acc out,
    Forall (fun record => forall k, In k (keys record) -> In k fields) acc ->
    extract_teams fields teams acc = Return out ->
    Forall (fun record => forall k, In k (keys record) -> In k fields) out.
Proof.
  induction teams as [|team teams IH]; intros acc out Hacc H; simpl in H.
  - now injection H as <-.
  - bind_inv H. eapply IH; [|exact H].
    apply Forall_app. split; [assumption|]. constructor; [|constructor].
    intros k Hk. now apply (filter_dictionary_keys_lemma a fields).
Qed.

(** X15. On a rankings payload whose [data] entry is a list of
    mappings, [_extract_rankings_fields_of_interest] returns the
    filtered mappings, one per team and in the same order; without a
    [data] entry it raises [KeyError]; and whenever it returns, no record
    has a key outside the fields of interest. *)
Theorem extract_rankings_spec (fields : list string) (payload : pydict) :
  (forall teams,
      dict_get "data" payload = Some (VList (map VDict teams)) ->
      _extract_rankings_fields_of_interest fields (VDict payload)
      = Return (map (fun team => filter_dictionary team fields) teams))
  /\ (dict_get "data" payload = None ->
      _extract_rankings_fields_of_interest fields (VDict payload)
      = Raise (KeyError "data"))
  /\ (forall records,
         _extract_rankings_fields_of_interest fields (VDict payload)
         = Return records ->
         Forall (fun record => forall k, In k (keys record) -> In k fields)
                records).
Proof.
  unfold _extract_rankings_fields_of_interest. simpl. unfold getitem.
  split; [|split].
  - intros teams ->. simpl. apply extract_teams_dicts.
  - intros ->. reflexivity.
  - intros records H. bind_inv H. bind_inv H.
    eapply extract_teams_keys; [|exact H]. constructor.
Qed.

Lemma extract_rankings_spec_witness :
  let payload := [("data", VList (map VDict samples.rankings))] in
  _extract_rankings_fields_of_interest ["team_id"; "rank"] (VDict payload)
  = Return [[("team_id", VStr "T1"); ("rank", VInt 5)];
            [("team_id", VStr "T2"); ("rank", VInt 2)]].
Proof.
  intros payload.
  exact (proj1 (extract_rankings_spec ["team_id"; "rank"] payload)
           samples.rankings eq_refl).
Defined.

(** ** [pull_json_data] once there is scoreboard data *)

(** X16. When the scoreboard fetch returns a non-empty list, the outcome
    of [pull_json_data] is decided by the rankings fetch: its result is
    returned with the scoreboard data; a [ValueError] it raises comes out
    with the advice about the starting date appended, a [TypeError] as
    the [ValueError] about the delta, and any other exception
    unchanged. *)
Theorem pull_json_data_with_scoreboard_data
    (_pull_scoreboard_data : string -> string -> result fetched)
    (_pull_team_rankings : unit -> result fetched)
    (start_date delta : string) (scoreboard_data : fetched) :
  _pull_scoreboard_data start_date delta = Return scoreboard_data ->
  fetched_truthy scoreboard_data = true ->
  pull_json_data _pull_scoreboard_data _pull_team_rankings start_date delta
  = match _pull_team_rankings tt with
    | Return team_ranking_data => Return (scoreboard_data, team_ranking_data)
    | Raise (ValueError ve) =>
        Raise (ValueError
                 (ve ++ ". "
                  ++ "Please pass a correct starting date, such as 2000-12-20."))
    | Raise (TypeError _) =>
        Raise (ValueError
                 "Must pass a time delta between 0 and 7 days (inclusive).")
    | Raise e => Raise e
    end.
Proof.
  intros Hdata Htruthy. unfold pull_json_data, pull_try. rewrite Hdata.
  unfold pull_finally. rewrite Htruthy. cbn [negb].
  destruct (_pull_team_rankings tt) as [r|e]; [reflexivity|].
  destruct e; reflexivity.
Qed.

Lemma pull_json_data_with_scoreboard_data_witness :
  let data := Some [samples.game "E1" "T1" "T2"] in
  pull_json_data (fun _ _ => Return data)
    (fun _ => Raise (TypeError "unsupported operand")) "2020-01-12" "7"
  = Raise (ValueError bad_delta_message).
Proof.
  intros data.
  exact (pull_json_data_with_scoreboard_data (fun _ _ => Return data)
           (fun _ => Raise (TypeError "unsupported operand"))
           "2020-01-12" "7" data eq_refl eq_refl).
Defined.

(** ** The fetchers *)

Lemma pull_no_data requests_get API_KEY SCOREBOARD_endpoint SCOREBOARD_fields
    RANKINGS_endpoint RANKINGS_fields start_date delta :
  (forall data,
      _pull_scoreboard_data requests_get API_KEY SCOREBOARD_fields
        start_date delta SCOREBOARD_endpoint API_KEY = Return data ->
      fetched_truthy data = false) ->
  pull requests_get API_KEY SCOREBOARD_endpoint SCOREBOARD_fields
    RANKINGS_endpoint RANKINGS_fields start_date delta
  = Raise (ValueError no_data_message).
Proof.
  intros H. unfold pull, pull_json_data, pull_try.
  destruct (_pull_scoreboard_data _ _ _ _ _ _ _) as [data|e].
  - unfold pull_finally. now rewrite (H data eq_refl).
  - reflexivity.
Qed.

(** X17. A scoreboard fetch that goes wrong never surfaces as such from
    [pull_json_data]: when the start date or the delta cannot be parsed,
    when the request fails or is answered with an error status (the
    [SystemExit] of the fetcher), or when the answer holds an empty list
    of results, what the caller gets is the [ValueError] about missing
    scoreboard data. *)
Theorem pull_scoreboard_failure
    (requests_get : string -> string -> get_outcome)
    (API_KEY SCOREBOARD_endpoint : string) (SCOREBOARD_fields : list string)
    (RANKINGS_endpoint : string) (RANKINGS_fields : list string)
    (start_date delta : string) :
  ((exists e, generate_end_date start_date delta fmt_Ymd = Raise e)
   \/ (exists end_date,
         generate_end_date start_date delta fmt_Ymd = Return end_date
         /\ let answer :=
              requests_get
                (endpoint_with_dates_imputed SCOREBOARD_endpoint
                   start_date end_date) API_KEY in
            (exists e, answer = ErrorResponse e)
            \/ (exists e, answer = RequestException e)
            \/ (exists body,
                   answer = OkResponse body
                   /\ subscript body "results" = Return (VList [])))) ->
  pull requests_get API_KEY SCOREBOARD_endpoint SCOREBOARD_fields
    RANKINGS_endpoint RANKINGS_fields start_date delta
  = Raise (ValueError
      "No scoreboard data was returned for the specified starting date and delta provided. Either no data exists, or a date out of range was entered by mistake. Please check that the starting date provided is correct.").
Proof.
  intros H. apply pull_no_data. intros data. unfold _pull_scoreboard_data.
  destruct H as [[e ->]|(end_date & -> & H)]; [discriminate|].
  cbn [bind]. cbv zeta in H.
  destruct H as [[e ->]|[[e ->]|(body & -> & ->)]]; try discriminate.
  simpl. intros [= <-]. reflexivity.
Qed.

Lemma pull_scoreboard_failure_witness :
  pull (fun _ _ => RequestException "connection refused") "key"
    "http://host/scoreboard/NFL.json" ["event_date"]
    "http://host/rankings.json" ["team_id"] "2020-01-12" "7"
  = Raise (ValueError no_data_message).
Proof.
  apply (pull_scoreboard_failure
           (fun _ _ => RequestException "connection refused")).
  right. exists "2020-01-19". split; [reflexivity|].
  right. left. eexists. reflexivity.
Defined.

(** ** The address of the scoreboard request *)

Lemma take_drop n s : take n s ++ drop n s = s.
Proof.
  revert s. induction n as [|n IH]; intros [|c s]; simpl; try reflexivity.
  now rewrite IH.
Qed.

Lemma occurrences_drop c n s :
  occurrences c s = 0%nat -> occurrences c (drop n s) = 0%nat.
Proof.
  revert s. induction n as [|n IH]; intros [|c' s]; simpl; auto.
  intros H. apply IH. lia.
Qed.

(** [rfind_from] returns the position of the last occurrence, after
    which the character does not occur; or [last] when there is none. *)
Lemma rfind_from_spec c s :
  forall i last,
    (rfind_from c s i last = last /\ occurrences c s = 0%nat)
    \/ (i <= rfind_from c s i last
        /\ occurrences c (drop (S (Z.to_nat (rfind_from c s i last - i))) s)
           = 0%nat).
Proof.
  induction s as [|c' s IH]; intros i last; simpl.
  - left. auto.
  - destruct (Ascii.eqb c' c) eqn:E.
    + right. destruct (IH (i + 1) i) as [[-> Ho]|[Hle Ho]].
      * split; [lia|]. replace (i - i) with 0 by lia. exact Ho.
      * split; [lia|].
        replace (Z.to_nat (rfind_from c s (i + 1) i - i))
          with (S (Z.to_nat (rfind_from c s (i + 1) i - (i + 1)))) by lia.
        exact Ho.
    + destruct (IH (i + 1) last) as [[-> Ho]|[Hle Ho]].
      * left. auto.
      * right. split; [lia|].
        replace (Z.to_nat (rfind_from c s (i + 1) last - i))
          with (S (Z.to_nat (rfind_from c s (i + 1) last - (i + 1)))) by lia.
        exact Ho.
Qed.

Lemma drop_drop n m s : drop n (drop m s) = drop (m + n) s.
Proof.
  revert s. induction m as [|m IH]; intros s; simpl; [reflexivity|].
  destruct s as [|c s]; [now destruct n | apply IH].
Qed.

Lemma splitext_scan_spec p filenameIndex dotIndex steps :
  splitext_scan p filenameIndex dotIndex steps = (p, "")
  \/ splitext_scan p filenameIndex dotIndex steps
     = (take (Z.to_nat dotIndex) p, drop (Z.to_nat dotIndex) p).
Proof.
  revert filenameIndex. induction steps as [|steps IH]; intros i; simpl.
  - now left.
  - destruct (negb (char_at p i =? ".")%string); [now right | apply IH].
Qed.

Lemma splitext_spec p :
  fst (splitext p) ++ snd (splitext p) = p
  /\ occurrences "/" (snd (splitext p)) = 0%nat.
Proof.
  unfold splitext.
  destruct (Z.gtb_spec (rfind "." p) (rfind "/" p)) as [Hgt|Hle];
    [|simpl; split; [apply append_empty_r | reflexivity]].
  destruct (splitext_scan_spec p (rfind "/" p + 1) (rfind "." p)
              (Z.to_nat (rfind "." p - (rfind "/" p + 1)))) as [->| ->];
    simpl; [split; [apply append_empty_r | reflexivity]|].
  split; [apply take_drop|].
  unfold rfind in *.
  destruct (rfind_from_spec "/" p 0 (-1)) as [[_ Ho]|[Hle Ho]].
  - now apply occurrences_drop.
  - rewrite Z.sub_0_r in Ho.
    replace (Z.to_nat (rfind_from "." p 0 (-1)))
      with (S (Z.to_nat (rfind_from "/" p 0 (-1)))
            + (Z.to_nat (rfind_from "." p 0 (-1))
               - S (Z.to_nat (rfind_from "/" p 0 (-1)))))%nat by lia.
    rewrite <- drop_drop. now apply occurrences_drop.
Qed.

(** ** [os.path.splitext] on the two shapes of a path *)

Lemma rfind_from_absent c s :
  occurrences c s = 0%nat -> forall i last, rfind_from c s i last = last.
Proof.
  induction s as [|c' s IH]; intros Ho i last; cbn [rfind_from]; [reflexivity|].
  cbn [occurrences] in Ho. destruct (Ascii.eqb c' c); [discriminate|].
  now apply IH.
Qed.

Lemma rfind_from_last c s t :
  occurrences c t = 0%nat ->
  forall i last,
    rfind_from c (s ++ String c t) i last = i + Z.of_nat (String.length s).
Proof.
  intros Ho. induction s as [|c' s IH]; intros i last.
  - cbn [append rfind_from String.length]. rewrite Ascii.eqb_refl.
    rewrite rfind_from_absent by assumption. lia.
  - cbn [append rfind_from String.length]. rewrite IH. lia.
Qed.

Lemma rfind_from_app_absent c s t :
  occurrences c t = 0%nat ->
  forall i last, rfind_from c (s ++ t) i last = rfind_from c s i last.
Proof.
  intros Ho. induction s as [|c' s IH]; intros i last.
  - cbn [append rfind_from]. now apply rfind_from_absent.
  - cbn [append rfind_from]. apply IH.
Qed.

Lemma rfind_from_bound c s :
  forall i last,
    rfind_from c s i last = last
    \/ i <= rfind_from c s i last < i + Z.of_nat (String.length s).
Proof.
  induction s as [|c' s IH]; intros i last; cbn [rfind_from String.length].
  - now left.
  - destruct (Ascii.eqb c' c).
    + right. destruct (IH (i + 1) i) as [-> | H]; lia.
    + destruct (IH (i + 1) last) as [-> | H]; [now left | right; lia].
Qed.

Lemma length_append s t :
  String.length (s ++ t) = (String.length s + String.length t)%nat.
Proof. induction s as [|c s IH]; cbn; [reflexivity | now rewrite IH]. Qed.

(** The last separator of a path whose last component follows an empty
    prefix or a prefix that ends with the separator. *)
Lemma rfind_separator prefix name :
  prefix = "" \/ (exists directory, prefix = directory ++ "/") ->
  occurrences "/" name = 0%nat ->
  rfind "/" (prefix ++ name) = Z.of_nat (String.length prefix) - 1.
Proof.
  intros [-> | [directory ->]] Ho; unfold rfind.
  - cbn [append String.length]. rewrite rfind_from_absent by assumption. lia.
  - rewrite string_app_assoc. cbn [append].
    rewrite rfind_from_last by assumption.
    rewrite length_append. cbn [String.length]. lia.
Qed.

Lemma rfind_dot_prefix prefix :
  prefix = "" \/ (exists directory, prefix = directory ++ "/") ->
  rfind "." prefix < Z.of_nat (String.length prefix) - 1 \/ rfind "." prefix = -1.
Proof.
  intros [-> | [directory ->]]; unfold rfind.
  - now right.
  - rewrite rfind_from_app_absent by reflexivity.
    rewrite length_append. cbn [String.length].
    destruct (rfind_from_bound "." directory 0 (-1)) as [-> | H];
      [now right | left; lia].
Qed.

Lemma take_app_length s t : take (String.length s) (s ++ t) = s.
Proof. induction s as [|c s IH]; cbn; [now destruct t | now rewrite IH]. Qed.

Lemma drop_app_length s t : drop (String.length s) (s ++ t) = t.
Proof. induction s as [|c s IH]; cbn; [now destruct t | exact IH]. Qed.

Lemma char_at_app front c back :
  char_at (front ++ String c back) (Z.of_nat (String.length front)) = String c "".
Proof. unfold char_at. rewrite Nat2Z.id, drop_app_length. reflexivity. Qed.

(** The scan returns the split at the dot when it meets a character
    other than a dot, and the whole path when it meets dots only. *)
Lemma splitext_scan_finds tail :
  all_chars (Ascii.eqb ".") tail = false ->
  forall front back dotIndex,
    splitext_scan (front ++ tail ++ back) (Z.of_nat (String.length front))
      dotIndex (String.length tail)
    = (take (Z.to_nat dotIndex) (front ++ tail ++ back),
       drop (Z.to_nat dotIndex) (front ++ tail ++ back)).
Proof.
  induction tail as [|c tail IH]; intros Hall front back dotIndex;
    [discriminate|].
  cbn [all_chars] in Hall. cbn [String.length splitext_scan append].
  rewrite char_at_app.
  destruct (Ascii.eqb "." c) eqn:E.
  - apply Ascii.eqb_eq in E. subst c. cbn [String.eqb Ascii.eqb Bool.eqb negb].
    cbn [andb] in Hall.
    replace (front ++ String "." (tail ++ back))
      with ((front ++ ".") ++ tail ++ back)
      by (rewrite string_app_assoc; reflexivity).
    replace (Z.of_nat (String.length front) + 1)
      with (Z.of_nat (String.length (front ++ ".")))
      by (rewrite length_append; cbn [String.length]; lia).
    now apply IH.
  - replace (String c "" =? ".")%string with false; [reflexivity|].
    symmetry. apply String.eqb_neq. intros [= ->]. discriminate.
Qed.

Lemma splitext_scan_dots run :
  all_chars (Ascii.eqb ".") run = true ->
  forall front back dotIndex,
    splitext_scan (front ++ run ++ back) (Z.of_nat (String.length front))
      dotIndex (String.length run)
    = (front ++ run ++ back, "").
Proof.
  induction run as [|c run IH]; intros Hall front back dotIndex;
    [reflexivity|].
  cbn [all_chars] in Hall. apply andb_true_iff in Hall. destruct Hall as [E Hall].
  apply Ascii.eqb_eq in E. subst c.
  cbn [String.length splitext_scan append]. rewrite char_at_app.
  cbn [String.eqb Ascii.eqb Bool.eqb negb].
  replace (front ++ String "." (run ++ back))
    with ((front ++ ".") ++ run ++ back)
    by (rewrite string_app_assoc; reflexivity).
  replace (Z.of_nat (String.length front) + 1)
    with (Z.of_nat (String.length (front ++ ".")))
    by (rewrite length_append; cbn [String.length]; lia).
  now apply IH.
Qed.

(** A run of dots is the same read from either end. *)
Lemma dots_snoc run :
  all_chars (Ascii.eqb ".") run = true -> String "." run = run ++ ".".
Proof.
  induction run as [|c run IH]; intros Hall; [reflexivity|].
  cbn [all_chars] in Hall. apply andb_true_iff in Hall. destruct Hall as [E Hall].
  apply Ascii.eqb_eq in E. subst c. cbn [append]. now rewrite <- IH.
Qed.

Lemma all_chars_occurrences run c :
  all_chars (Ascii.eqb ".") run = true -> c <> "."%char ->
  occurrences c run = 0%nat.
Proof.
  intros Hall Hc. induction run as [|c' run IH]; [reflexivity|].
  cbn [all_chars] in Hall. apply andb_true_iff in Hall. destruct Hall as [E Hall].
  apply Ascii.eqb_eq in E. subst c'. cbn [occurrences].
  replace (Ascii.eqb "." c) with false
    by (symmetry; apply Ascii.eqb_neq; congruence).
  now apply IH.
Qed.

(** A last component with a character other than a dot before its last
    dot: the extension starts at that dot. *)
Lemma splitext_extension prefix name extension :
  prefix = "" \/ (exists directory, prefix = directory ++ "/") ->
  occurrences "/" name = 0%nat ->
  all_chars (Ascii.eqb ".") name = false ->
  occurrences "/" extension = 0%nat ->
  occurrences "." extension = 0%nat ->
  splitext (prefix ++ name ++ "." ++ extension)
  = (prefix ++ name, "." ++ extension).
Proof.
  intros Hp Hname Hdots Hext Hext'. unfold splitext. cbv zeta.
  rewrite (rfind_separator prefix (name ++ "." ++ extension) Hp)
    by (rewrite !occurrences_app, Hname; cbn [occurrences Ascii.eqb Bool.eqb];
        now rewrite Hext).
  assert (Hdot : rfind "." (prefix ++ name ++ "." ++ extension)
                 = Z.of_nat (String.length (prefix ++ name))).
  { unfold rfind. rewrite <- string_app_assoc. cbn [append].
    rewrite rfind_from_last by assumption. lia. }
  rewrite Hdot, length_append.
  replace (Z.of_nat (String.length prefix + String.length name)
           >? Z.of_nat (String.length prefix) - 1) with true
    by (symmetry; apply Z.gtb_lt; lia).
  replace (Z.of_nat (String.length prefix) - 1 + 1)
    with (Z.of_nat (String.length prefix)) by lia.
  replace (Z.to_nat (Z.of_nat (String.length prefix + String.length name)
                     - Z.of_nat (String.length prefix)))
    with (String.length name) by lia.
  rewrite splitext_scan_finds by assumption.
  rewrite Nat2Z.id, <- length_append, <- string_app_assoc.
  now rewrite take_app_length, drop_app_length.
Qed.

(** A last component that is a run of dots followed by characters among
    which there is no dot: no extension. *)
Lemma splitext_no_extension prefix dots name :
  prefix = "" \/ (exists directory, prefix = directory ++ "/") ->
  all_chars (Ascii.eqb ".") dots = true ->
  occurrences "/" name = 0%nat ->
  occurrences "." name = 0%nat ->
  splitext (prefix ++ dots ++ name) = (prefix ++ dots ++ name, "").
Proof.
  intros Hp Hdots Hname Hname'. unfold splitext. cbv zeta.
  rewrite (rfind_separator prefix (dots ++ name) Hp)
    by (rewrite occurrences_app, Hname, all_chars_occurrences by
          (assumption || discriminate); reflexivity).
  destruct dots as [|c run].
  - cbn [append]. unfold rfind.
    rewrite rfind_from_app_absent by assumption. fold (rfind "." prefix).
    destruct (Z.gtb_spec (rfind "." prefix)
                (Z.of_nat (String.length prefix) - 1)) as [Hgt|_];
      [|reflexivity].
    destruct (rfind_dot_prefix prefix Hp) as [H|H]; lia.
  - pose proof Hdots as Hall. cbn [all_chars] in Hall.
    apply andb_true_iff in Hall. destruct Hall as [E Hrun].
    apply Ascii.eqb_eq in E. subst c.
    rewrite (dots_snoc run Hrun).
    assert (Hdot : rfind "." (prefix ++ (run ++ ".") ++ name)
                   = Z.of_nat (String.length (prefix ++ run))).
    { unfold rfind.
      replace (prefix ++ (run ++ ".") ++ name)
        with ((prefix ++ run) ++ String "." name)
        by (rewrite !string_app_assoc; reflexivity).
      rewrite rfind_from_last by assumption. lia. }
    rewrite Hdot, length_append.
    destruct (Z.gtb_spec (Z.of_nat (String.length prefix + String.length run))
                (Z.of_nat (String.length prefix) - 1)) as [_|Hle]; [|lia].
    replace (Z.of_nat (String.length prefix) - 1 + 1)
      with (Z.of_nat (String.length prefix)) by lia.
    replace (Z.to_nat (Z.of_nat (String.length prefix + String.length run)
                       - Z.of_nat (String.length prefix)))
      with (String.length run) by lia.
    replace (prefix ++ (run ++ ".") ++ name)
      with (prefix ++ run ++ String "." name)
      by (rewrite !string_app_assoc; reflexivity).
    now apply splitext_scan_dots.
Qed.

(** X18. The address of the scoreboard request is the endpoint with
    [/start/end] put in front of the extension of its last component.
    The last component is what follows the last [/] of the endpoint (the
    whole endpoint when it has none).  When it has a dot after a
    character other than a dot, its extension starts at its last dot and
    the dates go in front of that dot; when it has no dot, or only dots
    in front of everything else, it has no extension and the dates go at
    the end.  In every case the endpoint is a root followed by an
    extension without [/], and the address is the root, [/], the start
    date, [/], the end date, then the extension. *)
Theorem endpoint_with_dates_imputed_spec (start_date end_date : string) :
  (forall prefix name extension,
      prefix = "" \/ (exists directory, prefix = directory ++ "/") ->
      occurrences "/" name = 0%nat ->
      all_chars (Ascii.eqb ".") name = false ->
      occurrences "/" extension = 0%nat ->
      occurrences "." extension = 0%nat ->
      endpoint_with_dates_imputed (prefix ++ name ++ "." ++ extension)
        start_date end_date
      = prefix ++ name ++ "/" ++ start_date ++ "/" ++ end_date
        ++ "." ++ extension)
  /\ (forall prefix dots name,
         prefix = "" \/ (exists directory, prefix = directory ++ "/") ->
         all_chars (Ascii.eqb ".") dots = true ->
         occurrences "/" name = 0%nat ->
         occurrences "." name = 0%nat ->
         endpoint_with_dates_imputed (prefix ++ dots ++ name)
           start_date end_date
         = prefix ++ dots ++ name ++ "/" ++ start_date ++ "/" ++ end_date)
  /\ (forall endpoint,
         exists root extension,
           endpoint = root ++ extension
           /\ occurrences "/" extension = 0%nat
           /\ endpoint_with_dates_imputed endpoint start_date end_date
              = root ++ "/" ++ start_date ++ "/" ++ end_date ++ extension).
Proof.
  split; [|split].
  - intros prefix name extension Hp H1 H2 H3 H4.
    unfold endpoint_with_dates_imputed.
    rewrite splitext_extension by assumption.
    now rewrite !string_app_assoc.
  - intros prefix dots name Hp H1 H2 H3. unfold endpoint_with_dates_imputed.
    rewrite splitext_no_extension by assumption.
    now rewrite append_empty_r, !string_app_assoc.
  - intros endpoint. unfold endpoint_with_dates_imputed.
    destruct (splitext_spec endpoint) as [E Ho].
    destruct (splitext endpoint) as [root extension]. simpl in E, Ho.
    exists root, extension. split; [now symmetry|]. split; [assumption|].
    rewrite !string_app_assoc. reflexivity.
Qed.

Lemma endpoint_with_dates_imputed_spec_witness :
  endpoint_with_dates_imputed
    "https://delivery.chalk247.com/scoreboard/NFL.json"
    "2020-01-12" "2020-01-19"
  = "https://delivery.chalk247.com/scoreboard/NFL/2020-01-12/2020-01-19.json"
  /\ endpoint_with_dates_imputed
       "https://delivery.chalk247.com/scoreboard/NFL"
       "2020-01-12" "2020-01-19"
     = "https://delivery.chalk247.com/scoreboard/NFL/2020-01-12/2020-01-19".
Proof.
  assert (Hp : "https://delivery.chalk247.com/scoreboard/" = ""
               \/ exists directory,
                    "https://delivery.chalk247.com/scoreboard/"
                    = directory ++ "/")
    by (right; exists "https://delivery.chalk247.com/scoreboard"; reflexivity).
  split.
  - exact (proj1 (endpoint_with_dates_imputed_spec "2020-01-12" "2020-01-19")
             "https://delivery.chalk247.com/scoreboard/" "NFL" "json"
             Hp eq_refl eq_refl eq_refl eq_refl).
  - exact (proj1 (proj2 (endpoint_with_dates_imputed_spec
                           "2020-01-12" "2020-01-19"))
             "https://delivery.chalk247.com/scoreboard/" "" "NFL"
             Hp eq_refl eq_refl eq_refl).
Defined.

(** ** What the transform copies *)

Lemma join_event_copies team_rankings vars event vars' ordered k :
  join_event team_rankings vars event = Return (vars', ordered) ->
  In k desired_key_order ->
  k <> "away_rank" -> k <> "away_rank_points" ->
  k <> "home_rank" -> k <> "home_rank_points" ->
  dict_get k ordered = dict_get k event.
Proof.
  unfold join_event. intros H Hin N1 N2 N3 N4.
  repeat (bind_inv H). injection H as <- <-.
  apply reorder_desired in Hstep6. destruct Hstep6 as [_ Hget].
  rewrite (Hget k Hin).
  rewrite !dict_get_set_other by congruence. reflexivity.
Qed.

(** The transform seen from one input record, field by field. *)
Lemma transform_record scoreboard_data team_rankings out i event :
  transform_json_data scoreboard_data team_rankings = Return out ->
  nth_error scoreboard_data i = Some event ->
  exists record s date time,
    nth_error out i = Some record
    /\ keys record = desired_key_order
    /\ (forall k, In k copied_fields -> dict_get k record = dict_get k event)
    /\ dict_get "event_date" event = Some (VStr s)
    /\ split_datetime s fmt_Ymd_HM = Return (date, time)
    /\ dict_get "event_date" record = Some (VStr date)
    /\ dict_get "event_time" record = Some (VStr time).
Proof.
  intros H Hi.
  destruct (transform_nth _ _ _ _ _ H Hi)
    as (event' & v0 & v1 & record & H1 & Hj & Ho).
  pose proof (add_date_and_time_1_inv _ _ H1) as (s & date & time & Hs & Hsplit & E).
  exists record, s, date, time.
  split; [assumption|]. split.
  { apply join_event_inv in Hj.
    destruct Hj as (? & ? & ? & ? & ? & ? & _ & _ & _ & _ & Hk & _). exact Hk. }
  split; [|split; [assumption | split; [assumption|]]].
  - intros k Hk.
    rewrite (join_event_copies _ _ _ _ _ k Hj);
      try (intros ->; simpl in Hk; intuition discriminate).
    + apply (add_date_and_time_1_other _ _ _ H1);
        intros ->; simpl in Hk; intuition discriminate.
    + unfold copied_fields in Hk. unfold desired_key_order. simpl in *.
      intuition auto.
  - rewrite (join_event_copies _ _ _ _ _ "event_date" Hj);
      try discriminate; try (simpl; tauto).
    rewrite (join_event_copies _ _ _ _ _ "event_time" Hj);
      try discriminate; try (simpl; tauto).
    subst event'. split.
    + rewrite dict_get_set_other by discriminate. apply dict_get_set_same.
    + apply dict_get_set_same.
Qed.

(** X19. A successful transform keeps the events in their order, one
    record per event, and copies the event's identifier, team ids, nick
    names and cities unchanged into the record at the same position; the
    record's [event_date] and [event_time] are the two halves that
    [split_datetime] makes of the event's date-time string. *)
Theorem transform_copies_fields
    (scoreboard_data team_rankings out : list pydict) :
  transform_json_data scoreboard_data team_rankings = Return out ->
  length out = length scoreboard_data
  /\ forall i event,
       nth_error scoreboard_data i = Some event ->
       exists record s date time,
         nth_error out i = Some record
         /\ (forall k,
                In k ["event_id"; "away_team_id"; "away_nick_name";
                      "away_city"; "home_team_id"; "home_nick_name";
                      "home_city"] ->
                dict_get k record = dict_get k event)
         /\ dict_get "event_date" event = Some (VStr s)
         /\ split_datetime s fmt_Ymd_HM = Return (date, time)
         /\ dict_get "event_date" record = Some (VStr date)
         /\ dict_get "event_time" record = Some (VStr time).
Proof.
  intros H. split; [exact (transform_length _ _ _ H)|].
  intros i event Hi.
  destruct (transform_record _ _ _ _ _ H Hi)
    as (record & s & date & time & H1 & _ & H3 & H4 & H5 & H6 & H7).
  exists record, s, date, time. auto 7.
Qed.

Lemma transform_copies_fields_witness :
  length [samples.joined "E1" "T1" "T2" 5 10 2 20]
  = length [samples.game "E1" "T1" "T2"].
Proof.
  exact (proj1 (transform_copies_fields [samples.game "E1" "T1" "T2"]
                  samples.rankings [samples.joined "E1" "T1" "T2" 5 10 2 20]
                  eq_refl)).
Defined.

(** X20. The transform never returns when some event lacks one of the
    eight fields it reads ([event_id], [event_date], the two team ids,
    nick names and cities): it fails, wherever the event is in the
    sequence. *)
Theorem transform_requires_fields
    (scoreboard_data team_rankings : list pydict) (event : pydict) (k : string) :
  In event scoreboard_data ->
  In k ["event_id"; "event_date"; "away_team_id"; "away_nick_name";
        "away_city"; "home_team_id"; "home_nick_name"; "home_city"] ->
  dict_get k event = None ->
  exists e, transform_json_data scoreboard_data team_rankings = Raise e.
Proof.
  intros Hin Hk Hnone.
  destruct (transform_json_data scoreboard_data team_rankings) as [out|e] eqn:H;
    [|eauto].
  exfalso. apply In_nth_error in Hin. destruct Hin as [i Hi].
  destruct (transform_record _ _ _ _ _ H Hi)
    as (record & s & date & time & _ & Hkeys & Hcopy & Hs & _).
  destruct (String.eqb_spec k "event_date") as [->|Hne]; [congruence|].
  assert (Hc : In k copied_fields).
  { unfold copied_fields. simpl in *. intuition congruence. }
  specialize (Hcopy k Hc). rewrite Hnone in Hcopy.
  apply dict_get_None in Hcopy. apply Hcopy. rewrite Hkeys.
  unfold copied_fields in Hc. unfold desired_key_order. simpl in *.
  intuition auto.
Qed.

Lemma transform_requires_fields_witness :
  let bare := [("event_date", VStr "2020-01-12 18:30");
               ("away_team_id", VStr "T1"); ("home_team_id", VStr "T2")] in
  exists e,
    transform_json_data [samples.game "E1" "T1" "T2"; bare] samples.rankings
    = Raise e.
Proof.
  intros bare.
  refine (transform_requires_fields [samples.game "E1" "T1" "T2"; bare]
            samples.rankings bare "away_city" _ _ eq_refl);
    simpl; tauto.
Defined.

(** ** [main] *)

Lemma pull_json_data_Return fs fr start_date delta scoreboard_data rankings :
  pull_json_data fs fr start_date delta = Return (scoreboard_data, rankings) ->
  exists first rest, scoreboard_data = Some (first :: rest).
Proof.
  unfold pull_json_data, pull_try, pull_finally.
  destruct (fs start_date delta) as [data|e]; cbn [negb fetched_truthy];
    [|discriminate].
  destruct data as [[|first rest]|]; cbn [negb fetched_truthy];
    try discriminate.
  intros H. bind_inv H. injection H as <- _. eauto.
Qed.

Lemma transform_canonical_records scoreboard_data team_rankings out :
  transform_json_data scoreboard_data team_rankings = Return out ->
  Forall (fun record => keys record = desired_key_order) out.
Proof.
  intros H. apply Forall_forall. intros record Hin.
  apply In_nth_error in Hin. destruct Hin as [i Hi].
  assert (Hlt : (i < length scoreboard_data)%nat).
  { pose proof (transform_length _ _ _ H) as Hlen.
    assert (Hout : (i < length out)%nat) by (apply nth_error_Some; intros E;
          discriminate (eq_trans (eq_sym Hi) E)).
    lia. }
  apply nth_error_Some in Hlt.
  destruct (nth_error scoreboard_data i) as [event|] eqn:He; [|congruence].
  destruct (transform_record _ _ _ _ _ H He)
    as (record' & _ & _ & _ & Hr & Hkeys & _).
  injection (eq_trans (eq_sym Hi) Hr) as ->. exact Hkeys.
Qed.

(** X21. Whatever the network and the configuration, a run of [main]
    either fails before anything is written, or hands the writer, as its
    last step, a sequence of records that is not empty and whose records
    all carry exactly the thirteen canonical keys in the canonical
    order. *)
Theorem main_writes_canonical_records
    (requests_get : string -> string -> get_outcome)
    (API_KEY SCOREBOARD_endpoint : string) (SCOREBOARD_fields : list string)
    (RANKINGS_endpoint : string) (RANKINGS_fields : list string)
    (argc : Z) (argv : list string) :
  (exists e, forall load_out_json_data,
        main requests_get API_KEY SCOREBOARD_endpoint SCOREBOARD_fields
          RANKINGS_endpoint RANKINGS_fields load_out_json_data argc argv
        = Raise e)
  \/ (exists records,
         records <> []
         /\ Forall (fun record => keys record = desired_key_order) records
         /\ forall load_out_json_data,
              main requests_get API_KEY SCOREBOARD_endpoint SCOREBOARD_fields
                RANKINGS_endpoint RANKINGS_fields load_out_json_data argc argv
              = load_out_json_data records).
Proof.
  unfold main.
  destruct (check_command_line_arguments argc argv) as [[]|e];
    [|left; exists e; reflexivity].
  destruct (list_item argv 1) as [start_date|e]; [|left; exists e; reflexivity].
  destruct (list_item argv 2) as [delta|e]; [|left; exists e; reflexivity].
  cbn [bind]. unfold pull.
  destruct (pull_json_data _ _ start_date delta) as [[sb rk]|e] eqn:Hpull;
    [|left; exists e; reflexivity].
  cbn [bind fst snd].
  apply pull_json_data_Return in Hpull. destruct Hpull as (first & rest & ->).
  unfold transform_fetched. destruct rk as [team_rankings|].
  - destruct (transform_json_data (first :: rest) team_rankings)
      as [out|e] eqn:Ht; [|left; exists e; reflexivity].
    right. exists out. split; [|split; [|reflexivity]].
    + apply transform_length in Ht. destruct out; [discriminate | discriminate].
    + eapply transform_canonical_records, Ht.
  - left. destruct (add_date_and_time (first :: rest)) as [split|e] eqn:Hs;
      [|exists e; reflexivity].
    apply add_date_and_time_length in Hs.
    destruct split as [|event split']; [discriminate|]. cbn [bind].
    destruct (getitem event "away_team_id") as [a|e];
      [|exists e; reflexivity].
    destruct (getitem event "home_team_id") as [h|e];
      [|exists e; reflexivity].
    exists not_iterable. reflexivity.
Qed.

(** A run that reaches the writer. *)
Example main_reaches_the_writer :
  let scoreboard :=
    VDict [("results",
      VDict [("2020-01-11", VList []);
             ("2020-01-12",
              VDict [("data",
                VDict [("E1", VDict (samples.game "X" "T1" "T2"))])])])] in
  let rankings :=
    VDict [("results", VDict [("data", VList (map VDict samples.rankings))])] in
  let requests_get := fun url (_ : string) =>
    if String.eqb url "http://host/scoreboard/NFL/2020-01-12/2020-01-19.json"
    then OkResponse scoreboard
    else if String.eqb url "http://host/rankings.json"
         then OkResponse rankings
         else RequestException "unknown host" in
  forall load_out_json_data,
    main requests_get "key" "http://host/scoreboard/NFL.json" event_fields
      "http://host/rankings.json" ["team_id"; "rank"; "adjusted_points"]
      load_out_json_data 3 ["main.py"; "2020-01-12"; "7"]
    = load_out_json_data [samples.joined "E1" "T1" "T2" 5 10 2 20].
Proof. reflexivity. Qed.

(** X22. When both requests are answered with [ok] responses, the
    scoreboard results are a mapping from which the extraction gets at
    least one record, and the rankings results hold a list of mappings
    under [data], [pull_json_data] returns the extracted scoreboard
    records together with the filtered ranking records. *)
Theorem pull_returns_both
    (requests_get : string -> string -> get_outcome)
    (API_KEY SCOREBOARD_endpoint : string) (SCOREBOARD_fields : list string)
    (RANKINGS_endpoint : string) (RANKINGS_fields : list string)
    (start_date delta end_date : string)
    (scoreboard_body rankings_body : value)
    (payload rankings_payload : pydict)
    (first : pydict) (rest teams : list pydict) :
  generate_end_date start_date delta fmt_Ymd = Return end_date ->
  requests_get
    (endpoint_with_dates_imputed SCOREBOARD_endpoint start_date end_date)
    API_KEY = OkResponse scoreboard_body ->
  subscript scoreboard_body "results" = Return (VDict payload) ->
  _extract_scoreboard_fields_of_interest SCOREBOARD_fields payload
  = Return (first :: rest) ->
  requests_get RANKINGS_endpoint API_KEY = OkResponse rankings_body ->
  subscript rankings_body "results" = Return (VDict rankings_payload) ->
  dict_get "data" rankings_payload = Some (VList (map VDict teams)) ->
  pull requests_get API_KEY SCOREBOARD_endpoint SCOREBOARD_fields
    RANKINGS_endpoint RANKINGS_fields start_date delta
  = Return (Some (first :: rest),
            Some (map (fun team => filter_dictionary team RANKINGS_fields)
                      teams)).
Proof.
  intros Hend Hsb Hresults Hextract Hrk Hrankings Hdata.
  unfold pull, pull_json_data, pull_try, _pull_scoreboard_data.
  rewrite Hend. cbn [bind]. rewrite Hsb, Hresults. cbn [bind extract_scoreboard].
  rewrite Hextract. cbn [bind].
  unfold _pull_team_rankings. rewrite Hrk, Hrankings. cbn [bind].
  unfold _extract_rankings_fields_of_interest. cbn [subscript]. unfold getitem.
  rewrite Hdata. cbn [bind iterate]. rewrite extract_teams_dicts.
  reflexivity.
Qed.

Lemma pull_returns_both_witness :
  let scoreboard :=
    VDict [("results",
      VDict [("2020-01-12",
              VDict [("data",
                VDict [("E1", VDict (samples.game "X" "T1" "T2"))])])])] in
  let rankings :=
    VDict [("results", VDict [("data", VList (map VDict samples.rankings))])] in
  let requests_get := fun url (_ : string) =>
    if String.eqb url "http://host/rankings.json"
    then OkResponse rankings else OkResponse scoreboard in
  pull requests_get "key" "http://host/scoreboard/NFL.json" ["away_team_id"]
    "http://host/rankings.json" ["team_id"] "2020-01-12" "7"
  = Return (Some [[("away_team_id", VStr "T1"); ("event_id", VStr "E1")]],
            Some [[("team_id", VStr "T1")]; [("team_id", VStr "T2")]]).
Proof.
  intros scoreboard rankings requests_get.
  exact (pull_returns_both requests_get "key" "http://host/scoreboard/NFL.json"
           ["away_team_id"] "http://host/rankings.json" ["team_id"]
           "2020-01-12" "7" "2020-01-19" scoreboard rankings
           [("2020-01-12",
             VDict [("data",
               VDict [("E1", VDict (samples.game "X" "T1" "T2"))])])]
           [("data", VList (map VDict samples.rankings))]
           [("away_team_id", VStr "T1"); ("event_id", VStr "E1")] []
           samples.rankings
           eq_refl eq_refl eq_refl eq_refl eq_refl eq_refl eq_refl).
Defined.
